(** * unspotify: playlist paging, track normalisation, tagging

    A shallow embedding of [unspotify.py] and [src/spotify.py].

    Python values are modelled as follows.
    - [str] is [string]; a character outside ASCII is the sequence of its
      UTF-8 bytes.  Every separator the program splits on is ASCII, and an
      ASCII byte never occurs inside a multi-byte sequence, so splitting the
      bytes is splitting the code points.
    - [int] is [Z] (Python integers are unbounded).
    - A raised exception is the [Raise] case of [result]; the state reached
      before the [raise] is kept, as in Python.
    - The dictionaries of the catalogue's JSON answers are records holding
      the keys the program reads.
    - What the libraries under the tag writer decide (what mutagen's [add]
      does with a frame whose key is taken, which names [with_name]
      accepts in which version of Python) is a field of the environment a
      run takes. *)

From Stdlib Require Import ZArith List String Ascii Bool Lia DecimalString.
From stdpp Require Import base list strings.
Import ListNotations.

Local Open Scope string_scope.
Local Open Scope Z_scope.

(** ** Exceptions and results *)

Inductive exn : Type :=
| ValueError (msg : string)
| OverflowError
| IndexError
| AttributeError (attr : string)
| AssertionError
| StopIteration
| OSError.

Inductive result (A : Type) : Type :=
| Ok (a : A)
| Raise (e : exn).
Arguments Ok {A} a.
Arguments Raise {A} e.

Definition is_Ok {A} (r : result A) : bool :=
  match r with Ok _ => true | Raise _ => false end.

Definition result_bind {A B} (r : result A) (k : A -> result B) : result B :=
  match r with
  | Ok a => k a
  | Raise e => Raise e
  end.

Declare Scope result_scope.
Delimit Scope result_scope with result.
Notation "'let?' x ':=' r 'in' k" := (result_bind r (fun x => k))
  (at level 10, x name, r at level 100, k at level 200) : result_scope.

(** ** The Python built-ins the program calls *)

Module Py.

(** [s.split(sep)] for a separator of one character.  The answer always
    has at least one element. *)
Fixpoint split (sep : ascii) (s : string) : list string :=
  match s with
  | EmptyString => [EmptyString]
  | String c s' =>
      if Ascii.eqb c sep then EmptyString :: split sep s'
      else match split sep s' with
           | [] => [String c EmptyString]
           | w :: ws => String c w :: ws
           end
  end.

(** [c in s] for a character. *)
Fixpoint contains (c : ascii) (s : string) : bool :=
  match s with
  | EmptyString => false
  | String a s' => Ascii.eqb a c || contains c s'
  end.

(** [l[-1]] *)
Fixpoint last_item {A} (l : list A) : result A :=
  match l with
  | [] => Raise IndexError
  | [x] => Ok x
  | _ :: l' => last_item l'
  end.

(** [len(l)] *)
Definition len {A} (l : list A) : Z := Z.of_nat (length l).

(** [l[i]]: a negative index counts from the end. *)
Definition item {A} (l : list A) (i : Z) : result A :=
  let j := if i <? 0 then len l + i else i in
  if j <? 0 then Raise IndexError
  else match l !! Z.to_nat j with
       | Some x => Ok x
       | None => Raise IndexError
       end.

(** The decimal digits of an integer, with a minus sign when negative. *)
Definition decimal (n : Z) : string := NilZero.string_of_int (Z.to_int n).

(** The default of [sys.get_int_max_str_digits()]: conversions between
    [int] and [str] refuse more digits. *)
Definition MAX_STR_DIGITS : nat := 4300.

(** [str(n)] for an integer. *)
Definition str (n : Z) : result string :=
  let s := decimal (Z.abs n) in
  if (MAX_STR_DIGITS <? String.length s)%nat
  then Raise (ValueError "Exceeds the limit (4300 digits) for integer string conversion; use sys.set_int_max_str_digits() to increase the limit")
  else Ok (decimal n).

(** [s.isascii()]: every byte of the string is below 128. *)
Fixpoint isascii (s : string) : bool :=
  match s with
  | EmptyString => true
  | String c s' => (nat_of_ascii c <? 128)%nat && isascii s'
  end.

(** The white space [int] skips in an ASCII string: tab, line feed,
    vertical tab, form feed, carriage return and space. *)
Definition isspace (c : ascii) : bool :=
  let n := nat_of_ascii c in
  ((9 <=? n) && (n <=? 13) || (n =? 32))%nat.

Definition digit (c : ascii) : option Z :=
  let n := nat_of_ascii c in
  if ((48 <=? n) && (n <=? 57))%nat then Some (Z.of_nat n - 48) else None.

Fixpoint lstrip (s : string) : string :=
  match s with
  | String c s' => if isspace c then lstrip s' else s
  | EmptyString => EmptyString
  end.

(** The run of digits and single underscores (PEP 515) a string starts
    with: its value in base ten, the number of its digits and what
    follows it.  [None] when two underscores meet or an underscore ends
    the run.  [acc] and [count] are the value and the number of the
    digits read so far, [prev_underscore] tells whether the last
    character read was an underscore. *)
Fixpoint scan_digits (acc : Z) (count : nat) (prev_underscore : bool) (s : string)
  : option (Z * nat * string) :=
  match s with
  | EmptyString => if prev_underscore then None else Some (acc, count, s)
  | String c s' =>
      match digit c with
      | Some d => scan_digits (10 * acc + d) (S count) false s'
      | None =>
          if Ascii.eqb c "_" then
            if prev_underscore then None else scan_digits acc count true s'
          else if prev_underscore then None
          else Some (acc, count, s)
      end
  end.

(** [int(s)] for a string, in the order of CPython's parser: leading
    white space, an optional sign, a run of digits that does not start
    with an underscore, the limit on the number of digits, trailing white
    space, the end of the string.  A string is the sequence of the bytes
    of its UTF-8 form, and the model is that of [int] on ASCII strings
    ([isascii]): Python also reads the decimal digits and the white space
    of other scripts, which the model answers with [ValueError].  The
    messages show the string between quotes, where Python shows its
    [repr]. *)
Definition int (s : string) : result Z :=
  let invalid :=
    Raise (ValueError ("invalid literal for int() with base 10: '" ++ s ++ "'")%string) in
  let unsigned :=
    match lstrip s with
    | String "-" r => (true, r)
    | String "+" r => (false, r)
    | r => (false, r)
    end in
  match snd unsigned with
  | String "_" _ => invalid
  | body =>
      match scan_digits 0 0 false body with
      | None => invalid
      | Some (n, count, rest) =>
          if (MAX_STR_DIGITS <? count)%nat then
            Raise (ValueError ("Exceeds the limit (4300 digits) for integer string conversion: value has "
                               ++ decimal (Z.of_nat count)
                               ++ " digits; use sys.set_int_max_str_digits() to increase the limit")%string)
          else if (count =? 0)%nat then invalid
          else match lstrip rest with
               | EmptyString => Ok (if fst unsigned then - n else n)
               | String _ _ => invalid
               end
      end
  end.

End Py.

(** ** [datetime.date] *)

Module datetime.

Record date : Type := mk_date { year : Z; month : Z; day : Z }.

Definition MINYEAR : Z := 1.
Definition MAXYEAR : Z := 9999.

Definition is_leap (y : Z) : bool :=
  (y mod 4 =? 0) && (negb (y mod 100 =? 0) || (y mod 400 =? 0)).

Definition days_in_month (y m : Z) : Z :=
  if m =? 2 then (if is_leap y then 29 else 28)
  else if (m =? 4) || (m =? 6) || (m =? 9) || (m =? 11) then 30
  else 31.

(** The arguments of the constructor are converted to C [int]s first. *)
Definition fits_int (n : Z) : bool := (- 2147483648 <=? n) && (n <=? 2147483647).

(** [datetime.date(y, m, d)]: the checks of the constructor, in its
    order (messages as CPython 3.11 to 3.13 word them). *)
Definition new (y m d : Z) : result date :=
  if negb (fits_int y && fits_int m && fits_int d) then Raise OverflowError
  else if negb ((MINYEAR <=? y) && (y <=? MAXYEAR)) then
    Raise (ValueError ("year " ++ Py.decimal y ++ " is out of range")%string)
  else if negb ((1 <=? m) && (m <=? 12)) then
    Raise (ValueError "month must be in 1..12")
  else if negb ((1 <=? d) && (d <=? days_in_month y m)) then
    Raise (ValueError "day is out of range for month")
  else Ok (mk_date y m d).

End datetime.

(** ** The catalogue's raw records

    The keys the program reads of a track of the catalogue's JSON answer.
    A precision tag is a string or [None]. *)

Module Image.
Record t : Type := mk { url : string; height : Z }.
End Image.

Module Artist.
Record t : Type := mk { name : string }.
End Artist.

Module Album.
Record t : Type := mk {
  name : string;
  images : list Image.t;
  release_date : string;
  release_date_precision : option string
}.
End Album.

Module Track.
Record t : Type := mk {
  name : string;
  artists : list Artist.t;
  track_number : Z;
  disc_number : Z;
  album : Album.t
}.
End Track.

(** One element of [tracks["items"]]. *)
Record Item : Type := mk_Item { track : Track.t }.

(** The answer of [playlist_tracks]. *)
Record Page : Type := mk_Page { items : list Item }.

(** ** Normalised tracks *)

Module UnspotifyTrackInfo.
(** [album_image_url] is [None] while the attribute has not been
    assigned: the class only annotates it. *)
Record t : Type := mk {
  name : string;
  artist : string;
  track_number : Z;
  disc_number : Z;
  album_name : string;
  album_image_url : option string;
  release_date : option datetime.date
}.

(** Reading [info.album_image_url]. *)
Definition get_album_image_url (info : t) : result string :=
  match album_image_url info with
  | Some u => Ok u
  | None => Raise (AttributeError "album_image_url")
  end.
End UnspotifyTrackInfo.

Module SpotlessTrackInfo.
(** Modelled from the spec: [src/spotless.py], which declares
    [SpotlessTrackInfo], is not among the sources.  The record has the
    fields [_construct_track] passes by keyword, with the types of the
    spec's TrackInfo; the cover URL and the release date take the value
    [None] as the caller passes it. *)
Record t : Type := mk {
  name : string;
  artists : list string;
  track_number : Z;
  album_name : string;
  album_image_url : option string;
  release_date : option datetime.date
}.
End SpotlessTrackInfo.

(** ** The track metadata normaliser *)

(** The cover scan of both normalisers (unspotify.py lines 31 to 36,
    spotify.py lines 23 to 29): the state of the loop is
    [max_album_image_size] and the URL assigned so far, if any. *)
Definition cover_step (st : Z * option string) (image : Image.t)
  : Z * option string :=
  if Image.height image >? fst st
  then (Image.height image, Some (Image.url image))
  else st.

Definition cover_scan (album_images : list Image.t) : Z * option string :=
  fold_left cover_step album_images (0, None).

Section Normaliser.

(** [datetime.date.fromisoformat]: the program hands it the release date
    of a day-precision album.  Its parsing is the library's and is left
    open; [None] stands for the [ValueError] it raises on a string it
    does not accept. *)
Variable fromisoformat : string -> option datetime.date.

(** The [match] on the precision tag, the same in both normalisers
    (unspotify.py lines 38 to 58, spotify.py lines 32 to 52).  A literal
    pattern matches by equality, and the cases are tried in order. *)
Definition normalise_release_date (album : Album.t)
  : result (option datetime.date) :=
  let p := Album.release_date_precision album in
  (if decide (p = Some "day") then
     match fromisoformat (Album.release_date album) with
     | Some d => Ok (Some d)
     | None =>
         Raise (ValueError ("Invalid isoformat string: '"
                            ++ Album.release_date album ++ "'")%string)
     end
   else if decide (p = Some "month") then
     let release_date_parts := Py.split "-" (Album.release_date album) in
     let? p0 := Py.item release_date_parts 0 in
     let? y := Py.int p0 in
     let? p1 := Py.item release_date_parts 1 in
     let? m := Py.int p1 in
     let? d := datetime.new y (m + 1) 1 in
     Ok (Some d)
   else if decide (p = Some "year") then
     let? y := Py.int (Album.release_date album) in
     let? d := datetime.new y 1 1 in
     Ok (Some d)
   else
     match p with
     | None => Ok None
     | Some p => Raise (ValueError ("Unsupported precision «" ++ p ++ "»")%string)
     end)%result.

(** [UnspotifyTrackInfo.__init__] *)
Definition UnspotifyTrackInfo_init (track : Track.t)
  : result UnspotifyTrackInfo.t :=
  (let name := Track.name track in
   let? artist0 := Py.item (Track.artists track) 0 in
   let artist := Artist.name artist0 in
   let track_number := Track.track_number track in
   let disc_number := Track.disc_number track in
   let album_name := Album.name (Track.album track) in
   let album_image_url := snd (cover_scan (Album.images (Track.album track))) in
   let? release_date := normalise_release_date (Track.album track) in
   Ok (UnspotifyTrackInfo.mk name artist track_number disc_number
         album_name album_image_url release_date))%result.

(** [_SpotifyPlaylistIterator._construct_track] *)
Definition _construct_track (track : Track.t) : result SpotlessTrackInfo.t :=
  (let album_image_url := snd (cover_scan (Album.images (Track.album track))) in
   let? release_date := normalise_release_date (Track.album track) in
   Ok (SpotlessTrackInfo.mk
         (Track.name track)
         (map Artist.name (Track.artists track))
         (Track.track_number track)
         (Album.name (Track.album track))
         album_image_url
         release_date))%result.

End Normaliser.

(** ** The remote catalogue *)

(** A call of [playlist_tracks], as the client sends it. *)
Record Request : Type := mk_Request {
  req_playlist_id : string;
  req_limit : Z;
  req_offset : Z
}.

(** The [spotipy.Spotify] client: [playlist] answers the name of a
    playlist, [playlist_tracks] a page of it or [None]. *)
Record Spotify : Type := mk_Spotify {
  playlist : string -> string;
  playlist_tracks : string -> Z -> Z -> option Page
}.

(** The requests sent so far, oldest first. *)
Definition World : Type := list Request.

(** ** State and exceptions

    A method runs on the pair of its object and the world; an exception
    leaves both as they were when it was raised. *)

Definition M (S A : Type) : Type := S -> result A * S.

Definition ret {S A} (a : A) : M S A := fun s => (Ok a, s).

Definition bind {S A B} (m : M S A) (k : A -> M S B) : M S B :=
  fun s => match m s with
           | (Ok a, s') => k a s'
           | (Raise e, s') => (Raise e, s')
           end.

Definition raise {S A} (e : exn) : M S A := fun s => (Raise e, s).

Definition lift {S A} (r : result A) : M S A := fun s => (r, s).

Definition get {S} : M S S := fun s => (Ok s, s).

Definition modify {S} (f : S -> S) : M S unit := fun s => (Ok tt, f s).

Declare Scope monad_scope.
Delimit Scope monad_scope with monad.
Notation "x <- m ;; k" := (bind m (fun x => k))
  (at level 100, m at next level, right associativity) : monad_scope.
Notation "m ;; k" := (bind m (fun _ => k))
  (at level 100, right associativity) : monad_scope.

(** [sp.playlist_tracks(playlist_id=..., limit=..., offset=...)] from a
    method of an object of type [O]: the request is logged. *)
Definition call_playlist_tracks {O} (sp : Spotify) (playlist_id : string)
  (limit offset : Z) : M (O * World) (option Page) :=
  fun s => (Ok (playlist_tracks sp playlist_id limit offset),
            (fst s, (snd s ++ [mk_Request playlist_id limit offset])%list)).

(** ** Playlists *)

Module UnspotifyPlaylist.
Record t : Type := mk {
  name : string;
  _sp : Spotify;
  _playlist_id : string;
  _current_pos : Z;
  _current_tracks : list Item
}.

Definition set_current_tracks (v : list Item) (self : t) : t :=
  mk (name self) (_sp self) (_playlist_id self) (_current_pos self) v.

Definition set_current_pos (v : Z) (self : t) : t :=
  mk (name self) (_sp self) (_playlist_id self) v (_current_tracks self).
End UnspotifyPlaylist.

Module SpotifyPlaylistIterator.
Record t : Type := mk {
  _sp : Spotify;
  _playlist_id : string;
  _position : Z;
  _current_tracks : list Item
}.

Definition set_current_tracks (v : list Item) (self : t) : t :=
  mk (_sp self) (_playlist_id self) (_position self) v.

Definition set_position (v : Z) (self : t) : t :=
  mk (_sp self) (_playlist_id self) v (_current_tracks self).
End SpotifyPlaylistIterator.

Module SpotifyPlaylist.
Record t : Type := mk {
  name : string;
  _sp : Spotify;
  _playlist_id : string
}.
End SpotifyPlaylist.

(** [UnspotifyPlaylist.__init__] *)
Definition UnspotifyPlaylist_init (sp : Spotify) (playlist_id : string)
  : UnspotifyPlaylist.t :=
  UnspotifyPlaylist.mk (playlist sp playlist_id) sp playlist_id 0 [].

(** The identifier [UnspotifyPlaylist.from_url] hands to the constructor:
    [playlist_url.split("/")[-1].split("&")[0]]. *)
Definition UnspotifyPlaylist_url_id (playlist_url : string) : result string :=
  (let? seg := Py.last_item (Py.split "/" playlist_url) in
   Py.item (Py.split "&" seg) 0)%result.

(** [UnspotifyPlaylist.from_url] *)
Definition UnspotifyPlaylist_from_url (sp : Spotify) (playlist_url : string)
  : result UnspotifyPlaylist.t :=
  (let? playlist_id := UnspotifyPlaylist_url_id playlist_url in
   Ok (UnspotifyPlaylist_init sp playlist_id))%result.

(** [_SpotifyPlaylistIterator.__init__] *)
Definition SpotifyPlaylistIterator_init (sp : Spotify) (playlist_id : string)
  : SpotifyPlaylistIterator.t :=
  SpotifyPlaylistIterator.mk sp playlist_id 0 [].

(** [SpotifyPlaylist.__init__]; [sp] stands for the client the constructor
    builds with [spotipy.Spotify(auth_manager=SpotifyOAuth())]. *)
Definition SpotifyPlaylist_init (sp : Spotify) (playlist_id : string)
  : SpotifyPlaylist.t :=
  SpotifyPlaylist.mk (playlist sp playlist_id) sp playlist_id.

(** The identifier [SpotifyPlaylist.from_url] hands to the constructor:
    [playlist_url.split("/")[-1].split("?")[0]]. *)
Definition SpotifyPlaylist_url_id (playlist_url : string) : result string :=
  (let? seg := Py.last_item (Py.split "/" playlist_url) in
   Py.item (Py.split "?" seg) 0)%result.

(** [SpotifyPlaylist.from_url] *)
Definition SpotifyPlaylist_from_url (sp : Spotify) (playlist_url : string)
  : result SpotifyPlaylist.t :=
  (let? playlist_id := SpotifyPlaylist_url_id playlist_url in
   Ok (SpotifyPlaylist_init sp playlist_id))%result.

Section Iteration.

Variable fromisoformat : string -> option datetime.date.

(** [UnspotifyPlaylist.__next__] *)
Definition UnspotifyPlaylist_next
  : M (UnspotifyPlaylist.t * World) UnspotifyTrackInfo.t :=
  (s <- get ;;
   let self := fst s in
   (if UnspotifyPlaylist._current_pos self mod 100 =? 0 then
      tracks <- call_playlist_tracks
                  (UnspotifyPlaylist._sp self)
                  (UnspotifyPlaylist._playlist_id self)
                  100
                  (100 * (UnspotifyPlaylist._current_pos self / 100)) ;;
      match tracks with
      | None => raise AssertionError
      | Some tracks =>
          modify (fun s => (UnspotifyPlaylist.set_current_tracks (items tracks) (fst s), snd s))
      end
    else ret tt) ;;
   modify (fun s =>
     (UnspotifyPlaylist.set_current_pos
        (UnspotifyPlaylist._current_pos (fst s) + 1) (fst s), snd s)) ;;
   s <- get ;;
   let self := fst s in
   if UnspotifyPlaylist._current_pos self mod 100
        >=? Py.len (UnspotifyPlaylist._current_tracks self)
   then raise StopIteration
   else
     it <- lift (Py.item (UnspotifyPlaylist._current_tracks self)
                   (UnspotifyPlaylist._current_pos self mod 100)) ;;
     lift (UnspotifyTrackInfo_init fromisoformat (track it)))%monad.

(** [_SpotifyPlaylistIterator.__next__] *)
Definition SpotifyPlaylistIterator_next
  : M (SpotifyPlaylistIterator.t * World) SpotlessTrackInfo.t :=
  (s <- get ;;
   let self := fst s in
   (if SpotifyPlaylistIterator._position self mod 100 =? 0 then
      tracks <- call_playlist_tracks
                  (SpotifyPlaylistIterator._sp self)
                  (SpotifyPlaylistIterator._playlist_id self)
                  100
                  (100 * (SpotifyPlaylistIterator._position self / 100)) ;;
      match tracks with
      | None => raise AssertionError
      | Some tracks =>
          modify (fun s => (SpotifyPlaylistIterator.set_current_tracks (items tracks) (fst s), snd s))
      end
    else ret tt) ;;
   modify (fun s =>
     (SpotifyPlaylistIterator.set_position
        (SpotifyPlaylistIterator._position (fst s) + 1) (fst s), snd s)) ;;
   s <- get ;;
   let self := fst s in
   if SpotifyPlaylistIterator._position self mod 100
        >=? Py.len (SpotifyPlaylistIterator._current_tracks self)
   then raise StopIteration
   else
     it <- lift (Py.item (SpotifyPlaylistIterator._current_tracks self)
                   (SpotifyPlaylistIterator._position self mod 100)) ;;
     lift (_construct_track fromisoformat (track it)))%monad.

(** [list(it)]: [next] is called until it raises; [StopIteration] ends
    the list, any other exception leaves [list].  [fuel] bounds the
    number of calls; [None] says the bound was reached first. *)
Fixpoint py_list {S A} (next : M S A) (fuel : nat) (acc : list A) (s : S)
  : option (result (list A) * S) :=
  match fuel with
  | O => None
  | Datatypes.S fuel' =>
      match next s with
      | (Ok x, s') => py_list next fuel' (acc ++ [x])%list s'
      | (Raise StopIteration, s') => Some (Ok acc, s')
      | (Raise e, s') => Some (Raise e, s')
      end
  end.

(** [list(playlist)] of [download_playlist] *)
Definition UnspotifyPlaylist_list (fuel : nat)
  : UnspotifyPlaylist.t * World
    -> option (result (list UnspotifyTrackInfo.t) * (UnspotifyPlaylist.t * World)) :=
  py_list UnspotifyPlaylist_next fuel [].

(** [SpotifyPlaylist.fetch_tracks] *)
Definition SpotifyPlaylist_fetch_tracks (fuel : nat) (self : SpotifyPlaylist.t)
  (w : World)
  : option (result (list SpotlessTrackInfo.t) * (SpotifyPlaylistIterator.t * World)) :=
  py_list SpotifyPlaylistIterator_next fuel []
    (SpotifyPlaylistIterator_init (SpotifyPlaylist._sp self)
       (SpotifyPlaylist._playlist_id self), w).

End Iteration.

(** ** A catalogue holding one playlist

    The client of a catalogue whose playlist has the tracks [catalogue]:
    a page holds the [limit] tracks from [offset] on, fewer at the end of
    the playlist, none past it. *)
Definition catalogue_client (playlist_name : string) (catalogue : list Track.t)
  : Spotify :=
  mk_Spotify
    (fun _ => playlist_name)
    (fun _ limit offset =>
       Some (mk_Page (map mk_Item
                        (take (Z.to_nat limit) (drop (Z.to_nat offset) catalogue))))).

(** The track number [i] of a test playlist: its name is the decimal
    numeral of [i]; it has one artist, one cover image and an album dated
    by its year. *)
Definition numbered_track (i : nat) : Track.t :=
  Track.mk (Py.decimal (Z.of_nat i)) [Artist.mk "artist"] (Z.of_nat i + 1) 1
    (Album.mk "album" [Image.mk "https://img.example.com/640" 640] "2024"
       (Some "year")).

Definition numbered_catalogue (n : nat) : list Track.t :=
  map numbered_track (seq 0 n).

(** ** [pathlib] on a POSIX system

    The program asks for no version of Python.  [pathlib] reads paths
    and their names in the same way in Python 3.11 and 3.12, and the two
    versions differ on the names [with_name] accepts: the rule is a
    parameter. *)

Module pathlib.

(** A parsed path: [root] is [""], ["/"] or ["//"]; [parts] are the
    components below the root. *)
Record Path : Type := mk { root : string; parts : list string }.

Fixpoint lstrip_sep (s : string) : string :=
  match s with
  | String "/" s' => lstrip_sep s'
  | _ => s
  end.

(** The components of a path below its root: what stands between the
    separators, but for the empty strings and ["."]. *)
Definition components (s : string) : list string :=
  filter (fun x => x <> "" /\ x <> ".") (Py.split "/" s).

(** [Path(s)]: empty components and ["."] are dropped; exactly two
    leading separators are kept as a root of their own. *)
Definition parse (s : string) : Path :=
  let stripped := lstrip_sep s in
  let n := (String.length s - String.length stripped)%nat in
  let root := if (n =? 0)%nat then "" else if (n =? 2)%nat then "//" else "/" in
  mk root (components stripped).

Fixpoint join (l : list string) : string :=
  match l with
  | [] => ""
  | [x] => x
  | x :: l' => x ++ "/" ++ join l'
  end%string.

(** [str(p)] *)
Definition str (p : Path) : string :=
  match root p, parts p with
  | "", [] => "."
  | r, l => (r ++ join l)%string
  end.

(** [p.name] *)
Definition name (p : Path) : string := List.last (parts p) "".


(** [s.rfind(c)] for a character; [None] stands for [-1]. *)
Fixpoint rfind (c : ascii) (s : string) : option nat :=
  match s with
  | EmptyString => None
  | String a s' =>
      match rfind c s' with
      | Some i => Some (S i)
      | None => if Ascii.eqb a c then Some O else None
      end
  end.

(** [s[:i]] and [s[i:]] for [0 <= i]. *)
Fixpoint take (i : nat) (s : string) : string :=
  match i, s with
  | S i', String a s' => String a (take i' s')
  | _, _ => EmptyString
  end.

Fixpoint drop (i : nat) (s : string) : string :=
  match i, s with
  | S i', String _ s' => drop i' s'
  | _, _ => s
  end.

(** The place of the dot that starts the suffix of a file name, if it
    has a suffix: [0 < i < len(name) - 1] for [i = name.rfind(".")]. *)
Definition suffix_start (name : string) : option nat :=
  match rfind "." name with
  | Some i =>
      if ((0 <? i) && (Z.of_nat i <? Z.of_nat (String.length name) - 1)%Z)%nat
      then Some i else None
  | None => None
  end.

(** [p.suffix] *)
Definition suffix (p : Path) : string :=
  match suffix_start (name p) with
  | Some i => drop i (name p)
  | None => ""
  end.

(** [p.stem] *)
Definition stem (p : Path) : string :=
  match suffix_start (name p) with
  | Some i => take i (name p)
  | None => name p
  end.

(** [s[-1] == "/"], false of the empty string. *)
Fixpoint ends_with_sep (s : string) : bool :=
  match s with
  | EmptyString => false
  | String c EmptyString => Ascii.eqb c "/"
  | String _ s' => ends_with_sep s'
  end.

Inductive version : Type := Py311 | Py312.

(** The names [with_name] accepts.  Python 3.11 parses the name as a
    path and wants no root, one component and no separator at the end:
    [not name or name[-1] in [sep, altsep] or drv or root or
    len(parts) != 1] is what it refuses.  Python 3.12 refuses
    [not name or sep in name or name == "."], and so do the versions
    after it. *)
Definition valid_name (v : version) (new_name : string) : bool :=
  match v with
  | Py311 =>
      negb (bool_decide (new_name = "")) && negb (ends_with_sep new_name)
      && bool_decide (root (parse new_name) = "")
      && (length (parts (parse new_name)) =? 1)%nat
  | Py312 =>
      negb (bool_decide (new_name = "") || Py.contains "/" new_name
            || bool_decide (new_name = "."))
  end.

(** [p.with_name(name)]: the new name takes the place of the last
    component as it is written.  The second message shows the name
    between quotes, where Python shows its [repr]. *)
Definition with_name (v : version) (p : Path) (new_name : string) : result Path :=
  if bool_decide (name p = "") then
    Raise (ValueError ("PosixPath('" ++ str p ++ "') has an empty name")%string)
  else if valid_name v new_name then
    Ok (mk (root p) (removelast (parts p) ++ [new_name])%list)
  else Raise (ValueError ("Invalid name '" ++ new_name ++ "'")%string).

(** [p.with_stem(stem)] *)
Definition with_stem (v : version) (p : Path) (new_stem : string) : result Path :=
  with_name v p (new_stem ++ suffix p)%string.

End pathlib.

(** ** The tag writer *)

(** The ID3 frames the program builds.  A text frame carries its encoding
    and its text. *)
Inductive Frame : Type :=
| TOFN (encoding : Z) (text : string)
| TIT2 (encoding : Z) (text : string)
| TPE2 (encoding : Z) (text : string)
| TRCK (encoding : Z) (text : string)
| TALB (encoding : Z) (text : string)
| TORY (encoding : Z) (text : string)
| APIC (mime : string) (type : Z) (desc : string) (data : string).

(** The key mutagen keeps a frame under ([Frame.HashKey]): the
    identifier of the frame, followed for a picture by its description. *)
Definition HashKey (f : Frame) : string :=
  match f with
  | TOFN _ _ => "TOFN"
  | TIT2 _ _ => "TIT2"
  | TPE2 _ _ => "TPE2"
  | TRCK _ _ => "TRCK"
  | TALB _ _ => "TALB"
  | TORY _ _ => "TORY"
  | APIC _ _ desc _ => ("APIC:" ++ desc)%string
  end.

(** What a run of the tag writer does to the world outside the process. *)
Inductive Event : Type :=
| EvSave (path : string) (frames : list Frame)
| EvRename (src dst : string)
| EvPrint (msg : string).

(** What the program runs in.  The outcome of the operations that leave
    the process: loading the tag of a file ([mutagen.id3.ID3(path)],
    which answers the frames the file has), reading a URL, saving the tag
    and renaming a file.  The libraries it runs on: [add] is
    [mutagen.id3.ID3.add] on the frames a tag holds, which keeps the
    frames under their keys and decides what becomes of a frame whose key
    is taken; [python] is the rule of [pathlib] for new names. *)
Record Env : Type := mk_Env {
  ID3 : string -> result (list Frame);
  urlopen_read : string -> result string;
  save : string -> list Frame -> result unit;
  rename : string -> string -> result unit;
  add : list Frame -> Frame -> list Frame;
  python : pathlib.version
}.

(** The state of a run: the frames the tag object [file] holds and the
    events so far, oldest first. *)
Record TagState : Type := mk_TagState {
  file : list Frame;
  events : list Event
}.

(** [file.add(frame)] *)
Definition file_add (env : Env) (f : Frame) : M TagState unit :=
  modify (fun s => mk_TagState (add env (file s) f) (events s)).

Definition emit (e : Event) : M TagState unit :=
  modify (fun s => mk_TagState (file s) (events s ++ [e])%list).

(** [UnspotifyYTDownloader._set_track_metadata] *)
Definition _set_track_metadata (env : Env) (path : string)
  (info : UnspotifyTrackInfo.t) : M TagState unit :=
  (loaded <- lift (ID3 env path) ;;
   modify (fun s => mk_TagState loaded (events s)) ;;
   file_add env (TOFN 3 (pathlib.stem (pathlib.parse path))) ;;
   file_add env (TIT2 3 (UnspotifyTrackInfo.name info)) ;;
   file_add env (TPE2 3 (UnspotifyTrackInfo.artist info)) ;;
   track_number <- lift (Py.str (UnspotifyTrackInfo.track_number info)) ;;
   file_add env (TRCK 3 track_number) ;;
   file_add env (TALB 3 (UnspotifyTrackInfo.album_name info)) ;;
   match UnspotifyTrackInfo.release_date info with
   | Some d =>
       year <- lift (Py.str (datetime.year d)) ;;
       file_add env (TORY 3 year)
   | None => ret tt
   end ;;
   url <- lift (UnspotifyTrackInfo.get_album_image_url info) ;;
   data <- lift (urlopen_read env url) ;;
   file_add env (APIC "image/jpeg" 3 "Cover" data) ;;
   s <- get ;;
   lift (save env path (file s)) ;;
   emit (EvSave path (file s)) ;;
   dst <- lift (pathlib.with_stem (python env) (pathlib.parse path)
                  (UnspotifyTrackInfo.artist info ++ " - "
                   ++ UnspotifyTrackInfo.name info)%string) ;;
   lift (rename env path (pathlib.str dst)) ;;
   emit (EvRename path (pathlib.str dst)) ;;
   emit (EvPrint ("	Finished saving «" ++ UnspotifyTrackInfo.name info ++ "».")%string))%monad.

(** The state a run starts in. *)
Definition tag_start : TagState := mk_TagState [] [].

(** ** The logger handed to the download backend *)

(** [s.startswith(prefix)] *)
Fixpoint startswith (s prefix : string) : bool :=
  match prefix, s with
  | EmptyString, _ => true
  | String p prefix', String c s' => Ascii.eqb c p && startswith s' prefix'
  | String _ _, EmptyString => false
  end.

(** What [print] has written, oldest line first. *)
Definition Stdout : Type := list string.

(** [print(msg)] on a state that holds the output. *)
Definition print_line (msg : string) : M Stdout unit :=
  modify (fun out => (out ++ [msg])%list).

(** [_UnspotifyYTLogger.info] and [_UnspotifyYTLogger.warning]: the body
    is [...]. *)
Definition Logger_info (msg : string) : M Stdout unit := ret tt.

Definition Logger_warning (msg : string) : M Stdout unit := ret tt.

(** [_UnspotifyYTLogger.debug] *)
Definition Logger_debug (msg : string) : M Stdout unit :=
  if startswith msg "[debug] " then ret tt else Logger_info msg.

(** [_UnspotifyYTLogger.error] *)
Definition Logger_error (msg : string) : M Stdout unit := print_line msg.

(** ** The download driver *)

Module UnspotifyYTDownloader.
Record t : Type := mk {
  _current_pos : Z;
  _current_tracks : list UnspotifyTrackInfo.t
}.
End UnspotifyYTDownloader.

(** [UnspotifyYTDownloader.__init__] *)
Definition UnspotifyYTDownloader_init : UnspotifyYTDownloader.t :=
  UnspotifyYTDownloader.mk 0 [].

(** What the driver does outside its object: the lines it prints and the
    threads it starts, each with the arguments [(path, info)] of its
    target [_set_track_metadata].  A thread is started and left alone;
    what it does is a run of the tag writer. *)
Record DriverWorld : Type := mk_DriverWorld {
  stdout : Stdout;
  threads : list (string * UnspotifyTrackInfo.t)
}.

(** [UnspotifyYTDownloader._track_downloaded]: the hook the backend calls
    with the path of each file it has finished.  The progress line is
    formatted before it is printed, so the track is indexed first. *)
Definition _track_downloaded (path : string)
  : M (UnspotifyYTDownloader.t * DriverWorld) unit :=
  (s <- get ;;
   let self := fst s in
   let pos := UnspotifyYTDownloader._current_pos self in
   let tracks := UnspotifyYTDownloader._current_tracks self in
   i <- lift (Py.str (pos + 1)) ;;
   n <- lift (Py.str (Py.len tracks)) ;;
   t <- lift (Py.item tracks pos) ;;
   modify (fun s =>
     (fst s,
      mk_DriverWorld
        (stdout (snd s)
         ++ [("(" ++ i ++ "/" ++ n ++ ") 	Downloaded «"
              ++ UnspotifyTrackInfo.name t ++ "»...")%string])%list
        (threads (snd s)))) ;;
   info <- lift (Py.item tracks pos) ;;
   modify (fun s =>
     (fst s,
      mk_DriverWorld (stdout (snd s)) (threads (snd s) ++ [(path, info)])%list)) ;;
   modify (fun s =>
     (UnspotifyYTDownloader.mk
        (UnspotifyYTDownloader._current_pos (fst s) + 1)
        (UnspotifyYTDownloader._current_tracks (fst s)),
      snd s)))%monad.

(** The options [download_playlist] builds for [yt_dlp.YoutubeDL]; the
    logger is an [_UnspotifyYTLogger]. *)
Record YdlOpts : Type := mk_YdlOpts {
  format : string;
  outtmpl : string;
  postprocessors : list (list (string * string))
}.

(** The call [ydl.download(queries)] on a backend built with [opts]. *)
Record Download : Type := mk_Download {
  opts : YdlOpts;
  queries : list string
}.

(** The search query of a track: [f"ytsearch:{t.artist} {t.name}"]. *)
Definition search_query (t : UnspotifyTrackInfo.t) : string :=
  ("ytsearch:" ++ UnspotifyTrackInfo.artist t ++ " "
   ++ UnspotifyTrackInfo.name t)%string.

Section Driver.

Variable fromisoformat : string -> option datetime.date.

(** [UnspotifyYTDownloader.download_playlist], up to its call of the
    backend: the answer is that call.  During the call the backend runs
    [_track_downloaded] once for each file it finishes.  The state is the
    driver, and the playlist with the catalogue's request log; [fuel]
    bounds [list(playlist)] and [None] says the bound was reached. *)
Definition download_playlist (fuel : nat)
  (self : UnspotifyYTDownloader.t) (playlist : UnspotifyPlaylist.t * World)
  : option (result Download
            * (UnspotifyYTDownloader.t * (UnspotifyPlaylist.t * World))) :=
  match UnspotifyPlaylist_list fromisoformat fuel playlist with
  | None => None
  | Some (Raise e, playlist') => Some (Raise e, (self, playlist'))
  | Some (Ok tracks, playlist') =>
      let self' :=
        UnspotifyYTDownloader.mk (UnspotifyYTDownloader._current_pos self) tracks in
      let ydl_opts :=
        mk_YdlOpts "mp3/bestaudio/best"
          ("./" ++ UnspotifyPlaylist.name (fst playlist') ++ "/%(title)s.%(ext)s")%string
          [[("key", "FFmpegExtractAudio"); ("preferredcodec", "mp3")]] in
      Some (Ok (mk_Download ydl_opts
                  (map search_query (UnspotifyYTDownloader._current_tracks self'))),
            (self', playlist'))
  end.

End Driver.

(** [_SpotifyPlaylistIterator.__len__] *)
Definition SpotifyPlaylistIterator_len (self : SpotifyPlaylistIterator.t) : Z := 0.

(** [UnspotifyPlaylist.__iter__] *)
Definition UnspotifyPlaylist_iter (self : UnspotifyPlaylist.t)
  : UnspotifyPlaylist.t := self.

(** * The vocabulary of the statements *)

(** The value of a string of decimal digits, and of nothing else. *)
Fixpoint digits_value (acc : Z) (s : string) : option Z :=
  match s with
  | EmptyString => Some acc
  | String c s' =>
      match Py.digit c with
      | Some d => digits_value (10 * acc + d) s'
      | None => None
      end
  end.

(** A parser of the extended calendar form [YYYY-MM-DD], four, two and
    two digits, which answers [None] on every other string
    ([date.fromisoformat] also reads the basic form and the week forms).
    The statements on the normalisers hold for every parser, and this one
    instantiates them. *)
Definition fromisoformat_ymd (s : string) : option datetime.date :=
  match Py.split "-" s with
  | [y; m; d] =>
      if ((String.length y =? 4) && (String.length m =? 2)
          && (String.length d =? 2))%nat
      then match digits_value 0 y, digits_value 0 m, digits_value 0 d with
           | Some y', Some m', Some d' =>
               match datetime.new y' m' d' with
               | Ok date => Some date
               | Raise _ => None
               end
           | _, _, _ => None
           end
      else None
  | _ => None
  end.

(** A track of one artist whose album has the release date [date] with
    the precision tag [precision] and the cover images [images]. *)
Definition sample_track (images : list Image.t) (date : string)
  (precision : option string) : Track.t :=
  Track.mk "Song" [Artist.mk "Artist"] 3 1 (Album.mk "Album" images date precision).

(** [u] is the URL of the first image of the greatest height, and that
    height is positive. *)
Definition first_tallest (images : list Image.t) (u : string) : Prop :=
  exists (i : nat) (image : Image.t),
    images !! i = Some image
    /\ Image.url image = u
    /\ 0 < Image.height image
    /\ (forall (j : nat) (image' : Image.t),
           images !! j = Some image' ->
           Image.height image' <= Image.height image)
    /\ (forall (j : nat) (image' : Image.t),
           (j < i)%nat -> images !! j = Some image' ->
           Image.height image' < Image.height image).

(** What a scan leaves behind: a URL chosen as above, or none when no
    image has a positive height. *)
Definition cover_chosen (images : list Image.t) (o : option string) : Prop :=
  match o with
  | Some u => first_tallest images u
  | None => forall image, In image images -> Image.height image <= 0
  end.

(** Four images of heights 64, 300, 300 and 150: the earlier image of
    height 300 is the one chosen. *)
Definition sample_images : list Image.t :=
  [Image.mk "https://img.example.com/64" 64;
   Image.mk "https://img.example.com/300" 300;
   Image.mk "https://img.example.com/300b" 300;
   Image.mk "https://img.example.com/150" 150].

(** The exceptions a normaliser can raise. *)
Definition normaliser_exn (e : exn) : Prop :=
  e = IndexError \/ e = OverflowError \/ exists msg, e = ValueError msg.

(** The request [UnspotifyPlaylist.__next__] sends at a page boundary. *)
Definition UnspotifyPlaylist_request (self : UnspotifyPlaylist.t) : Request :=
  mk_Request (UnspotifyPlaylist._playlist_id self) 100
    (100 * (UnspotifyPlaylist._current_pos self / 100)).

Definition SpotifyPlaylistIterator_request (self : SpotifyPlaylistIterator.t)
  : Request :=
  mk_Request (SpotifyPlaylistIterator._playlist_id self) 100
    (100 * (SpotifyPlaylistIterator._position self / 100)).

(** A client that has lost the playlist: every page request returns
    [None]. *)
Definition silent_client : Spotify := mk_Spotify (fun _ => "Mix") (fun _ _ _ => None).

(** The requests for the pages at the offsets [offsets], 100 tracks each. *)
Definition page_requests (playlist_id : string) (offsets : list Z) : list Request :=
  map (mk_Request playlist_id 100) offsets.

(** The names of the numbered tracks with the numbers [l]. *)
Definition numbered_names (l : list nat) : list string :=
  map (fun i => Py.decimal (Z.of_nat i)) l.

(** The state of an [UnspotifyPlaylist] inside its first page. *)
Definition unspotify_at (name : string) (sp : Spotify) (id : string)
  (k : nat) (page : list Track.t) : UnspotifyPlaylist.t :=
  UnspotifyPlaylist.mk name sp id (Z.of_nat k) (map mk_Item page).


(** The stem the tag writer renames to: [f"{info.artist} - {info.name}"]. *)
Definition new_stem (info : UnspotifyTrackInfo.t) : string :=
  (UnspotifyTrackInfo.artist info ++ " - " ++ UnspotifyTrackInfo.name info)%string.

(** A string that is one component of a path when written in it: not
    empty, not ["."], without a separator. *)
Definition component (w : string) : Prop :=
  w <> "" /\ w <> "." /\ Py.contains "/" w = false.



(** An [add] that puts a frame in the place of the frame of its key, or
    after the others when the key is free. *)
Fixpoint add_by_key (tag : list Frame) (f : Frame) : list Frame :=
  match tag with
  | [] => [f]
  | f' :: tag' =>
      if bool_decide (HashKey f' = HashKey f) then f :: tag'
      else f' :: add_by_key tag' f
  end.

(** An environment in which every operation succeeds: the file holds two
    frames already, one of them under the key of a frame the program
    adds; the cover is four bytes. *)
Definition sample_env : Env :=
  mk_Env (fun _ => Ok [TOFN 3 "Lavf"; TIT2 3 "untitled"]) (fun _ => Ok "JPEG")
    (fun _ _ => Ok tt) (fun _ _ => Ok tt) add_by_key pathlib.Py312.

(** The same on Python 3.11. *)
Definition sample_env_311 : Env :=
  mk_Env (fun _ => Ok [TOFN 3 "Lavf"; TIT2 3 "untitled"]) (fun _ => Ok "JPEG")
    (fun _ _ => Ok tt) (fun _ _ => Ok tt) add_by_key pathlib.Py311.

Definition sample_info : UnspotifyTrackInfo.t :=
  UnspotifyTrackInfo.mk "Mr. Brightside" "The Killers" 2 1 "Hot Fuss"
    (Some "https://img.example.com/640") (Some (datetime.mk_date 2004 1 1)).

Definition sample_path : string := "./Mix/The Killers - Mr. Brightside (Official).mp3".

(** The paging that [UnspotifyPlaylist.__next__] and
    [_SpotifyPlaylistIterator.__next__] share, on the two fields it
    changes: the position and the page held.  The two methods are shown
    below to run it, each with its normaliser. *)
Record Cursor : Type := mk_Cursor { c_pos : Z; c_page : list Item }.

Definition paged_next {T} (normalise : Track.t -> result T) (sp : Spotify)
  (id : string) : M (Cursor * World) T :=
  fun s =>
    let c := fst s in
    let w := snd s in
    let boundary := c_pos c mod 100 =? 0 in
    let offset := 100 * (c_pos c / 100) in
    let w' := if boundary then (w ++ [mk_Request id 100 offset])%list else w in
    let fetched :=
      if boundary then option_map items (playlist_tracks sp id 100 offset)
      else Some (c_page c) in
    match fetched with
    | None => (Raise AssertionError, (c, w'))
    | Some page =>
        let pos := c_pos c + 1 in
        (if pos mod 100 >=? Py.len page then Raise StopIteration
         else match Py.item page (pos mod 100) with
              | Ok it => normalise (track it)
              | Raise e => Raise e
              end,
         (mk_Cursor pos page, w'))
    end.

Definition unspotify_cursor (self : UnspotifyPlaylist.t) : Cursor :=
  mk_Cursor (UnspotifyPlaylist._current_pos self)
    (UnspotifyPlaylist._current_tracks self).

Definition unspotify_with_cursor (self : UnspotifyPlaylist.t) (c : Cursor)
  : UnspotifyPlaylist.t :=
  UnspotifyPlaylist.mk (UnspotifyPlaylist.name self) (UnspotifyPlaylist._sp self)
    (UnspotifyPlaylist._playlist_id self) (c_pos c) (c_page c).

Definition spotify_cursor (self : SpotifyPlaylistIterator.t) : Cursor :=
  mk_Cursor (SpotifyPlaylistIterator._position self)
    (SpotifyPlaylistIterator._current_tracks self).

Definition spotify_with_cursor (self : SpotifyPlaylistIterator.t) (c : Cursor)
  : SpotifyPlaylistIterator.t :=
  SpotifyPlaylistIterator.mk (SpotifyPlaylistIterator._sp self)
    (SpotifyPlaylistIterator._playlist_id self) (c_pos c) (c_page c).

(** The order in which a playlist of [pages] full pages and a last,
    shorter page comes out: each full page from its second track on and
    then its first track, the last page from its second track on. *)
Fixpoint rotated_pages {A} (pages : nat) (c : list A) : list A :=
  match pages with
  | O => tail c
  | S pages' =>
      (tail (take 100 c) ++ take 1 c ++ rotated_pages pages' (drop 100 c))%list
  end.

Definition produced {A} (c : list A) : list A :=
  rotated_pages (length c / 100) c.

(** The offsets of the [n] pages from page [j] on. *)
Definition page_offsets (j n : nat) : list Z :=
  map (fun i => 100 * Z.of_nat i) (seq j n).

(** The tracks of page [j] of the catalogue [c]. *)
Definition page_of (c : list Track.t) (j : nat) : list Track.t :=
  take 100 (drop (100 * j) c).

(** The cursor at position [k] holding the page of the tracks [page]. *)
Definition at_pos (k : nat) (page : list Track.t) : Cursor :=
  mk_Cursor (Z.of_nat k) (map mk_Item page).

(** The track a normaliser builds, for a record it accepts. *)
Definition unspotify_value (fromisoformat : string -> option datetime.date)
  (t : Track.t) : UnspotifyTrackInfo.t :=
  match UnspotifyTrackInfo_init fromisoformat t with
  | Ok info => info
  | Raise _ => UnspotifyTrackInfo.mk "" "" 0 0 "" None None
  end.

Definition spotless_value (fromisoformat : string -> option datetime.date)
  (t : Track.t) : SpotlessTrackInfo.t :=
  match _construct_track fromisoformat t with
  | Ok info => info
  | Raise _ => SpotlessTrackInfo.mk "" [] 0 "" None None
  end.

(** A track whose artist holds a ["/"]. *)
Definition slash_info : UnspotifyTrackInfo.t :=
  UnspotifyTrackInfo.mk "Highway to Hell" "AC/DC" 1 1 "Highway to Hell"
    (Some "https://img.example.com/640") (Some (datetime.mk_date 1979 1 1)).

(** A track whose artist starts with ["./"]. *)
Definition dot_slash_info : UnspotifyTrackInfo.t :=
  UnspotifyTrackInfo.mk "DC" "./AC" 1 1 "Album"
    (Some "https://img.example.com/640") None.

(** A call of a method of the logger, as the backend makes them. *)
Inductive LogCall : Type :=
| CallDebug (msg : string)
| CallInfo (msg : string)
| CallWarning (msg : string)
| CallError (msg : string).

Definition logger_call (c : LogCall) : M Stdout unit :=
  match c with
  | CallDebug msg => Logger_debug msg
  | CallInfo msg => Logger_info msg
  | CallWarning msg => Logger_warning msg
  | CallError msg => Logger_error msg
  end.

(** Calls made one after the other; an exception ends them. *)
Fixpoint run_all {S A} (f : A -> M S unit) (l : list A) : M S unit :=
  match l with
  | [] => ret tt
  | a :: l' => bind (f a) (fun _ => run_all f l')
  end.

(** The messages of the [error] calls among [calls], in order. *)
Fixpoint error_messages (calls : list LogCall) : list string :=
  match calls with
  | [] => []
  | CallError msg :: calls' => msg :: error_messages calls'
  | _ :: calls' => error_messages calls'
  end.

(** The progress line of the file number [i] of [n], for the track [t]. *)
Definition progress_line (i n : Z) (t : UnspotifyTrackInfo.t) : string :=
  ("(" ++ Py.decimal i ++ "/" ++ Py.decimal n ++ ") 	Downloaded «"
   ++ UnspotifyTrackInfo.name t ++ "»...")%string.

(** The progress lines of the tracks [infos], numbered after [pos]. *)
Fixpoint progress_lines (pos n : Z) (infos : list UnspotifyTrackInfo.t)
  : list string :=
  match infos with
  | [] => []
  | t :: infos' => progress_line (pos + 1) n t :: progress_lines (pos + 1) n infos'
  end.

(** Integers [str] formats: those of at most 4300 digits. *)
Definition formats (n : Z) : Prop := Py.str n = Ok (Py.decimal n).

(** * Properties *)

(** ** Release dates *)

Section ReleaseDate.

Variable fromisoformat : string -> option datetime.date.

Lemma normalise_month (album : Album.t) :
  Album.release_date_precision album = Some "month" ->
  normalise_release_date fromisoformat album =
    (let release_date_parts := Py.split "-" (Album.release_date album) in
     let? p0 := Py.item release_date_parts 0 in
     let? y := Py.int p0 in
     let? p1 := Py.item release_date_parts 1 in
     let? m := Py.int p1 in
     let? d := datetime.new y (m + 1) 1 in
     Ok (Some d))%result.
Proof.
  intros Hp. unfold normalise_release_date. rewrite Hp.
  destruct (decide (Some "month" = Some "day")) as [E|_]; [discriminate E|].
  destruct (decide (Some "month" = Some "month")) as [_|N]; [reflexivity|].
  exfalso; apply N; reflexivity.
Qed.

Lemma normalise_year (album : Album.t) :
  Album.release_date_precision album = Some "year" ->
  normalise_release_date fromisoformat album =
    (let? y := Py.int (Album.release_date album) in
     let? d := datetime.new y 1 1 in
     Ok (Some d))%result.
Proof.
  intros Hp. unfold normalise_release_date. rewrite Hp.
  destruct (decide (Some "year" = Some "day")) as [E|_]; [discriminate E|].
  destruct (decide (Some "year" = Some "month")) as [E|_]; [discriminate E|].
  destruct (decide (Some "year" = Some "year")) as [_|N]; [reflexivity|].
  exfalso; apply N; reflexivity.
Qed.

Lemma normalise_absent (album : Album.t) :
  Album.release_date_precision album = None ->
  normalise_release_date fromisoformat album = Ok None.
Proof.
  intros Hp. unfold normalise_release_date. rewrite Hp.
  repeat (destruct (decide _) as [E|_]; [discriminate E|]).
  reflexivity.
Qed.

Lemma normalise_unsupported (album : Album.t) (p : string) :
  Album.release_date_precision album = Some p ->
  p <> "day" -> p <> "month" -> p <> "year" ->
  normalise_release_date fromisoformat album =
    Raise (ValueError ("Unsupported precision «" ++ p ++ "»")%string).
Proof.
  intros Hp Hd Hm Hy. unfold normalise_release_date. rewrite Hp.
  repeat (destruct (decide _) as [E|_]; [congruence|]).
  reflexivity.
Qed.

(** The two normalisers run the same date rule; [UnspotifyTrackInfo]
    reads the first artist before it. *)
Lemma construct_track_date (t : Track.t) :
  _construct_track fromisoformat t =
    match normalise_release_date fromisoformat (Track.album t) with
    | Ok d =>
        Ok (SpotlessTrackInfo.mk (Track.name t)
              (map Artist.name (Track.artists t)) (Track.track_number t)
              (Album.name (Track.album t))
              (snd (cover_scan (Album.images (Track.album t)))) d)
    | Raise e => Raise e
    end.
Proof.
  unfold _construct_track, result_bind.
  destruct (normalise_release_date _ _); reflexivity.
Qed.

Lemma unspotify_init_date (t : Track.t) (a : Artist.t) (rest : list Artist.t) :
  Track.artists t = a :: rest ->
  UnspotifyTrackInfo_init fromisoformat t =
    match normalise_release_date fromisoformat (Track.album t) with
    | Ok d =>
        Ok (UnspotifyTrackInfo.mk (Track.name t) (Artist.name a)
              (Track.track_number t) (Track.disc_number t)
              (Album.name (Track.album t))
              (snd (cover_scan (Album.images (Track.album t)))) d)
    | Raise e => Raise e
    end.
Proof.
  intros Ha. unfold UnspotifyTrackInfo_init, result_bind. rewrite Ha.
  cbn. destruct (normalise_release_date _ _); reflexivity.
Qed.

Lemma artists_cons (t : Track.t) :
  Track.artists t <> [] -> exists a rest, Track.artists t = a :: rest.
Proof. destruct (Track.artists t) as [|a rest]; [congruence|eauto]. Qed.

End ReleaseDate.

(** ** The date constructor *)

Lemma date_new_first_of_month (y m : Z) :
  1 <= y <= 9999 -> 1 <= m <= 12 ->
  datetime.new y m 1 = Ok (datetime.mk_date y m 1).
Proof.
  intros Hy Hm. unfold datetime.new, datetime.fits_int, datetime.MINYEAR,
    datetime.MAXYEAR.
  assert (Hd : 1 <= datetime.days_in_month y m).
  { unfold datetime.days_in_month.
    repeat match goal with |- context [if ?b then _ else _] => destruct b end; lia. }
  repeat match goal with
  | |- context [?a <=? ?b] =>
      first [ rewrite (Zle_imp_le_bool a b) by lia
            | rewrite (proj2 (Z.leb_gt a b)) by lia ]
  end.
  reflexivity.
Qed.

Lemma date_new_month_13 (y : Z) :
  datetime.new y 13 1 =
    if negb (datetime.fits_int y) then Raise OverflowError
    else if negb ((1 <=? y) && (y <=? 9999)) then
      Raise (ValueError ("year " ++ Py.decimal y ++ " is out of range")%string)
    else Raise (ValueError "month must be in 1..12").
Proof.
  unfold datetime.new, datetime.MINYEAR, datetime.MAXYEAR.
  replace (datetime.fits_int 13) with true by reflexivity.
  replace (datetime.fits_int 1) with true by reflexivity.
  rewrite !andb_true_r.
  destruct (datetime.fits_int y); cbn [negb]; [|reflexivity].
  destruct ((1 <=? y) && (y <=? 9999)); reflexivity.
Qed.

Lemma date_new_month_13_raises (y : Z) :
  exists e, datetime.new y 13 1 = Raise e.
Proof.
  rewrite date_new_month_13.
  destruct (negb (datetime.fits_int y)); [eauto|].
  destruct (negb _); eauto.
Qed.

Lemma date_new_month_13_valid_year (y : Z) :
  1 <= y <= 9999 ->
  datetime.new y 13 1 = Raise (ValueError "month must be in 1..12").
Proof.
  intros Hy. rewrite date_new_month_13. unfold datetime.fits_int.
  repeat match goal with
  | |- context [?a <=? ?b] => rewrite (Zle_imp_le_bool a b) by lia
  end.
  reflexivity.
Qed.

(** [int] raises nothing but [ValueError]. *)
Lemma int_raises (s : string) (e : exn) :
  Py.int s = Raise e -> exists msg, e = ValueError msg.
Proof.
  unfold Py.int.
  repeat match goal with
  | |- context [match ?x with _ => _ end] => destruct x
  end; intros H; inversion H; eauto.
Qed.

(** [int] on some literals: white space around the digits, underscores
    between them, a sign; the byte 28 is no white space for [int]. *)
Lemma int_literals :
  Py.int " 2_024 " = Ok 2024
  /\ Py.int (String "009" "2024") = Ok 2024
  /\ Py.int "-12" = Ok (-12)
  /\ Py.int "+007" = Ok 7
  /\ (exists msg, Py.int (String "028" "2024") = Raise (ValueError msg))
  /\ (exists msg, Py.int "20_" = Raise (ValueError msg))
  /\ (exists msg, Py.int "2__0" = Raise (ValueError msg))
  /\ (exists msg, Py.int "+ 20" = Raise (ValueError msg))
  /\ (exists msg, Py.int "" = Raise (ValueError msg)).
Proof.
  repeat split; try reflexivity; eexists; vm_compute; reflexivity.
Qed.

Lemma item_0 {A} (a : A) (l : list A) : Py.item (a :: l) 0 = Ok a.
Proof. reflexivity. Qed.

Lemma item_1 {A} (a b : A) (l : list A) : Py.item (a :: b :: l) 1 = Ok b.
Proof. reflexivity. Qed.

Section MonthRule.

Variable fromisoformat : string -> option datetime.date.

(** Month precision with a month from January to November: the first
    day of the following month. *)
Lemma month_precision_following_month
  (album : Album.t) (p0 p1 : string) (rest : list string) (y m : Z) :
  Album.release_date_precision album = Some "month" ->
  Py.split "-" (Album.release_date album) = p0 :: p1 :: rest ->
  Py.int p0 = Ok y -> Py.int p1 = Ok m ->
  1 <= y <= 9999 -> 1 <= m <= 11 ->
  normalise_release_date fromisoformat album
  = Ok (Some (datetime.mk_date y (m + 1) 1)).
Proof.
  intros Hp Hs H0 H1 Hy Hm.
  rewrite (normalise_month _ _ Hp). cbv zeta. rewrite Hs, item_0, item_1.
  cbn [result_bind]. rewrite H0. cbn [result_bind]. rewrite H1.
  cbn [result_bind]. rewrite date_new_first_of_month by lia. reflexivity.
Qed.

(** Year precision: the first of January. *)
Lemma year_precision_january (album : Album.t) (y : Z) :
  Album.release_date_precision album = Some "year" ->
  Py.int (Album.release_date album) = Ok y ->
  1 <= y <= 9999 ->
  normalise_release_date fromisoformat album
  = Ok (Some (datetime.mk_date y 1 1)).
Proof.
  intros Hp Hi Hy. rewrite (normalise_year _ _ Hp), Hi. cbn [result_bind].
  rewrite date_new_first_of_month by lia. reflexivity.
Qed.

(** Month precision with month component [m]: what the rule computes
    once the two components are read. *)
Lemma month_precision_parsed
  (album : Album.t) (p0 p1 : string) (rest : list string) (y m : Z) :
  Album.release_date_precision album = Some "month" ->
  Py.split "-" (Album.release_date album) = p0 :: p1 :: rest ->
  Py.int p0 = Ok y -> Py.int p1 = Ok m ->
  normalise_release_date fromisoformat album
  = match datetime.new y (m + 1) 1 with
    | Ok d => Ok (Some d)
    | Raise e => Raise e
    end.
Proof.
  intros Hp Hs H0 H1.
  rewrite (normalise_month _ _ Hp). cbv zeta. rewrite Hs, item_0, item_1.
  cbn [result_bind]. rewrite H0. cbn [result_bind]. rewrite H1.
  reflexivity.
Qed.

(** December: whatever the year component is, no date comes out. *)
Lemma month_precision_december_raises
  (album : Album.t) (p0 p1 : string) (rest : list string) :
  Album.release_date_precision album = Some "month" ->
  Py.split "-" (Album.release_date album) = p0 :: p1 :: rest ->
  Py.int p1 = Ok 12 ->
  exists e, normalise_release_date fromisoformat album = Raise e
            /\ (e = OverflowError \/ exists msg, e = ValueError msg).
Proof.
  intros Hp Hs H1.
  destruct (Py.int p0) as [y|e] eqn:H0.
  - rewrite (month_precision_parsed _ _ _ _ _ _ Hp Hs H0 H1).
    change (12 + 1) with 13. rewrite date_new_month_13.
    destruct (negb (datetime.fits_int y)); [eauto|].
    destruct (negb _); eauto 6.
  - rewrite (normalise_month _ _ Hp). cbv zeta. rewrite Hs, item_0.
    cbn [result_bind]. rewrite H0. cbn [result_bind].
    destruct (int_raises _ _ H0) as [msg ->]. eauto 6.
Qed.

End MonthRule.

(** ** Splitting *)

Lemma split_nonempty (c : ascii) (s : string) : Py.split c s <> [].
Proof.
  destruct s as [|a s]; cbn; [discriminate|].
  destruct (Ascii.eqb a c); [discriminate|].
  destruct (Py.split c s); discriminate.
Qed.

Lemma split_absent (c : ascii) (s : string) :
  Py.contains c s = false -> Py.split c s = [s].
Proof.
  induction s as [|a s IH]; cbn; [reflexivity|].
  intros H. apply orb_false_iff in H as [Ha Hs].
  rewrite Ha, (IH Hs). reflexivity.
Qed.

Lemma append_nil_l (s : string) : ("" ++ s)%string = s.
Proof. reflexivity. Qed.

Lemma append_cons_l (x : ascii) (a s : string) :
  (String x a ++ s)%string = String x (a ++ s).
Proof. reflexivity. Qed.

(** Splitting around one occurrence of the separator. *)
Lemma split_app (c : ascii) (a b : string) :
  Py.split c (a ++ String c b) = (Py.split c a ++ Py.split c b)%list.
Proof.
  induction a as [|x a IH].
  - rewrite append_nil_l. cbn. rewrite Ascii.eqb_refl. reflexivity.
  - rewrite append_cons_l. cbn [Py.split]. destruct (Ascii.eqb x c).
    + rewrite IH. reflexivity.
    + rewrite IH. pose proof (split_nonempty c a) as Hne.
      destruct (Py.split c a) as [|w ws]; [congruence|]. reflexivity.
Qed.

Lemma last_item_app {A} (l1 l2 : list A) :
  l2 <> [] -> Py.last_item (l1 ++ l2) = Py.last_item l2.
Proof.
  intros Hne. induction l1 as [|x l1 IH]; [reflexivity|].
  cbn [app]. destruct (l1 ++ l2)%list as [|y l] eqn:E.
  - apply app_eq_nil in E as [_ E]. congruence.
  - cbn [Py.last_item] in *. exact IH.
Qed.

(** The last ["/"]-separated segment of [base/seg]. *)
Lemma last_segment (base seg : string) :
  Py.contains "/" seg = false ->
  Py.last_item (Py.split "/" (base ++ String "/" seg)) = Ok seg.
Proof.
  intros H. rewrite split_app, last_item_app by apply split_nonempty.
  rewrite (split_absent _ _ H). reflexivity.
Qed.

(** The part of a segment before the first occurrence of a delimiter. *)
Lemma first_field (c : ascii) (ident rest : string) :
  Py.contains c ident = false ->
  Py.item (Py.split c (ident ++ String c rest)) 0 = Ok ident.
Proof.
  intros H. rewrite split_app, (split_absent _ _ H). reflexivity.
Qed.

(** The pieces of a split hold no separator. *)
Lemma split_separator_free (c : ascii) (s : string) :
  Forall (fun w => Py.contains c w = false) (Py.split c s).
Proof.
  induction s as [|a s IH]; cbn [Py.split].
  - constructor; [reflexivity|constructor].
  - destruct (Ascii.eqb a c) eqn:Ea.
    + constructor; [reflexivity|exact IH].
    + pose proof (split_nonempty c s) as Hne.
      destruct (Py.split c s) as [|w ws]; [congruence|].
      inversion IH as [|? ? Hw Hws]; subst.
      constructor; [|exact Hws]. cbn [Py.contains]. rewrite Ea, Hw. reflexivity.
Qed.

Lemma contains_app (c : ascii) (a b : string) :
  Py.contains c (a ++ b) = Py.contains c a || Py.contains c b.
Proof.
  induction a as [|x a IH]; [reflexivity|].
  rewrite append_cons_l. cbn [Py.contains].
  rewrite IH, orb_assoc. reflexivity.
Qed.

(** [SpotifyPlaylist.from_url] cuts the query string off. *)
Lemma SpotifyPlaylist_url_id_query (base ident query : string) :
  Py.contains "/" ident = false -> Py.contains "/" query = false ->
  Py.contains "?" ident = false ->
  SpotifyPlaylist_url_id (base ++ String "/" (ident ++ String "?" query))
  = Ok ident.
Proof.
  intros Hi Hq Hd. unfold SpotifyPlaylist_url_id.
  rewrite last_segment.
  - cbn [result_bind]. apply first_field. exact Hd.
  - rewrite contains_app. cbn. rewrite Hi, Hq. reflexivity.
Qed.

(** [UnspotifyPlaylist.from_url] splits at ["&"]: a query string that
    starts at ["?"] stays in the identifier. *)
Lemma UnspotifyPlaylist_url_id_query (base ident query : string) :
  Py.contains "/" ident = false -> Py.contains "/" query = false ->
  Py.contains "&" ident = false -> Py.contains "&" query = false ->
  UnspotifyPlaylist_url_id (base ++ String "/" (ident ++ String "?" query))
  = Ok (ident ++ String "?" query).
Proof.
  intros Hi Hq Hai Haq. unfold UnspotifyPlaylist_url_id.
  rewrite last_segment.
  - cbn [result_bind]. rewrite split_absent; [reflexivity|].
    rewrite contains_app. cbn. rewrite Hai, Haq. reflexivity.
  - rewrite contains_app. cbn. rewrite Hi, Hq. reflexivity.
Qed.

(** C3. Construction from the shareable URL
    [https://open.example.com/playlist/abc123?si=xyz]:
    [SpotifyPlaylist.from_url] extracts the identifier [abc123], the
    trailing segment cut at the query delimiter;
    [UnspotifyPlaylist.from_url] splits at ["&"] and hands the constructor
    [abc123?si=xyz], query string included. *)
Theorem C3_from_url_identifier :
  SpotifyPlaylist_url_id "https://open.example.com/playlist/abc123?si=xyz"
  = Ok "abc123"
  /\ UnspotifyPlaylist_url_id "https://open.example.com/playlist/abc123?si=xyz"
     = Ok "abc123?si=xyz"
  /\ (forall sp,
        option_map SpotifyPlaylist._playlist_id
          (match SpotifyPlaylist_from_url sp
                   "https://open.example.com/playlist/abc123?si=xyz" with
           | Ok pl => Some pl | Raise _ => None end)
        = Some "abc123")
  /\ (forall sp,
        option_map UnspotifyPlaylist._playlist_id
          (match UnspotifyPlaylist_from_url sp
                   "https://open.example.com/playlist/abc123?si=xyz" with
           | Ok pl => Some pl | Raise _ => None end)
        = Some "abc123?si=xyz").
Proof.
  repeat split; intros; reflexivity.
Qed.

(** C4. Month precision adds one to the month: ["2024-03"] normalises to
    2024-04-01, and year precision ["2024"] to 2024-01-01.  For
    ["2024-12"] the rule asks the date constructor for month 13: both
    normalisers raise [ValueError] and no date is produced, where the
    first day of the month after December was to come out. *)
Theorem C4_month_precision_examples :
  forall fromisoformat,
    normalise_release_date fromisoformat (Album.mk "Album" [] "2024-03" (Some "month"))
    = Ok (Some (datetime.mk_date 2024 4 1))
    /\ normalise_release_date fromisoformat (Album.mk "Album" [] "2024" (Some "year"))
       = Ok (Some (datetime.mk_date 2024 1 1))
    /\ normalise_release_date fromisoformat (Album.mk "Album" [] "2024-12" (Some "month"))
       = Raise (ValueError "month must be in 1..12")
    /\ UnspotifyTrackInfo_init fromisoformat (sample_track [] "2024-12" (Some "month"))
       = Raise (ValueError "month must be in 1..12")
    /\ _construct_track fromisoformat (sample_track [] "2024-12" (Some "month"))
       = Raise (ValueError "month must be in 1..12").
Proof.
  intros f. repeat split; vm_compute; reflexivity.
Qed.

(** C6. A precision tag that is a string other than ["day"], ["month"]
    and ["year"] makes the normaliser raise a [ValueError] whose message
    quotes the tag; with the tag absent the normaliser succeeds and the
    release date is absent.  [UnspotifyTrackInfo] reads the first artist
    of the record before the tag, so its part is stated for a record with
    an artist. *)
Theorem C6_unsupported_precision (fromisoformat : string -> option datetime.date)
  (t : Track.t) :
  (forall p,
      Album.release_date_precision (Track.album t) = Some p ->
      p <> "day" -> p <> "month" -> p <> "year" ->
      _construct_track fromisoformat t
      = Raise (ValueError ("Unsupported precision «" ++ p ++ "»")%string)
      /\ (Track.artists t <> [] ->
          UnspotifyTrackInfo_init fromisoformat t
          = Raise (ValueError ("Unsupported precision «" ++ p ++ "»")%string)))
  /\ (Album.release_date_precision (Track.album t) = None ->
      (exists info, _construct_track fromisoformat t = Ok info
                    /\ SpotlessTrackInfo.release_date info = None)
      /\ (Track.artists t <> [] ->
          exists info, UnspotifyTrackInfo_init fromisoformat t = Ok info
                       /\ UnspotifyTrackInfo.release_date info = None)).
Proof.
  split.
  - intros p Hp Hd Hm Hy.
    pose proof (normalise_unsupported fromisoformat _ _ Hp Hd Hm Hy) as Hn.
    split.
    + rewrite construct_track_date, Hn. reflexivity.
    + intros Ha. destruct (artists_cons t Ha) as (a & rest & Ea).
      rewrite (unspotify_init_date _ _ _ _ Ea), Hn. reflexivity.
  - intros Hp. pose proof (normalise_absent fromisoformat _ Hp) as Hn. split.
    + rewrite construct_track_date, Hn. eexists. split; reflexivity.
    + intros Ha. destruct (artists_cons t Ha) as (a & rest & Ea).
      rewrite (unspotify_init_date _ _ _ _ Ea), Hn. eexists. split; reflexivity.
Qed.

Lemma C6_unsupported_precision_witness :
  (_construct_track fromisoformat_ymd (sample_track [] "2024-03-01T10" (Some "hour"))
   = Raise (ValueError "Unsupported precision «hour»")
   /\ UnspotifyTrackInfo_init fromisoformat_ymd
        (sample_track [] "2024-03-01T10" (Some "hour"))
      = Raise (ValueError "Unsupported precision «hour»"))
  /\ (exists info, _construct_track fromisoformat_ymd (sample_track [] "" None) = Ok info
                   /\ SpotlessTrackInfo.release_date info = None)
  /\ (exists info, UnspotifyTrackInfo_init fromisoformat_ymd (sample_track [] "" None)
                   = Ok info
                   /\ UnspotifyTrackInfo.release_date info = None).
Proof.
  pose proof (C6_unsupported_precision fromisoformat_ymd
                (sample_track [] "2024-03-01T10" (Some "hour"))) as [H1 _].
  pose proof (C6_unsupported_precision fromisoformat_ymd
                (sample_track [] "" None)) as [_ H2].
  specialize (H1 "hour" eq_refl ltac:(discriminate) ltac:(discriminate)
                ltac:(discriminate)).
  destruct H1 as [H1a H1b]. specialize (H1b ltac:(discriminate)).
  specialize (H2 eq_refl). destruct H2 as [H2a H2b].
  specialize (H2b ltac:(discriminate)).
  repeat split; assumption.
Defined.

(** C9. Month precision with month component 12: the rule asks the date
    constructor for month 13, so the normaliser raises and produces no
    release date, in both variants; for a year the constructor accepts the
    error is its month-range [ValueError].  Among the months 1 to 12 of
    such a year the normalisation succeeds for 1 to 11 and for no other. *)
Theorem C9_month_rule_not_total (fromisoformat : string -> option datetime.date)
  (t : Track.t) (p0 p1 : string) (rest : list string) (m : Z) :
  Album.release_date_precision (Track.album t) = Some "month" ->
  Py.split "-" (Album.release_date (Track.album t)) = p0 :: p1 :: rest ->
  Py.int p1 = Ok m ->
  (m = 12 ->
   (exists e, _construct_track fromisoformat t = Raise e
              /\ (e = OverflowError \/ exists msg, e = ValueError msg))
   /\ (exists e, UnspotifyTrackInfo_init fromisoformat t = Raise e)
   /\ (Track.artists t <> [] ->
       exists e, UnspotifyTrackInfo_init fromisoformat t = Raise e
                 /\ (e = OverflowError \/ exists msg, e = ValueError msg)))
  /\ (forall y, Py.int p0 = Ok y -> 1 <= y <= 9999 -> 1 <= m <= 12 ->
      (m = 12 ->
       normalise_release_date fromisoformat (Track.album t)
       = Raise (ValueError "month must be in 1..12"))
      /\ (is_Ok (normalise_release_date fromisoformat (Track.album t)) = true
          <-> m <= 11)).
Proof.
  intros Hp Hs H1. split.
  - intros ->.
    destruct (month_precision_december_raises fromisoformat _ _ _ _ Hp Hs H1)
      as (e & He & Hk).
    split; [|split].
    + exists e. rewrite construct_track_date, He. auto.
    + destruct (Track.artists t) as [|a l] eqn:Ea.
      * exists IndexError. unfold UnspotifyTrackInfo_init. rewrite Ea. reflexivity.
      * exists e. rewrite (unspotify_init_date _ _ _ _ Ea), He. reflexivity.
    + intros Ha. destruct (artists_cons t Ha) as (a & l & Ea).
      exists e. rewrite (unspotify_init_date _ _ _ _ Ea), He. auto.
  - intros y H0 Hy Hm.
    rewrite (month_precision_parsed fromisoformat _ _ _ _ _ _ Hp Hs H0 H1).
    split.
    + intros ->. change (12 + 1) with 13.
      rewrite date_new_month_13_valid_year by lia. reflexivity.
    + destruct (Z.eq_dec m 12) as [->|Hne].
      * change (12 + 1) with 13.
        rewrite date_new_month_13_valid_year by lia. cbn. split; [discriminate|lia].
      * rewrite date_new_first_of_month by lia. cbn. split; [lia|reflexivity].
Qed.

Lemma C9_month_rule_not_total_witness :
  ((exists e, _construct_track fromisoformat_ymd (sample_track [] "2024-12" (Some "month"))
              = Raise e
              /\ (e = OverflowError \/ exists msg, e = ValueError msg))
   /\ (exists e, UnspotifyTrackInfo_init fromisoformat_ymd
                   (sample_track [] "2024-12" (Some "month")) = Raise e)
   /\ (exists e, UnspotifyTrackInfo_init fromisoformat_ymd
                   (sample_track [] "2024-12" (Some "month")) = Raise e
                 /\ (e = OverflowError \/ exists msg, e = ValueError msg)))
  /\ normalise_release_date fromisoformat_ymd
       (Album.mk "Album" [] "2024-12" (Some "month"))
     = Raise (ValueError "month must be in 1..12")
  /\ (is_Ok (normalise_release_date fromisoformat_ymd
               (Album.mk "Album" [] "2024-12" (Some "month"))) = true
      <-> 12 <= 11).
Proof.
  pose proof (C9_month_rule_not_total fromisoformat_ymd
                (sample_track [] "2024-12" (Some "month")) "2024" "12" [] 12
                eq_refl eq_refl eq_refl) as [H1 H2].
  specialize (H1 eq_refl). destruct H1 as (Ha & Hb & Hc).
  specialize (Hc ltac:(discriminate)).
  specialize (H2 2024 eq_refl ltac:(lia) ltac:(lia)). destruct H2 as [Hd He].
  specialize (Hd eq_refl).
  repeat split; try assumption; apply He.
Defined.

(** ** The cover scan *)

Lemma cover_scan_snoc (images : list Image.t) (image : Image.t) :
  cover_scan (images ++ [image]) = cover_step (cover_scan images) image.
Proof. unfold cover_scan. rewrite fold_left_app. reflexivity. Qed.

(** The loop invariant: the running maximum bounds every height seen, and
    it is the height of the image whose URL is held. *)
Lemma cover_scan_invariant (images : list Image.t) :
  0 <= fst (cover_scan images)
  /\ (forall (j : nat) (image' : Image.t),
         images !! j = Some image' ->
         Image.height image' <= fst (cover_scan images))
  /\ match snd (cover_scan images) with
     | None => fst (cover_scan images) = 0
     | Some u =>
         exists (i : nat) (image : Image.t),
           images !! i = Some image
           /\ Image.url image = u
           /\ Image.height image = fst (cover_scan images)
           /\ 0 < Image.height image
           /\ (forall (j : nat) (image' : Image.t),
                  (j < i)%nat -> images !! j = Some image' ->
                  Image.height image' < Image.height image)
     end.
Proof.
  induction images as [|x images IH] using rev_ind.
  - cbn. split; [lia|]. split; [|reflexivity].
    intros j image' H. destruct j; discriminate H.
  - rewrite cover_scan_snoc. destruct IH as (Hpos & Hmax & Hsel).
    unfold cover_step.
    destruct (Image.height x >? fst (cover_scan images)) eqn:Hgt.
    + apply Z.gtb_lt in Hgt. cbn [fst snd]. split; [lia|]. split.
      * intros j image' Hj. apply lookup_app_Some in Hj as [Hj|[_ Hj]].
        -- specialize (Hmax _ _ Hj). lia.
        -- destruct (j - length images)%nat; [|destruct n; discriminate Hj].
           injection Hj as <-. lia.
      * exists (length images), x. split; [|split; [|split; [|split]]].
        -- rewrite lookup_app_r by lia. rewrite Nat.sub_diag. reflexivity.
        -- reflexivity.
        -- reflexivity.
        -- lia.
        -- intros j image' Hlt Hj. rewrite lookup_app_l in Hj by lia.
           specialize (Hmax _ _ Hj). lia.
    + assert (Hle : Image.height x <= fst (cover_scan images)).
      { destruct (Z.gtb_spec (Image.height x) (fst (cover_scan images)));
          [discriminate|lia]. }
      split; [exact Hpos|]. split.
      * intros j image' Hj. apply lookup_app_Some in Hj as [Hj|[_ Hj]].
        -- exact (Hmax _ _ Hj).
        -- destruct (j - length images)%nat; [|destruct n; discriminate Hj].
           injection Hj as <-. exact Hle.
      * destruct (snd (cover_scan images)) as [u|]; [|exact Hsel].
        destruct Hsel as (i & image & Hi & Hu & Hh & Hp & Hbefore).
        exists i, image.
        split; [apply lookup_app_Some; left; exact Hi|].
        split; [exact Hu|]. split; [exact Hh|]. split; [exact Hp|].
        intros j image' Hlt Hj. apply (Hbefore j image' Hlt).
        apply lookup_lt_Some in Hi.
        rewrite lookup_app_l in Hj by lia. exact Hj.
Qed.

Lemma cover_scan_chosen (images : list Image.t) :
  cover_chosen images (snd (cover_scan images)).
Proof.
  destruct (cover_scan_invariant images) as (Hpos & Hmax & Hsel).
  unfold cover_chosen. destruct (snd (cover_scan images)) as [u|].
  - destruct Hsel as (i & image & Hi & Hu & Hh & Hp & Hbefore).
    exists i, image.
    split; [exact Hi|]. split; [exact Hu|]. split; [exact Hp|].
    split; [|exact Hbefore].
    intros j image' Hj. rewrite Hh. exact (Hmax _ _ Hj).
  - intros image Hin. apply list_elem_of_In, list_elem_of_lookup in Hin as [j Hj].
    specialize (Hmax _ _ Hj). lia.
Qed.

(** No image of positive height: the scan assigns nothing. *)
Lemma cover_scan_nothing (images : list Image.t) :
  (forall image, In image images -> Image.height image <= 0) ->
  cover_scan images = (0, None).
Proof.
  induction images as [|x images IH] using rev_ind; [reflexivity|].
  intros H. rewrite cover_scan_snoc, IH.
  - unfold cover_step. cbn [fst].
    assert (Hx : Image.height x <= 0) by (apply H, in_or_app; right; left; reflexivity).
    destruct (Z.gtb_spec (Image.height x) 0); [lia|reflexivity].
  - intros image Hin. apply H, in_or_app. left. exact Hin.
Qed.

Section Cover.

Variable fromisoformat : string -> option datetime.date.

Lemma unspotify_init_cover (t : Track.t) (info : UnspotifyTrackInfo.t) :
  UnspotifyTrackInfo_init fromisoformat t = Ok info ->
  UnspotifyTrackInfo.album_image_url info
  = snd (cover_scan (Album.images (Track.album t))).
Proof.
  unfold UnspotifyTrackInfo_init, result_bind.
  destruct (Py.item (Track.artists t) 0); [|discriminate].
  destruct (normalise_release_date _ _); [|discriminate].
  intros H. injection H as <-. reflexivity.
Qed.

Lemma construct_track_cover (t : Track.t) (info : SpotlessTrackInfo.t) :
  _construct_track fromisoformat t = Ok info ->
  SpotlessTrackInfo.album_image_url info
  = snd (cover_scan (Album.images (Track.album t))).
Proof.
  unfold _construct_track, result_bind.
  destruct (normalise_release_date _ _); [|discriminate].
  intros H. injection H as <-. reflexivity.
Qed.

End Cover.

(** C5. In a track either normaliser builds, the cover URL is the URL of
    the first image of the greatest height (an image of a height equal to
    an earlier one does not replace it); it is set exactly when an image
    has a positive height.  For images of heights 64, 300 and 150 the URL
    is that of the image of height 300. *)
Theorem C5_cover_is_first_tallest (fromisoformat : string -> option datetime.date)
  (t : Track.t) :
  (forall info, UnspotifyTrackInfo_init fromisoformat t = Ok info ->
                cover_chosen (Album.images (Track.album t))
                  (UnspotifyTrackInfo.album_image_url info))
  /\ (forall info, _construct_track fromisoformat t = Ok info ->
                   cover_chosen (Album.images (Track.album t))
                     (SpotlessTrackInfo.album_image_url info))
  /\ (forall u1 u2 u3,
         snd (cover_scan [Image.mk u1 64; Image.mk u2 300; Image.mk u3 150])
         = Some u2).
Proof.
  split; [|split].
  - intros info H. rewrite (unspotify_init_cover _ _ _ H).
    apply cover_scan_chosen.
  - intros info H. rewrite (construct_track_cover _ _ _ H).
    apply cover_scan_chosen.
  - intros. reflexivity.
Qed.

Lemma C5_cover_is_first_tallest_witness :
  first_tallest sample_images "https://img.example.com/300"
  /\ first_tallest sample_images "https://img.example.com/300".
Proof.
  pose proof (C5_cover_is_first_tallest fromisoformat_ymd
                (sample_track sample_images "2024" (Some "year"))) as (H1 & H2 & _).
  split.
  - exact (H1 _ eq_refl).
  - exact (H2 _ eq_refl).
Defined.

(** C10. When no image of the record has a positive height, and so when
    the image list is empty, neither normaliser produces a cover URL:
    [UnspotifyTrackInfo] leaves [album_image_url] unassigned, so that
    reading it raises [AttributeError], and [_construct_track] passes
    [None]. *)
Theorem C10_no_cover_url (fromisoformat : string -> option datetime.date)
  (t : Track.t) :
  (forall image, In image (Album.images (Track.album t)) ->
                 Image.height image <= 0) ->
  (forall info, UnspotifyTrackInfo_init fromisoformat t = Ok info ->
                UnspotifyTrackInfo.album_image_url info = None
                /\ UnspotifyTrackInfo.get_album_image_url info
                   = Raise (AttributeError "album_image_url"))
  /\ (forall info, _construct_track fromisoformat t = Ok info ->
                   SpotlessTrackInfo.album_image_url info = None).
Proof.
  intros Hnone. split.
  - intros info H. pose proof (unspotify_init_cover _ _ _ H) as Hu.
    rewrite (cover_scan_nothing _ Hnone) in Hu. cbn in Hu.
    split; [exact Hu|].
    unfold UnspotifyTrackInfo.get_album_image_url. rewrite Hu. reflexivity.
  - intros info H. pose proof (construct_track_cover _ _ _ H) as Hu.
    rewrite (cover_scan_nothing _ Hnone) in Hu. exact Hu.
Qed.

Lemma C10_no_cover_url_witness :
  (exists info,
      UnspotifyTrackInfo_init fromisoformat_ymd (sample_track [] "2024" (Some "year"))
      = Ok info
      /\ UnspotifyTrackInfo.album_image_url info = None
      /\ UnspotifyTrackInfo.get_album_image_url info
         = Raise (AttributeError "album_image_url"))
  /\ (exists info,
         _construct_track fromisoformat_ymd (sample_track [] "2024" (Some "year"))
         = Ok info
         /\ SpotlessTrackInfo.album_image_url info = None).
Proof.
  assert (Hnone : forall image,
             In image (Album.images (Track.album (sample_track [] "2024" (Some "year")))) ->
             Image.height image <= 0).
  { intros image []. }
  pose proof (C10_no_cover_url fromisoformat_ymd
                (sample_track [] "2024" (Some "year")) Hnone) as [H1 H2].
  split.
  - eexists. split; [reflexivity|]. apply H1. reflexivity.
  - eexists. split; [reflexivity|]. apply H2. reflexivity.
Defined.

(** ** What the normalisers raise *)

Lemma item_raises {A} (l : list A) (i : Z) (e : exn) :
  Py.item l i = Raise e -> e = IndexError.
Proof.
  unfold Py.item.
  repeat match goal with
  | |- context [match ?x with _ => _ end] => destruct x
  end; intros H; inversion H; reflexivity.
Qed.

Lemma date_new_raises (y m d : Z) (e : exn) :
  datetime.new y m d = Raise e -> normaliser_exn e.
Proof.
  unfold datetime.new, normaliser_exn.
  repeat match goal with
  | |- context [if ?x then _ else _] => destruct x
  end; intros H; inversion H; eauto.
Qed.

Section Raises.

Variable fromisoformat : string -> option datetime.date.

Lemma normalise_raises (album : Album.t) (e : exn) :
  normalise_release_date fromisoformat album = Raise e -> normaliser_exn e.
Proof.
  unfold normalise_release_date, result_bind.
  repeat match goal with
  | |- context [if decide ?P then _ else _] => destruct (decide P)
  end.
  - destruct (fromisoformat _); intros H; inversion H.
    right; right; eauto.
  - destruct (Py.item _ 0) eqn:E0;
      [|intros H; inversion H; subst; left; eapply item_raises; eauto].
    destruct (Py.int a) eqn:Ei0;
      [|intros H; inversion H; subst;
        destruct (int_raises _ _ Ei0) as [msg ->]; right; right; eauto].
    destruct (Py.item _ 1) eqn:E1;
      [|intros H; inversion H; subst; left; eapply item_raises; eauto].
    destruct (Py.int a1) eqn:Ei1;
      [|intros H; inversion H; subst;
        destruct (int_raises _ _ Ei1) as [msg ->]; right; right; eauto].
    destruct (datetime.new _ _ _) eqn:Ed; intros H; inversion H; subst.
    eapply date_new_raises; eauto.
  - destruct (Py.int _) eqn:Ei0;
      [|intros H; inversion H; subst;
        destruct (int_raises _ _ Ei0) as [msg ->]; right; right; eauto].
    destruct (datetime.new _ _ _) eqn:Ed; intros H; inversion H; subst.
    eapply date_new_raises; eauto.
  - destruct (Album.release_date_precision album); intros H; inversion H.
    right; right; eauto.
Qed.

Lemma unspotify_init_raises (t : Track.t) (e : exn) :
  UnspotifyTrackInfo_init fromisoformat t = Raise e -> normaliser_exn e.
Proof.
  unfold UnspotifyTrackInfo_init, result_bind.
  destruct (Py.item _ 0) eqn:E0;
    [|intros H; inversion H; subst; left; eapply item_raises; eauto].
  destruct (normalise_release_date _ _) eqn:En; intros H; inversion H; subst.
  eapply normalise_raises; eauto.
Qed.

Lemma construct_track_raises (t : Track.t) (e : exn) :
  _construct_track fromisoformat t = Raise e -> normaliser_exn e.
Proof.
  unfold _construct_track, result_bind.
  destruct (normalise_release_date _ _) eqn:En; intros H; inversion H; subst.
  eapply normalise_raises; eauto.
Qed.

End Raises.

Lemma normaliser_exn_not_assertion : ~ normaliser_exn AssertionError.
Proof. intros [H|[H|[msg H]]]; discriminate H. Qed.

Lemma normaliser_exn_not_stop : ~ normaliser_exn StopIteration.
Proof. intros [H|[H|[msg H]]]; discriminate H. Qed.

(** ** One step of the iterators *)

Ltac run_step :=
  unfold bind, get, modify, ret, raise, lift, call_playlist_tracks;
  cbn [fst snd].

Section Steps.

Variable fromisoformat : string -> option datetime.date.

Lemma unspotify_next_no_page (self : UnspotifyPlaylist.t) (w : World) :
  UnspotifyPlaylist._current_pos self mod 100 = 0 ->
  playlist_tracks (UnspotifyPlaylist._sp self)
    (UnspotifyPlaylist._playlist_id self) 100
    (100 * (UnspotifyPlaylist._current_pos self / 100)) = None ->
  UnspotifyPlaylist_next fromisoformat (self, w)
  = (Raise AssertionError, (self, (w ++ [UnspotifyPlaylist_request self])%list)).
Proof.
  intros Hpos Hnone. unfold UnspotifyPlaylist_next. run_step.
  rewrite Hpos. cbn [Z.eqb]. run_step. rewrite Hnone. reflexivity.
Qed.

Lemma spotify_next_no_page (self : SpotifyPlaylistIterator.t) (w : World) :
  SpotifyPlaylistIterator._position self mod 100 = 0 ->
  playlist_tracks (SpotifyPlaylistIterator._sp self)
    (SpotifyPlaylistIterator._playlist_id self) 100
    (100 * (SpotifyPlaylistIterator._position self / 100)) = None ->
  SpotifyPlaylistIterator_next fromisoformat (self, w)
  = (Raise AssertionError,
     (self, (w ++ [SpotifyPlaylistIterator_request self])%list)).
Proof.
  intros Hpos Hnone. unfold SpotifyPlaylistIterator_next. run_step.
  rewrite Hpos. cbn [Z.eqb]. run_step. rewrite Hnone. reflexivity.
Qed.

(** The assertion fails nowhere else. *)
Lemma unspotify_next_assertion (self : UnspotifyPlaylist.t) (w : World) :
  fst (UnspotifyPlaylist_next fromisoformat (self, w)) = Raise AssertionError ->
  UnspotifyPlaylist._current_pos self mod 100 = 0
  /\ playlist_tracks (UnspotifyPlaylist._sp self)
       (UnspotifyPlaylist._playlist_id self) 100
       (100 * (UnspotifyPlaylist._current_pos self / 100)) = None.
Proof.
  unfold UnspotifyPlaylist_next. run_step.
  destruct (UnspotifyPlaylist._current_pos self mod 100 =? 0) eqn:Hpos.
  - apply Z.eqb_eq in Hpos. run_step.
    destruct (playlist_tracks _ _ _ _) as [pg|]; [|auto].
    run_step. cbn [UnspotifyPlaylist.set_current_tracks
                     UnspotifyPlaylist.set_current_pos
                     UnspotifyPlaylist._current_pos
                     UnspotifyPlaylist._current_tracks].
    destruct (_ >=? _); [discriminate|].
    destruct (Py.item _ _) as [it|e] eqn:Ei; cbn [fst].
    + intros H. exfalso. apply normaliser_exn_not_assertion.
      eapply unspotify_init_raises; eauto.
    + intros H. apply item_raises in Ei. congruence.
  - run_step. cbn [UnspotifyPlaylist.set_current_pos
                     UnspotifyPlaylist._current_pos
                     UnspotifyPlaylist._current_tracks].
    destruct (_ >=? _); [discriminate|].
    destruct (Py.item _ _) as [it|e] eqn:Ei; cbn [fst].
    + intros H. exfalso. apply normaliser_exn_not_assertion.
      eapply unspotify_init_raises; eauto.
    + intros H. apply item_raises in Ei. congruence.
Qed.

Lemma spotify_next_assertion (self : SpotifyPlaylistIterator.t) (w : World) :
  fst (SpotifyPlaylistIterator_next fromisoformat (self, w)) = Raise AssertionError ->
  SpotifyPlaylistIterator._position self mod 100 = 0
  /\ playlist_tracks (SpotifyPlaylistIterator._sp self)
       (SpotifyPlaylistIterator._playlist_id self) 100
       (100 * (SpotifyPlaylistIterator._position self / 100)) = None.
Proof.
  unfold SpotifyPlaylistIterator_next. run_step.
  destruct (SpotifyPlaylistIterator._position self mod 100 =? 0) eqn:Hpos.
  - apply Z.eqb_eq in Hpos. run_step.
    destruct (playlist_tracks _ _ _ _) as [pg|]; [|auto].
    run_step. cbn [SpotifyPlaylistIterator.set_current_tracks
                     SpotifyPlaylistIterator.set_position
                     SpotifyPlaylistIterator._position
                     SpotifyPlaylistIterator._current_tracks].
    destruct (_ >=? _); [discriminate|].
    destruct (Py.item _ _) as [it|e] eqn:Ei; cbn [fst].
    + intros H. exfalso. apply normaliser_exn_not_assertion.
      eapply construct_track_raises; eauto.
    + intros H. apply item_raises in Ei. congruence.
  - run_step. cbn [SpotifyPlaylistIterator.set_position
                     SpotifyPlaylistIterator._position
                     SpotifyPlaylistIterator._current_tracks].
    destruct (_ >=? _); [discriminate|].
    destruct (Py.item _ _) as [it|e] eqn:Ei; cbn [fst].
    + intros H. exfalso. apply normaliser_exn_not_assertion.
      eapply construct_track_raises; eauto.
    + intros H. apply item_raises in Ei. congruence.
Qed.

(** A step keeps the client of the iterator. *)
Lemma unspotify_next_sp (s : UnspotifyPlaylist.t * World) :
  UnspotifyPlaylist._sp (fst (snd (UnspotifyPlaylist_next fromisoformat s)))
  = UnspotifyPlaylist._sp (fst s).
Proof.
  destruct s as [self w]. unfold UnspotifyPlaylist_next. run_step.
  destruct (_ =? 0); run_step.
  - destruct (playlist_tracks _ _ _ _); [|reflexivity]. run_step.
    destruct (_ >=? _); [reflexivity|].
    destruct (Py.item _ _); reflexivity.
  - destruct (_ >=? _); [reflexivity|].
    destruct (Py.item _ _); reflexivity.
Qed.

Lemma spotify_next_sp (s : SpotifyPlaylistIterator.t * World) :
  SpotifyPlaylistIterator._sp
    (fst (snd (SpotifyPlaylistIterator_next fromisoformat s)))
  = SpotifyPlaylistIterator._sp (fst s).
Proof.
  destruct s as [self w]. unfold SpotifyPlaylistIterator_next. run_step.
  destruct (_ =? 0); run_step.
  - destruct (playlist_tracks _ _ _ _); [|reflexivity]. run_step.
    destruct (_ >=? _); [reflexivity|].
    destruct (Py.item _ _); reflexivity.
  - destruct (_ >=? _); [reflexivity|].
    destruct (Py.item _ _); reflexivity.
Qed.

End Steps.

(** ** Exceptions that leave [list] *)

(** An exception leaves [list] only if a call of [next] raised it. *)
Lemma py_list_raise {S A} (next : M S A) (I : S -> Prop) (e : exn) :
  (forall s, I s -> fst (next s) <> Raise e /\ I (snd (next s))) ->
  forall (fuel : nat) (acc : list A) (s : S) (r : result (list A)) (s' : S),
    I s -> py_list next fuel acc s = Some (r, s') -> r <> Raise e.
Proof.
  intros Hstep fuel. induction fuel as [|fuel IH]; intros acc s r s' Hs Hrun.
  - discriminate Hrun.
  - cbn [py_list] in Hrun. destruct (Hstep s Hs) as [Hne Hs'].
    destruct (next s) as [[x|e0] s1]; cbn [fst snd] in *.
    + eapply IH; eauto.
    + destruct e0; injection Hrun as <- <-;
        first [discriminate
              | intros H; apply Hne; injection H as <-; reflexivity].
Qed.

(** C8. At a page boundary, a [playlist_tracks] call that returns [None]
    makes [__next__] fail with [AssertionError]: it neither ends the
    sequence nor returns a track, and the position is not advanced.  The
    assertion fails in no other case, so that with a client that answers
    every page request with a page (an empty one included) neither a call
    of [__next__] nor [list] over the iterator raises [AssertionError].
    Both iterators. *)
Theorem C8_missing_page_assertion (fromisoformat : string -> option datetime.date) :
  (forall (self : UnspotifyPlaylist.t) (w : World),
      UnspotifyPlaylist._current_pos self mod 100 = 0 ->
      playlist_tracks (UnspotifyPlaylist._sp self)
        (UnspotifyPlaylist._playlist_id self) 100
        (100 * (UnspotifyPlaylist._current_pos self / 100)) = None ->
      UnspotifyPlaylist_next fromisoformat (self, w)
      = (Raise AssertionError,
         (self, (w ++ [UnspotifyPlaylist_request self])%list)))
  /\ (forall (self : SpotifyPlaylistIterator.t) (w : World),
         SpotifyPlaylistIterator._position self mod 100 = 0 ->
         playlist_tracks (SpotifyPlaylistIterator._sp self)
           (SpotifyPlaylistIterator._playlist_id self) 100
           (100 * (SpotifyPlaylistIterator._position self / 100)) = None ->
         SpotifyPlaylistIterator_next fromisoformat (self, w)
         = (Raise AssertionError,
            (self, (w ++ [SpotifyPlaylistIterator_request self])%list)))
  /\ (forall (self : UnspotifyPlaylist.t) (w : World),
         (forall id limit offset,
             playlist_tracks (UnspotifyPlaylist._sp self) id limit offset <> None) ->
         fst (UnspotifyPlaylist_next fromisoformat (self, w)) <> Raise AssertionError
         /\ forall fuel r s',
             UnspotifyPlaylist_list fromisoformat fuel (self, w) = Some (r, s') ->
             r <> Raise AssertionError)
  /\ (forall (self : SpotifyPlaylistIterator.t) (w : World),
         (forall id limit offset,
             playlist_tracks (SpotifyPlaylistIterator._sp self) id limit offset
             <> None) ->
         fst (SpotifyPlaylistIterator_next fromisoformat (self, w))
         <> Raise AssertionError
         /\ forall fuel r s',
             py_list (SpotifyPlaylistIterator_next fromisoformat) fuel []
               (self, w) = Some (r, s') ->
             r <> Raise AssertionError).
Proof.
  split; [exact (unspotify_next_no_page fromisoformat)|].
  split; [exact (spotify_next_no_page fromisoformat)|].
  split.
  - intros self w Hsp. split.
    + intros H. apply unspotify_next_assertion in H as [_ H].
      exact (Hsp _ _ _ H).
    + intros fuel r s'. unfold UnspotifyPlaylist_list.
      apply (py_list_raise _
               (fun s => UnspotifyPlaylist._sp (fst s) = UnspotifyPlaylist._sp self));
        [|reflexivity].
      intros [self1 w1] Hinv. cbn [fst] in Hinv. split.
      * intros H. apply unspotify_next_assertion in H as [_ H].
        rewrite Hinv in H. exact (Hsp _ _ _ H).
      * rewrite unspotify_next_sp. exact Hinv.
  - intros self w Hsp. split.
    + intros H. apply spotify_next_assertion in H as [_ H].
      exact (Hsp _ _ _ H).
    + intros fuel r s'.
      apply (py_list_raise _
               (fun s => SpotifyPlaylistIterator._sp (fst s)
                         = SpotifyPlaylistIterator._sp self));
        [|reflexivity].
      intros [self1 w1] Hinv. cbn [fst] in Hinv. split.
      * intros H. apply spotify_next_assertion in H as [_ H].
        rewrite Hinv in H. exact (Hsp _ _ _ H).
      * rewrite spotify_next_sp. exact Hinv.
Qed.

Lemma C8_missing_page_assertion_witness :
  (UnspotifyPlaylist_next fromisoformat_ymd
     (UnspotifyPlaylist_init silent_client "abc123", [])
   = (Raise AssertionError,
      (UnspotifyPlaylist_init silent_client "abc123",
       [mk_Request "abc123" 100 0]))
   /\ SpotifyPlaylistIterator_next fromisoformat_ymd
        (SpotifyPlaylistIterator_init silent_client "abc123", [])
      = (Raise AssertionError,
         (SpotifyPlaylistIterator_init silent_client "abc123",
          [mk_Request "abc123" 100 0])))
  /\ (fst (UnspotifyPlaylist_next fromisoformat_ymd
             (UnspotifyPlaylist_init (catalogue_client "Mix" []) "abc123", []))
      <> Raise AssertionError
      /\ fst (SpotifyPlaylistIterator_next fromisoformat_ymd
                (SpotifyPlaylistIterator_init (catalogue_client "Mix" []) "abc123", []))
         <> Raise AssertionError).
Proof.
  pose proof (C8_missing_page_assertion fromisoformat_ymd) as (H1 & H2 & H3 & H4).
  split; [split|split].
  - exact (H1 (UnspotifyPlaylist_init silent_client "abc123") [] eq_refl eq_refl).
  - exact (H2 (SpotifyPlaylistIterator_init silent_client "abc123") [] eq_refl eq_refl).
  - apply (H3 (UnspotifyPlaylist_init (catalogue_client "Mix" []) "abc123") []).
    intros id limit offset. discriminate.
  - apply (H4 (SpotifyPlaylistIterator_init (catalogue_client "Mix" []) "abc123") []).
    intros id limit offset. discriminate.
Defined.

(** ** Iterating over a playlist *)

(** C1. A playlist of exactly 250 tracks, iterated to the end: three
    pages are requested, 100 tracks each, at the offsets 0, 100 and 200,
    and the sequence ends with [StopIteration] after 249 elements, not
    250.  [__next__] advances the position before it indexes the page, so
    the first track of a page comes out last (tracks 0 and 100) and the
    first track of the last, partial page (track 200) never does.  Both
    iterators. *)
Theorem C1_paging_250_tracks :
  forall fromisoformat,
    match UnspotifyPlaylist_list fromisoformat 1000
            (UnspotifyPlaylist_init
               (catalogue_client "Mix" (numbered_catalogue 250)) "abc123", []) with
    | Some (Ok l, (_, w)) =>
        w = page_requests "abc123" [0; 100; 200]
        /\ length l = 249%nat
        /\ map UnspotifyTrackInfo.name l
           = numbered_names
               (seq 1 99 ++ [0%nat] ++ seq 101 99 ++ [100%nat] ++ seq 201 49)%list
    | _ => False
    end
    /\ match SpotifyPlaylist_fetch_tracks fromisoformat 1000
               (SpotifyPlaylist_init
                  (catalogue_client "Mix" (numbered_catalogue 250)) "abc123") [] with
       | Some (Ok l, (_, w)) =>
           w = page_requests "abc123" [0; 100; 200]
           /\ length l = 249%nat
           /\ map SpotlessTrackInfo.name l
              = numbered_names
               (seq 1 99 ++ [0%nat] ++ seq 101 99 ++ [100%nat] ++ seq 201 49)%list
       | _ => False
       end.
Proof.
  intros f. split; vm_compute; repeat split; reflexivity.
Qed.

Section FirstElement.

Variable fromisoformat : string -> option datetime.date.

Lemma first_page_items (name : string) (t0 t1 : Track.t) (rest : list Track.t)
  (id : string) :
  exists l,
    playlist_tracks (catalogue_client name (t0 :: t1 :: rest)) id 100 (100 * (0 / 100))
    = Some (mk_Page (mk_Item t0 :: mk_Item t1 :: l)).
Proof. eexists. reflexivity. Qed.

Lemma len_two {A} (a b : A) (l : list A) : (1 >=? Py.len (a :: b :: l)) = false.
Proof.
  unfold Py.len. cbn [length].
  destruct (Z.geb_spec 1 (Z.of_nat (S (S (length l))))); [lia|reflexivity].
Qed.

(** The first call of [__next__] on a playlist of two tracks or more
    answers the second track. *)
Lemma unspotify_first_next (name : string) (t0 t1 : Track.t)
  (rest : list Track.t) (id : string) :
  fst (UnspotifyPlaylist_next fromisoformat
         (UnspotifyPlaylist_init (catalogue_client name (t0 :: t1 :: rest)) id, []))
  = UnspotifyTrackInfo_init fromisoformat t1.
Proof.
  destruct (first_page_items name t0 t1 rest id) as [l Hl].
  unfold UnspotifyPlaylist_next, UnspotifyPlaylist_init. run_step.
  cbn [UnspotifyPlaylist._current_pos UnspotifyPlaylist._sp
         UnspotifyPlaylist._playlist_id].
  change (0 mod 100 =? 0) with true. cbv iota. run_step.
  rewrite Hl. run_step.
  cbn [UnspotifyPlaylist.set_current_tracks UnspotifyPlaylist.set_current_pos
         UnspotifyPlaylist._current_pos UnspotifyPlaylist._current_tracks items].
  change ((0 + 1) mod 100) with 1. rewrite len_two, item_1. reflexivity.
Qed.

Lemma spotify_first_next (name : string) (t0 t1 : Track.t)
  (rest : list Track.t) (id : string) :
  fst (SpotifyPlaylistIterator_next fromisoformat
         (SpotifyPlaylistIterator_init (catalogue_client name (t0 :: t1 :: rest)) id, []))
  = _construct_track fromisoformat t1.
Proof.
  destruct (first_page_items name t0 t1 rest id) as [l Hl].
  unfold SpotifyPlaylistIterator_next, SpotifyPlaylistIterator_init. run_step.
  cbn [SpotifyPlaylistIterator._position SpotifyPlaylistIterator._sp
         SpotifyPlaylistIterator._playlist_id].
  change (0 mod 100 =? 0) with true. cbv iota. run_step.
  rewrite Hl. run_step.
  cbn [SpotifyPlaylistIterator.set_current_tracks
         SpotifyPlaylistIterator.set_position
         SpotifyPlaylistIterator._position
         SpotifyPlaylistIterator._current_tracks items].
  change ((0 + 1) mod 100) with 1. rewrite len_two, item_1. reflexivity.
Qed.

End FirstElement.

(** C2. The order of the tracks produced is not the order of the
    catalogue.  On every playlist of two tracks or more, the first element
    either iterator produces is the normalisation of the second raw item;
    on the playlist of the three numbered tracks 0, 1, 2 the sequence is
    the tracks 1, 2 and track 0 is not produced. *)
Theorem C2_iteration_order :
  forall fromisoformat,
    (forall name id t0 t1 rest,
        fst (UnspotifyPlaylist_next fromisoformat
               (UnspotifyPlaylist_init (catalogue_client name (t0 :: t1 :: rest)) id, []))
        = UnspotifyTrackInfo_init fromisoformat t1)
    /\ (forall name id t0 t1 rest,
           fst (SpotifyPlaylistIterator_next fromisoformat
                  (SpotifyPlaylistIterator_init
                     (catalogue_client name (t0 :: t1 :: rest)) id, []))
           = _construct_track fromisoformat t1)
    /\ match UnspotifyPlaylist_list fromisoformat 10
               (UnspotifyPlaylist_init
                  (catalogue_client "Mix" (numbered_catalogue 3)) "abc123", []) with
       | Some (Ok l, _) => map UnspotifyTrackInfo.name l = ["1"; "2"]
       | _ => False
       end
    /\ match SpotifyPlaylist_fetch_tracks fromisoformat 10
               (SpotifyPlaylist_init
                  (catalogue_client "Mix" (numbered_catalogue 3)) "abc123") [] with
       | Some (Ok l, _) => map SpotlessTrackInfo.name l = ["1"; "2"]
       | _ => False
       end.
Proof.
  intros f. split; [|split; [|split]].
  - intros. apply unspotify_first_next.
  - intros. apply spotify_first_next.
  - vm_compute. reflexivity.
  - vm_compute. reflexivity.
Qed.

(** ** A playlist shorter than a page *)

Section ShortPlaylist.

Variable fromisoformat : string -> option datetime.date.

Lemma item_of_nat {A} (l : list A) (n : nat) :
  Py.item l (Z.of_nat n)
  = match l !! n with Some x => Ok x | None => Raise IndexError end.
Proof.
  unfold Py.item.
  destruct (Z.ltb_spec (Z.of_nat n) 0) as [L|_]; [lia|].
  destruct (Z.ltb_spec (Z.of_nat n) 0) as [L|_]; [lia|].
  rewrite Nat2Z.id. reflexivity.
Qed.

(** A call of [__next__] away from a page boundary: no request, the
    position moves on, and the track at the new position is answered if
    the page has one. *)
Lemma unspotify_next_inside (name : string) (sp : Spotify) (id : string)
  (k : nat) (page : list Track.t) (w : World) :
  (0 < k)%nat -> (k + 1 < 100)%nat ->
  UnspotifyPlaylist_next fromisoformat (unspotify_at name sp id k page, w)
  = (match page !! (k + 1)%nat with
     | Some t => UnspotifyTrackInfo_init fromisoformat t
     | None => Raise StopIteration
     end,
     (unspotify_at name sp id (k + 1) page, w)).
Proof.
  intros Hk Hlt. unfold UnspotifyPlaylist_next, unspotify_at. run_step.
  cbn [UnspotifyPlaylist._current_pos].
  rewrite (Z.mod_small (Z.of_nat k) 100) by lia.
  destruct (Z.eqb_spec (Z.of_nat k) 0) as [E|_]; [lia|]. run_step.
  cbn [UnspotifyPlaylist.set_current_pos UnspotifyPlaylist._current_pos
         UnspotifyPlaylist._current_tracks UnspotifyPlaylist.name
         UnspotifyPlaylist._sp UnspotifyPlaylist._playlist_id].
  replace (Z.of_nat k + 1) with (Z.of_nat (k + 1)) by lia.
  rewrite (Z.mod_small (Z.of_nat (k + 1)) 100) by lia.
  unfold Py.len. rewrite length_map.
  destruct (page !! (k + 1)%nat) as [t|] eqn:Et.
  - pose proof (lookup_lt_Some _ _ _ Et) as Hlen.
    destruct (Z.geb_spec (Z.of_nat (k + 1)) (Z.of_nat (length page))) as [G|_];
      [lia|].
    rewrite item_of_nat, list_lookup_fmap, Et. reflexivity.
  - apply lookup_ge_None in Et.
    destruct (Z.geb_spec (Z.of_nat (k + 1)) (Z.of_nat (length page))) as [_|G];
      [reflexivity|lia].
Qed.

Lemma py_list_S {S A} (next : M S A) (fuel : nat) (acc : list A) (s : S) :
  py_list next (Datatypes.S fuel) acc s
  = match next s with
    | (Ok x, s') => py_list next fuel (acc ++ [x])%list s'
    | (Raise StopIteration, s') => Some (Ok acc, s')
    | (Raise e, s') => Some (Raise e, s')
    end.
Proof. reflexivity. Qed.

(** From a position inside the page, [list] collects the tracks after
    that position. *)
Lemma unspotify_list_inside (g : Track.t -> UnspotifyTrackInfo.t)
  (name : string) (sp : Spotify) (id : string) (page : list Track.t) (w : World) :
  (length page < 100)%nat ->
  (forall t, In t page -> UnspotifyTrackInfo_init fromisoformat t = Ok (g t)) ->
  forall (rest : list Track.t) (k : nat) (acc : list UnspotifyTrackInfo.t),
    (0 < k)%nat -> (k + 1 <= length page)%nat -> drop (k + 1) page = rest ->
    py_list (UnspotifyPlaylist_next fromisoformat) (S (length rest)) acc
      (unspotify_at name sp id k page, w)
    = Some (Ok (acc ++ map g rest)%list,
            (unspotify_at name sp id (k + 1 + length rest) page, w)).
Proof.
  intros Hshort Hg rest.
  induction rest as [|t rest IH]; intros k acc Hk Hin Hdrop.
  - assert (Hlen : (length page <= k + 1)%nat).
    { apply (f_equal length) in Hdrop. rewrite length_drop in Hdrop.
      cbn in Hdrop. lia. }
    cbn [length]. rewrite py_list_S.
    rewrite unspotify_next_inside by lia.
    rewrite (proj2 (lookup_ge_None page (k + 1)%nat)) by lia.
    rewrite app_nil_r, Nat.add_0_r. reflexivity.
  - assert (Et : page !! (k + 1)%nat = Some t).
    { rewrite <- (Nat.add_0_r (k + 1)), <- lookup_drop, Hdrop. reflexivity. }
    pose proof (lookup_lt_Some _ _ _ Et) as Hlen.
    cbn [length]. rewrite py_list_S, unspotify_next_inside by lia.
    rewrite Et, (Hg t) by (apply list_elem_of_In, list_elem_of_lookup; eauto).
    rewrite (IH (k + 1)%nat) by
      (try lia; rewrite <- (drop_drop page 1 (k + 1)), Hdrop; reflexivity).
    rewrite <- app_assoc. cbn [app map].
    replace (k + 1 + 1 + length rest)%nat with (k + 1 + S (length rest))%nat by lia.
    reflexivity.
Qed.

(** The first call on a playlist that fits in a page: the page is
    requested at offset 0 and the track at position 1 is answered. *)
Lemma unspotify_next_first (name id : string) (c : list Track.t) :
  (length c < 100)%nat ->
  UnspotifyPlaylist_next fromisoformat
    (UnspotifyPlaylist_init (catalogue_client name c) id, [])
  = (match c !! 1%nat with
     | Some t => UnspotifyTrackInfo_init fromisoformat t
     | None => Raise StopIteration
     end,
     (unspotify_at name (catalogue_client name c) id 1 c, page_requests id [0])).
Proof.
  intros Hshort.
  unfold UnspotifyPlaylist_next, UnspotifyPlaylist_init, unspotify_at. run_step.
  cbn [UnspotifyPlaylist._current_pos UnspotifyPlaylist._sp
         UnspotifyPlaylist._playlist_id].
  change (0 mod 100 =? 0) with true. cbv iota. run_step.
  cbn [catalogue_client playlist_tracks playlist]. run_step.
  cbn [UnspotifyPlaylist.set_current_tracks UnspotifyPlaylist.set_current_pos
         UnspotifyPlaylist._current_pos UnspotifyPlaylist._current_tracks
         UnspotifyPlaylist.name UnspotifyPlaylist._sp
         UnspotifyPlaylist._playlist_id items].
  change (100 * (0 / 100)) with 0. change (Z.to_nat 0) with 0%nat.
  change (Z.to_nat 100) with 100%nat.
  rewrite drop_0, take_ge by lia.
  change ((0 + 1) mod 100) with (Z.of_nat 1).
  unfold Py.len. rewrite length_map.
  destruct (c !! 1%nat) as [t|] eqn:Et.
  - pose proof (lookup_lt_Some _ _ _ Et) as Hlen.
    destruct (Z.geb_spec (Z.of_nat 1) (Z.of_nat (length c))) as [G|_]; [lia|].
    rewrite item_of_nat, list_lookup_fmap, Et. reflexivity.
  - apply lookup_ge_None in Et.
    destruct (Z.geb_spec (Z.of_nat 1) (Z.of_nat (length c))) as [_|G];
      [reflexivity|lia].
Qed.

(** Every playlist shorter than a page whose tracks all normalise:
    [list] sends one request and produces the tracks after the first, in
    order; the first track of the playlist is not produced. *)
Lemma unspotify_list_short (g : Track.t -> UnspotifyTrackInfo.t)
  (name id : string) (t0 : Track.t) (page : list Track.t) :
  (length (t0 :: page) < 100)%nat ->
  (forall t, In t (t0 :: page) -> UnspotifyTrackInfo_init fromisoformat t = Ok (g t)) ->
  exists s',
    UnspotifyPlaylist_list fromisoformat (length (t0 :: page))
      (UnspotifyPlaylist_init (catalogue_client name (t0 :: page)) id, [])
    = Some (Ok (map g page), (s', page_requests id [0])).
Proof.
  intros Hshort Hg. unfold UnspotifyPlaylist_list. cbn [length].
  rewrite py_list_S, unspotify_next_first by exact Hshort.
  destruct page as [|t1 page].
  - cbn. eexists. reflexivity.
  - cbn [lookup list_lookup]. rewrite (Hg t1) by (right; left; reflexivity).
    cbn [length].
    rewrite (unspotify_list_inside g _ _ _ (t0 :: t1 :: page) _ Hshort Hg page 1);
      [eexists; reflexivity|lia|cbn [length]; lia|reflexivity].
Qed.

End ShortPlaylist.

(** ** File names *)












(** ** Paths written from their components *)

Lemma str_append_assoc (a b c : string) : ((a ++ b) ++ c = a ++ (b ++ c))%string.
Proof.
  induction a as [|x a IH]; [reflexivity|].
  rewrite !append_cons_l, IH. reflexivity.
Qed.



Lemma components_app (a b : string) :
  pathlib.components (a ++ String "/" b)
  = (pathlib.components a ++ pathlib.components b)%list.
Proof. unfold pathlib.components. rewrite split_app. apply filter_app. Qed.

Lemma components_component (w : string) :
  component w -> pathlib.components w = [w].
Proof.
  intros (H1 & H2 & H3). unfold pathlib.components.
  rewrite (split_absent _ _ H3).
  rewrite filter_cons_True by (split; assumption). reflexivity.
Qed.


Lemma lstrip_sep_other (c : ascii) (s : string) :
  Ascii.eqb c "/" = false ->
  pathlib.lstrip_sep (String c s) = String c s.
Proof.
  destruct c as [[] [] [] [] [] [] [] []]; try reflexivity. discriminate.
Qed.

Lemma lstrip_sep_component (w rest : string) :
  component w -> pathlib.lstrip_sep (w ++ rest) = (w ++ rest)%string.
Proof.
  intros (H1 & _ & H3). destruct w as [|c w]; [congruence|].
  cbn [Py.contains] in H3. apply orb_false_iff in H3 as [Hc _].
  rewrite append_cons_l. apply lstrip_sep_other. exact Hc.
Qed.








(** ** Paths read back *)











(** ** The tag writer *)





(** The run on the sample file, written out: the frame of the file that
    has the key of a frame added is replaced by it. *)
Lemma tag_writer_sample_run :
  _set_track_metadata sample_env sample_path sample_info tag_start
  = (Ok tt,
     mk_TagState
       [TOFN 3 "The Killers - Mr. Brightside (Official)";
        TIT2 3 "Mr. Brightside"; TPE2 3 "The Killers"; TRCK 3 "2";
        TALB 3 "Hot Fuss"; TORY 3 "2004"; APIC "image/jpeg" 3 "Cover" "JPEG"]
       [EvSave sample_path
          [TOFN 3 "The Killers - Mr. Brightside (Official)";
           TIT2 3 "Mr. Brightside"; TPE2 3 "The Killers"; TRCK 3 "2";
           TALB 3 "Hot Fuss"; TORY 3 "2004"; APIC "image/jpeg" 3 "Cover" "JPEG"];
        EvRename sample_path "Mix/The Killers - Mr. Brightside.mp3";
        EvPrint "	Finished saving «Mr. Brightside»."]).
Proof. vm_compute. reflexivity. Qed.



(** * Further properties *)

(** ** The two iterators run the same paging *)

Lemma unspotify_next_paged (fromisoformat : string -> option datetime.date)
  (self : UnspotifyPlaylist.t) (w : World) :
  UnspotifyPlaylist_next fromisoformat (self, w)
  = let r := paged_next (UnspotifyTrackInfo_init fromisoformat)
               (UnspotifyPlaylist._sp self) (UnspotifyPlaylist._playlist_id self)
               (unspotify_cursor self, w) in
    (fst r, (unspotify_with_cursor self (fst (snd r)), snd (snd r))).
Proof.
  destruct self as [name sp id pos cur].
  unfold UnspotifyPlaylist_next, paged_next, unspotify_cursor,
    unspotify_with_cursor. run_step.
  cbn [UnspotifyPlaylist._current_pos UnspotifyPlaylist._current_tracks
         UnspotifyPlaylist._sp UnspotifyPlaylist._playlist_id
         UnspotifyPlaylist.name c_pos c_page].
  destruct (pos mod 100 =? 0); run_step.
  - destruct (playlist_tracks sp id 100 (100 * (pos / 100))) as [pg|];
      cbn [option_map]; [|reflexivity].
    run_step.
    cbn [UnspotifyPlaylist.set_current_tracks UnspotifyPlaylist.set_current_pos
           UnspotifyPlaylist._current_pos UnspotifyPlaylist._current_tracks
           UnspotifyPlaylist._sp UnspotifyPlaylist._playlist_id
           UnspotifyPlaylist.name c_pos c_page].
    destruct (_ >=? _); [reflexivity|].
    destruct (Py.item _ _); reflexivity.
  - cbn [UnspotifyPlaylist.set_current_tracks UnspotifyPlaylist.set_current_pos
           UnspotifyPlaylist._current_pos UnspotifyPlaylist._current_tracks
           UnspotifyPlaylist._sp UnspotifyPlaylist._playlist_id
           UnspotifyPlaylist.name c_pos c_page].
    destruct (_ >=? _); [reflexivity|].
    destruct (Py.item _ _); reflexivity.
Qed.

Lemma spotify_next_paged (fromisoformat : string -> option datetime.date)
  (self : SpotifyPlaylistIterator.t) (w : World) :
  SpotifyPlaylistIterator_next fromisoformat (self, w)
  = let r := paged_next (_construct_track fromisoformat)
               (SpotifyPlaylistIterator._sp self)
               (SpotifyPlaylistIterator._playlist_id self)
               (spotify_cursor self, w) in
    (fst r, (spotify_with_cursor self (fst (snd r)), snd (snd r))).
Proof.
  destruct self as [sp id pos cur].
  unfold SpotifyPlaylistIterator_next, paged_next, spotify_cursor,
    spotify_with_cursor. run_step.
  cbn [SpotifyPlaylistIterator._position SpotifyPlaylistIterator._current_tracks
         SpotifyPlaylistIterator._sp SpotifyPlaylistIterator._playlist_id
         c_pos c_page].
  destruct (pos mod 100 =? 0); run_step.
  - destruct (playlist_tracks sp id 100 (100 * (pos / 100))) as [pg|];
      cbn [option_map]; [|reflexivity].
    run_step.
    cbn [SpotifyPlaylistIterator.set_current_tracks
           SpotifyPlaylistIterator.set_position
           SpotifyPlaylistIterator._position
           SpotifyPlaylistIterator._current_tracks
           SpotifyPlaylistIterator._sp SpotifyPlaylistIterator._playlist_id
           c_pos c_page].
    destruct (_ >=? _); [reflexivity|].
    destruct (Py.item _ _); reflexivity.
  - cbn [SpotifyPlaylistIterator.set_current_tracks
           SpotifyPlaylistIterator.set_position
           SpotifyPlaylistIterator._position
           SpotifyPlaylistIterator._current_tracks
           SpotifyPlaylistIterator._sp SpotifyPlaylistIterator._playlist_id
           c_pos c_page].
    destruct (_ >=? _); [reflexivity|].
    destruct (Py.item _ _); reflexivity.
Qed.

(** ** One step of the paging *)

Section PagedStep.

Context {T : Type}.
Variable normalise : Track.t -> result T.
Variable sp : Spotify.
Variable id : string.

Lemma boundary_offset (pos : Z) : pos mod 100 = 0 -> 100 * (pos / 100) = pos.
Proof. intros H. symmetry. apply Z.div_exact; [lia|exact H]. Qed.

Lemma paged_next_log (c : Cursor) (w : World) :
  snd (snd (paged_next normalise sp id (c, w)))
  = if c_pos c mod 100 =? 0
    then (w ++ [mk_Request id 100 (c_pos c)])%list
    else w.
Proof.
  unfold paged_next. cbn [fst snd].
  destruct (Z.eqb_spec (c_pos c mod 100) 0) as [E|_].
  - rewrite (boundary_offset _ E).
    destruct (option_map items _); reflexivity.
  - reflexivity.
Qed.



(** The last position of a page: no request, and the first track of the
    page held is the one answered. *)
Lemma paged_next_wrap (c : Cursor) (w : World) (it : Item) (rest : list Item) :
  c_pos c mod 100 = 99 -> c_page c = it :: rest ->
  paged_next normalise sp id (c, w)
  = (normalise (track it), (mk_Cursor (c_pos c + 1) (it :: rest), w)).
Proof.
  intros Hpos Hpage. unfold paged_next. cbn [fst snd].
  rewrite Hpos, Hpage. cbn [Z.eqb].
  assert (Hm : (c_pos c + 1) mod 100 = 0).
  { rewrite <- Zplus_mod_idemp_l, Hpos. reflexivity. }
  rewrite Hm. unfold Py.len. cbn [length].
  destruct (Z.geb_spec 0 (Z.of_nat (S (length rest)))) as [G|_]; [lia|].
  rewrite item_0. reflexivity.
Qed.

End PagedStep.



(** X1. A call of [__next__] sends a page request exactly when the
    position it starts from is a multiple of 100: the request then asks
    for 100 tracks of the iterator's playlist from an offset equal to that
    position, and nothing else is sent; from any other position nothing
    is sent.  Both iterators. *)
Theorem X1_request_at_page_boundary (fromisoformat : string -> option datetime.date) :
  (forall (self : UnspotifyPlaylist.t) (w : World),
      snd (snd (UnspotifyPlaylist_next fromisoformat (self, w)))
      = if UnspotifyPlaylist._current_pos self mod 100 =? 0
        then (w ++ [mk_Request (UnspotifyPlaylist._playlist_id self) 100
                      (UnspotifyPlaylist._current_pos self)])%list
        else w)
  /\ (forall (self : SpotifyPlaylistIterator.t) (w : World),
         snd (snd (SpotifyPlaylistIterator_next fromisoformat (self, w)))
         = if SpotifyPlaylistIterator._position self mod 100 =? 0
           then (w ++ [mk_Request (SpotifyPlaylistIterator._playlist_id self) 100
                         (SpotifyPlaylistIterator._position self)])%list
           else w).
Proof.
  split; intros self w.
  - rewrite unspotify_next_paged. cbv zeta. cbn [snd].
    apply paged_next_log.
  - rewrite spotify_next_paged. cbv zeta. cbn [snd].
    apply paged_next_log.
Qed.


(** ** Running [list] over the paging *)

(** More calls than [list] needs change nothing. *)
Lemma py_list_more_fuel {S A} (next : M S A) (fuel extra : nat) :
  forall (acc : list A) (s : S) (out : result (list A) * S),
    py_list next fuel acc s = Some out ->
    py_list next (fuel + extra) acc s = Some out.
Proof.
  induction fuel as [|fuel IH]; intros acc s out H; [discriminate H|].
  cbn [Nat.add]. rewrite py_list_S in *.
  destruct (next s) as [[x|e] s']; [apply IH; exact H|exact H].
Qed.

(** [list] over a method that runs another method on a part of its
    state. *)
Lemma py_list_embed {S1 S2 A} (next1 : M S1 A) (next2 : M S2 A) (h : S2 -> S1) :
  (forall s2, next1 (h s2) = (fst (next2 s2), h (snd (next2 s2)))) ->
  forall (fuel : nat) (acc : list A) (s2 : S2),
    py_list next1 fuel acc (h s2)
    = option_map (fun out => (fst out, h (snd out))) (py_list next2 fuel acc s2).
Proof.
  intros Hstep fuel. induction fuel as [|fuel IH]; intros acc s2; [reflexivity|].
  rewrite !py_list_S, Hstep.
  destruct (next2 s2) as [[x|e] s']; cbn [fst snd].
  - apply IH.
  - destruct e; reflexivity.
Qed.

Section ListPaged.

Variable fromisoformat : string -> option datetime.date.

Lemma unspotify_list_paged (self : UnspotifyPlaylist.t) (w : World) (fuel : nat) :
  UnspotifyPlaylist_list fromisoformat fuel (self, w)
  = option_map
      (fun out => (fst out, (unspotify_with_cursor self (fst (snd out)),
                             snd (snd out))))
      (py_list (paged_next (UnspotifyTrackInfo_init fromisoformat)
                  (UnspotifyPlaylist._sp self) (UnspotifyPlaylist._playlist_id self))
         fuel [] (unspotify_cursor self, w)).
Proof.
  unfold UnspotifyPlaylist_list.
  rewrite <- (py_list_embed (UnspotifyPlaylist_next fromisoformat) _
                (fun s => (unspotify_with_cursor self (fst s), snd s))).
  - destruct self; reflexivity.
  - intros [c w']. rewrite unspotify_next_paged. destruct c; reflexivity.
Qed.

Lemma spotify_list_paged (self : SpotifyPlaylistIterator.t) (w : World) (fuel : nat) :
  py_list (SpotifyPlaylistIterator_next fromisoformat) fuel [] (self, w)
  = option_map
      (fun out => (fst out, (spotify_with_cursor self (fst (snd out)),
                             snd (snd out))))
      (py_list (paged_next (_construct_track fromisoformat)
                  (SpotifyPlaylistIterator._sp self)
                  (SpotifyPlaylistIterator._playlist_id self))
         fuel [] (spotify_cursor self, w)).
Proof.
  rewrite <- (py_list_embed (SpotifyPlaylistIterator_next fromisoformat) _
                (fun s => (spotify_with_cursor self (fst s), snd s))).
  - destruct self; reflexivity.
  - intros [c w']. rewrite spotify_next_paged. destruct c; reflexivity.
Qed.

End ListPaged.

(** ** The whole run over a catalogue *)

Section PagedRun.

Context {T : Type}.
Variable normalise : Track.t -> result T.
Variable g : Track.t -> T.
Variable name id : string.
Variable c : list Track.t.
Hypothesis Hg : forall t, In t c -> normalise t = Ok (g t).

Lemma page_of_In (j : nat) (t : Track.t) : In t (page_of c j) -> In t c.
Proof.
  intros H. apply list_elem_of_In. apply list_elem_of_In in H.
  apply (subseteq_drop (100 * j) c), (subseteq_take 100). exact H.
Qed.

Lemma mod_100_add (j k : nat) :
  (k < 100)%nat -> Z.of_nat (100 * j + k) mod 100 = Z.of_nat k.
Proof.
  intros Hk. rewrite Nat2Z.inj_add, Nat2Z.inj_mul, Z.add_comm, Z.mul_comm.
  rewrite Z_mod_plus_full. apply Z.mod_small. lia.
Qed.

Lemma item_of_page (page : list Track.t) (k : nat) :
  match Py.item (map mk_Item page) (Z.of_nat k) with
  | Ok it => normalise (track it)
  | Raise e => Raise e
  end
  = match page !! k with
    | Some t => normalise t
    | None => Raise IndexError
    end.
Proof.
  rewrite item_of_nat, list_lookup_fmap.
  destruct (page !! k); reflexivity.
Qed.

(** A call at the start of page [j]. *)
Lemma paged_next_boundary (j : nat) (page0 : list Item) (w : World) :
  paged_next normalise (catalogue_client name c) id
    (mk_Cursor (Z.of_nat (100 * j)) page0, w)
  = (match page_of c j !! 1%nat with
     | Some t => normalise t
     | None => Raise StopIteration
     end,
     (at_pos (100 * j + 1) (page_of c j),
      (w ++ [mk_Request id 100 (100 * Z.of_nat j)])%list)).
Proof.
  unfold paged_next, at_pos. cbn [fst snd c_pos c_page].
  assert (Hm : Z.of_nat (100 * j) mod 100 = 0).
  { rewrite <- (Nat.add_0_r (100 * j)). apply (mod_100_add j 0). lia. }
  rewrite Hm. cbn [Z.eqb].
  rewrite (boundary_offset _ Hm).
  cbn [catalogue_client playlist_tracks option_map items].
  change (Z.to_nat 100) with 100%nat. rewrite Nat2Z.id.
  fold (page_of c j).
  replace (Z.of_nat (100 * j) + 1) with (Z.of_nat (100 * j + 1)) by lia.
  rewrite (mod_100_add j 1) by lia.
  replace (Z.of_nat (100 * j)) with (100 * Z.of_nat j) by lia.
  unfold Py.len. rewrite length_map.
  destruct (page_of c j !! 1%nat) as [t|] eqn:Et.
  - pose proof (lookup_lt_Some _ _ _ Et) as Hlen.
    destruct (Z.geb_spec (Z.of_nat 1) (Z.of_nat (length (page_of c j)))) as [G|_];
      [lia|].
    rewrite item_of_page, Et. reflexivity.
  - apply lookup_ge_None in Et.
    destruct (Z.geb_spec (Z.of_nat 1) (Z.of_nat (length (page_of c j)))) as [_|G];
      [reflexivity|lia].
Qed.

(** A call inside a page, before its last position. *)
Lemma paged_next_inside (j k : nat) (page : list Track.t) (w : World) :
  (0 < k)%nat -> (k + 1 < 100)%nat ->
  paged_next normalise (catalogue_client name c) id
    (at_pos (100 * j + k) page, w)
  = (match page !! (k + 1)%nat with
     | Some t => normalise t
     | None => Raise StopIteration
     end,
     (at_pos (100 * j + (k + 1)) page, w)).
Proof.
  intros Hk Hlt. unfold paged_next, at_pos. cbn [fst snd c_pos c_page].
  rewrite (mod_100_add j k) by lia.
  destruct (Z.eqb_spec (Z.of_nat k) 0) as [E|_]; [lia|].
  replace (Z.of_nat (100 * j + k) + 1) with (Z.of_nat (100 * j + (k + 1))) by lia.
  rewrite (mod_100_add j (k + 1)) by lia.
  unfold Py.len. rewrite length_map.
  destruct (page !! (k + 1)%nat) as [t|] eqn:Et.
  - pose proof (lookup_lt_Some _ _ _ Et) as Hlen.
    destruct (Z.geb_spec (Z.of_nat (k + 1)) (Z.of_nat (length page))) as [G|_];
      [lia|].
    rewrite item_of_page, Et. reflexivity.
  - apply lookup_ge_None in Et.
    destruct (Z.geb_spec (Z.of_nat (k + 1)) (Z.of_nat (length page))) as [_|G];
      [reflexivity|lia].
Qed.

(** The call at the last position of a full page. *)
Lemma paged_next_last (j : nat) (t0 : Track.t) (page : list Track.t) (w : World) :
  paged_next normalise (catalogue_client name c) id
    (at_pos (100 * j + 99) (t0 :: page), w)
  = (normalise t0, (at_pos (100 * (j + 1)) (t0 :: page), w)).
Proof.
  unfold at_pos. cbn [map].
  rewrite (paged_next_wrap _ _ _ _ _ (mk_Item t0) (map mk_Item page));
    [|cbn [c_pos]; apply mod_100_add; lia|reflexivity].
  cbn [c_pos track].
  replace (Z.of_nat (100 * j + 99) + 1) with (Z.of_nat (100 * (j + 1))) by lia.
  reflexivity.
Qed.

Let next := paged_next normalise (catalogue_client name c) id.

(** The calls inside a page collect the tracks after the position. *)
Lemma run_inside (j : nat) (page : list Track.t) (w : World) :
  (length page <= 100)%nat ->
  (forall t, In t page -> normalise t = Ok (g t)) ->
  forall (rest : list Track.t) (k : nat) (acc : list T) (fuel : nat),
    (0 < k)%nat -> drop (k + 1) page = rest ->
    py_list next (length rest + fuel) acc (at_pos (100 * j + k) page, w)
    = py_list next fuel (acc ++ map g rest)%list
        (at_pos (100 * j + (k + length rest)) page, w).
Proof.
  intros Hlen Hpage rest.
  induction rest as [|t rest IH]; intros k acc fuel Hk Hdrop.
  - cbn [length Nat.add map]. rewrite app_nil_r, Nat.add_0_r. reflexivity.
  - assert (Et : page !! (k + 1)%nat = Some t).
    { rewrite <- (Nat.add_0_r (k + 1)), <- lookup_drop, Hdrop. reflexivity. }
    pose proof (lookup_lt_Some _ _ _ Et) as Hk1.
    cbn [length Nat.add]. rewrite py_list_S. unfold next at 1.
    rewrite paged_next_inside by lia.
    rewrite Et, (Hpage t) by (apply list_elem_of_In, list_elem_of_lookup; eauto).
    fold next. rewrite (IH (k + 1)%nat) by
      (try lia; rewrite <- (drop_drop page 1 (k + 1)), Hdrop; reflexivity).
    rewrite <- app_assoc. cbn [app map].
    replace (k + 1 + length rest)%nat with (k + S (length rest))%nat by lia.
    reflexivity.
Qed.

(** A last page, shorter than 100 tracks: its tracks after the first come
    out, then the sequence ends. *)
Lemma run_page_short (j : nat) (page0 : list Item) (w : World) (acc : list T)
  (fuel : nat) :
  (length (page_of c j) < 100)%nat ->
  py_list next (Nat.max 1 (length (page_of c j)) + fuel) acc
    (mk_Cursor (Z.of_nat (100 * j)) page0, w)
  = Some (Ok (acc ++ map g (tail (page_of c j)))%list,
          (at_pos (100 * j + Nat.max 1 (length (page_of c j))) (page_of c j),
           (w ++ [mk_Request id 100 (100 * Z.of_nat j)])%list)).
Proof.
  intros Hshort.
  assert (Hpage : forall t, In t (page_of c j) -> normalise t = Ok (g t)).
  { intros t Ht. apply Hg, (page_of_In j). exact Ht. }
  destruct (page_of c j) as [|t0 [|t1 rest]] eqn:Epg.
  - cbn [length Nat.max Nat.add]. rewrite py_list_S. unfold next.
    rewrite paged_next_boundary, Epg. cbn [lookup list_lookup tail map].
    rewrite app_nil_r. reflexivity.
  - cbn [length Nat.max Nat.add]. rewrite py_list_S. unfold next.
    rewrite paged_next_boundary, Epg. cbn [lookup list_lookup tail map].
    rewrite app_nil_r. reflexivity.
  - cbn [length] in Hshort.
    replace (Nat.max 1 (length (t0 :: t1 :: rest))) with (S (S (length rest)))
      by (cbn [length]; lia).
    cbn [Nat.add]. rewrite py_list_S. unfold next at 1.
    rewrite paged_next_boundary, Epg. cbn [lookup list_lookup].
    rewrite (Hpage t1) by (right; left; reflexivity). fold next.
    replace (S (length rest + fuel)) with (length rest + S fuel)%nat by lia.
    rewrite (run_inside j (t0 :: t1 :: rest) _
               ltac:(cbn [length]; lia) Hpage rest 1) by (try lia; reflexivity).
    rewrite py_list_S. unfold next. rewrite paged_next_inside by lia.
    rewrite (proj2 (lookup_ge_None (t0 :: t1 :: rest) (1 + length rest + 1)%nat))
      by (cbn [length]; lia).
    rewrite <- app_assoc. cbn [tail map app].
    replace (1 + length rest + 1)%nat with (S (S (length rest))) by lia.
    reflexivity.
Qed.

(** A full page: its tracks after the first come out, then its first
    track, and the position is at the start of the next page. *)
Lemma run_page_full (j : nat) (page0 : list Item) (w : World) (acc : list T)
  (fuel : nat) :
  length (page_of c j) = 100%nat ->
  py_list next (100 + fuel) acc (mk_Cursor (Z.of_nat (100 * j)) page0, w)
  = py_list next fuel (acc ++ map g (tail (page_of c j) ++ take 1 (page_of c j)))%list
      (at_pos (100 * (j + 1)) (page_of c j),
       (w ++ [mk_Request id 100 (100 * Z.of_nat j)])%list).
Proof.
  intros Hfull.
  assert (Hpage : forall t, In t (page_of c j) -> normalise t = Ok (g t)).
  { intros t Ht. apply Hg, (page_of_In j). exact Ht. }
  destruct (page_of c j) as [|t0 [|t1 rest]] eqn:Epg;
    [discriminate Hfull|discriminate Hfull|].
  cbn [length] in Hfull. assert (Hrest : length rest = 98%nat) by lia.
  change (100 + fuel)%nat with (S (99 + fuel)).
  rewrite py_list_S. unfold next at 1.
  rewrite paged_next_boundary, Epg. cbn [lookup list_lookup].
  rewrite (Hpage t1) by (right; left; reflexivity). fold next.
  replace (99 + fuel)%nat with (length rest + S fuel)%nat by lia.
  rewrite (run_inside j (t0 :: t1 :: rest) _
             ltac:(cbn [length]; lia) Hpage rest 1) by (try lia; reflexivity).
  rewrite py_list_S. unfold next at 1.
  replace (1 + length rest)%nat with 99%nat by lia.
  rewrite paged_next_last, (Hpage t0) by (left; reflexivity). fold next.
  rewrite <- !app_assoc. cbn [tail take map app].
  rewrite map_app. cbn [map app]. reflexivity.
Qed.

Lemma page_offsets_cons (j n : nat) :
  page_offsets j (S n) = 100 * Z.of_nat j :: page_offsets (j + 1) n.
Proof.
  unfold page_offsets. cbn [seq map]. rewrite Nat.add_1_r. reflexivity.
Qed.

(** The run from the start of page [j] to the end of the playlist. *)
Lemma run_pages :
  forall (q j : nat) (acc : list T) (w : World) (page0 : list Item),
    (length (drop (100 * j) c) / 100 = q)%nat ->
    exists (calls : nat) (final : Cursor),
      (calls <= length (drop (100 * j) c) + 1)%nat
      /\ forall fuel,
          py_list next (calls + fuel) acc (mk_Cursor (Z.of_nat (100 * j)) page0, w)
          = Some (Ok (acc ++ map g (rotated_pages q (drop (100 * j) c)))%list,
                  (final, (w ++ page_requests id (page_offsets j (S q)))%list)).
Proof.
  induction q as [|q IH]; intros j acc w page0 Hq.
  - assert (Hshort : (length (drop (100 * j) c) < 100)%nat).
    { apply Nat.div_small_iff in Hq; lia. }
    assert (Epg : page_of c j = drop (100 * j) c).
    { unfold page_of. apply take_ge. lia. }
    exists (Nat.max 1 (length (page_of c j))). eexists. split.
    + rewrite Epg. lia.
    + intros fuel. rewrite run_page_short by (rewrite Epg; exact Hshort).
      rewrite Epg. reflexivity.
  - assert (Hlong : (100 <= length (drop (100 * j) c))%nat).
    { destruct (Nat.lt_ge_cases (length (drop (100 * j) c)) 100) as [L|G];
        [|exact G].
      apply Nat.div_small in L. lia. }
    assert (Hfull : length (page_of c j) = 100%nat).
    { unfold page_of. rewrite length_take. lia. }
    assert (Hnext : drop (100 * (j + 1)) c = drop 100 (drop (100 * j) c)).
    { rewrite drop_drop. f_equal. lia. }
    assert (Hq' : (length (drop (100 * (j + 1)) c) / 100 = q)%nat).
    { rewrite Hnext, length_drop.
      pose proof (Nat.div_add (length (drop (100 * j) c) - 100) 1 100
                    ltac:(lia)) as Hd.
      replace (length (drop (100 * j) c) - 100 + 1 * 100)%nat
        with (length (drop (100 * j) c)) in Hd by lia.
      lia. }
    destruct (IH (j + 1)%nat
                (acc ++ map g (tail (page_of c j) ++ take 1 (page_of c j)))%list
                (w ++ [mk_Request id 100 (100 * Z.of_nat j)])%list
                (map mk_Item (page_of c j)) Hq')
      as (calls & final & Hcalls & Hrun).
    exists (100 + calls)%nat, final. split.
    + rewrite Hnext, length_drop in Hcalls. lia.
    + intros fuel. rewrite <- Nat.add_assoc, run_page_full by exact Hfull.
      unfold at_pos. rewrite Hrun. cbn [rotated_pages].
      rewrite (page_offsets_cons j (S q)). unfold page_requests. cbn [map].
      rewrite <- !app_assoc, Hnext. cbn [app].
      unfold page_of. rewrite take_take. cbn [Nat.min].
      rewrite !map_app, <- !app_assoc. reflexivity.
Qed.

(** [list] over the whole playlist, from a fresh iterator. *)
Lemma run_playlist (fuel : nat) :
  (length c + 1 <= fuel)%nat ->
  exists final,
    py_list next fuel [] (mk_Cursor 0 [], [] : World)
    = Some (Ok (map g (produced c)),
            (final, page_requests id (page_offsets 0 (S (length c / 100))))).
Proof.
  intros Hfuel.
  destruct (run_pages (length c / 100) 0 [] ([] : World) [] eq_refl)
    as (calls & final & Hcalls & Hrun).
  change (100 * 0)%nat with 0%nat in Hcalls, Hrun. rewrite drop_0 in Hcalls, Hrun.
  change (Z.of_nat 0) with 0 in Hrun.
  exists final. specialize (Hrun (fuel - calls)%nat).
  replace (calls + (fuel - calls))%nat with fuel in Hrun by lia.
  exact Hrun.
Qed.

End PagedRun.

(** ** The order and the number of the tracks produced *)

Lemma rotated_pages_length {A} (q : nat) :
  forall (d : list A),
    (length d / 100 = q)%nat ->
    length (rotated_pages q d)
    = (length d - (if (length d mod 100 =? 0)%nat then 0 else 1))%nat.
Proof.
  induction q as [|q IH]; intros d Hq.
  - assert (Hshort : (length d < 100)%nat) by (apply Nat.div_small_iff in Hq; lia).
    cbn [rotated_pages]. rewrite length_tl, Nat.mod_small by exact Hshort.
    destruct (Nat.eqb_spec (length d) 0); lia.
  - assert (Hlong : (100 <= length d)%nat).
    { destruct (Nat.lt_ge_cases (length d) 100) as [L|G]; [|exact G].
      apply Nat.div_small in L. lia. }
    pose proof (Nat.div_add (length d - 100) 1 100 ltac:(lia)) as Hd.
    pose proof (Nat.Div0.mod_add (length d - 100) 1 100) as Hm.
    replace (length d - 100 + 1 * 100)%nat with (length d) in Hd, Hm by lia.
    cbn [rotated_pages]. rewrite !length_app. rewrite length_tl.
    rewrite !length_take.
    rewrite IH by (rewrite length_drop; lia).
    rewrite !length_drop, <- Hm.
    destruct (Nat.eqb_spec (length d mod 100) 0) as [E|N]; [lia|].
    assert (length d - 100 <> 0)%nat.
    { intros E. apply N. replace (length d) with 100%nat by lia. reflexivity. }
    lia.
Qed.

Lemma produced_length {A} (c : list A) :
  length (produced c)
  = (length c - (if (length c mod 100 =? 0)%nat then 0 else 1))%nat.
Proof. apply rotated_pages_length. reflexivity. Qed.

Lemma tail_take_1 {A} (d : list A) : (take 1 d ++ tail d)%list = d.
Proof. destruct d; reflexivity. Qed.

Lemma rotated_pages_perm {A} (q : nat) :
  forall (d : list A),
    (length d / 100 = q)%nat ->
    Permutation (rotated_pages q d ++ take 1 (drop (100 * q) d)) d.
Proof.
  induction q as [|q IH]; intros d Hq.
  - cbn [rotated_pages]. change (100 * 0)%nat with 0%nat. rewrite drop_0.
    rewrite Permutation_app_comm, tail_take_1. reflexivity.
  - assert (Hlong : (100 <= length d)%nat).
    { destruct (Nat.lt_ge_cases (length d) 100) as [L|G]; [|exact G].
      apply Nat.div_small in L. lia. }
    pose proof (Nat.div_add (length d - 100) 1 100 ltac:(lia)) as Hd.
    replace (length d - 100 + 1 * 100)%nat with (length d) in Hd by lia.
    cbn [rotated_pages].
    replace (100 * S q)%nat with (100 + 100 * q)%nat by lia.
    rewrite <- drop_drop, <- !app_assoc.
    rewrite (IH (drop 100 d)) by (rewrite length_drop; lia).
    rewrite app_assoc.
    rewrite (Permutation_app_comm (tail (take 100 d)) (take 1 d)).
    replace (take 1 d) with (take 1 (take 100 d))
      by (rewrite take_take; reflexivity).
    rewrite tail_take_1, take_drop. reflexivity.
Qed.

Lemma produced_perm {A} (c : list A) :
  Permutation (produced c ++ take 1 (drop (100 * (length c / 100)) c)) c.
Proof. apply rotated_pages_perm. reflexivity. Qed.

(** X3. From the last position of a page (a position 99 past a multiple
    of 100) [__next__] sends no request and answers the first track of the
    page it holds, whatever the length of that page: the track skipped at
    the start of a page comes out at its end.  Both iterators. *)
Theorem X3_last_position_answers_first_track
  (fromisoformat : string -> option datetime.date) :
  (forall (self : UnspotifyPlaylist.t) (w : World) (it : Item) (rest : list Item),
      UnspotifyPlaylist._current_pos self mod 100 = 99 ->
      UnspotifyPlaylist._current_tracks self = it :: rest ->
      UnspotifyPlaylist_next fromisoformat (self, w)
      = (UnspotifyTrackInfo_init fromisoformat (track it),
         (UnspotifyPlaylist.set_current_pos
            (UnspotifyPlaylist._current_pos self + 1) self, w)))
  /\ (forall (self : SpotifyPlaylistIterator.t) (w : World) (it : Item)
        (rest : list Item),
         SpotifyPlaylistIterator._position self mod 100 = 99 ->
         SpotifyPlaylistIterator._current_tracks self = it :: rest ->
         SpotifyPlaylistIterator_next fromisoformat (self, w)
         = (_construct_track fromisoformat (track it),
            (SpotifyPlaylistIterator.set_position
               (SpotifyPlaylistIterator._position self + 1) self, w))).
Proof.
  split; intros self w it rest Hpos Hpage.
  - rewrite unspotify_next_paged. cbv zeta.
    rewrite (paged_next_wrap _ _ _ (unspotify_cursor self) w it rest Hpos Hpage).
    destruct self as [name sp id pos cur]. cbn in Hpage. subst cur. reflexivity.
  - rewrite spotify_next_paged. cbv zeta.
    rewrite (paged_next_wrap _ _ _ (spotify_cursor self) w it rest Hpos Hpage).
    destruct self as [sp id pos cur]. cbn in Hpage. subst cur. reflexivity.
Qed.

Lemma X3_last_position_answers_first_track_witness :
  UnspotifyPlaylist_next fromisoformat_ymd
    (UnspotifyPlaylist.mk "Mix" silent_client "abc123" 299
       [mk_Item (sample_track [] "2024" (Some "year"))], [])
  = (UnspotifyTrackInfo_init fromisoformat_ymd (sample_track [] "2024" (Some "year")),
     (UnspotifyPlaylist.mk "Mix" silent_client "abc123" 300
        [mk_Item (sample_track [] "2024" (Some "year"))], []))
  /\ SpotifyPlaylistIterator_next fromisoformat_ymd
       (SpotifyPlaylistIterator.mk silent_client "abc123" 299
          [mk_Item (sample_track [] "2024" (Some "year"))], [])
     = (_construct_track fromisoformat_ymd (sample_track [] "2024" (Some "year")),
        (SpotifyPlaylistIterator.mk silent_client "abc123" 300
           [mk_Item (sample_track [] "2024" (Some "year"))], [])).
Proof.
  pose proof (X3_last_position_answers_first_track fromisoformat_ymd) as [H1 H2].
  split.
  - exact (H1 (UnspotifyPlaylist.mk "Mix" silent_client "abc123" 299
                 [mk_Item (sample_track [] "2024" (Some "year"))]) [] _ []
              eq_refl eq_refl).
  - exact (H2 (SpotifyPlaylistIterator.mk silent_client "abc123" 299
                 [mk_Item (sample_track [] "2024" (Some "year"))]) [] _ []
              eq_refl eq_refl).
Defined.


Section Whole.

Variable fromisoformat : string -> option datetime.date.

(** X4. A playlist of no track or of one track: [list] over either
    iterator sends one request, at offset 0, and produces nothing; the
    only track of the playlist is neither normalised nor produced. *)
Theorem X4_at_most_one_track (name id : string) (c : list Track.t) (fuel : nat) :
  (length c <= 1)%nat -> (1 <= fuel)%nat ->
  (exists self',
      UnspotifyPlaylist_list fromisoformat fuel
        (UnspotifyPlaylist_init (catalogue_client name c) id, [])
      = Some (Ok [], (self', page_requests id [0])))
  /\ (exists self',
         SpotifyPlaylist_fetch_tracks fromisoformat fuel
           (SpotifyPlaylist_init (catalogue_client name c) id) []
         = Some (Ok [], (self', page_requests id [0]))).
Proof.
  intros Hc Hfuel. destruct fuel as [|fuel]; [lia|].
  assert (Hpage : page_of c 0 !! 1%nat = None).
  { apply lookup_ge_None. unfold page_of. rewrite length_take, length_drop. lia. }
  split.
  - rewrite unspotify_list_paged, py_list_S.
    change (unspotify_cursor (UnspotifyPlaylist_init (catalogue_client name c) id))
      with (mk_Cursor (Z.of_nat (100 * 0)) []).
    cbn [UnspotifyPlaylist_init UnspotifyPlaylist._sp UnspotifyPlaylist._playlist_id].
    rewrite paged_next_boundary, Hpage. eexists. reflexivity.
  - unfold SpotifyPlaylist_fetch_tracks. rewrite spotify_list_paged, py_list_S.
    change (spotify_cursor _) with (mk_Cursor (Z.of_nat (100 * 0)) []).
    cbn [SpotifyPlaylistIterator_init SpotifyPlaylist_init SpotifyPlaylist._sp
           SpotifyPlaylist._playlist_id SpotifyPlaylistIterator._sp
           SpotifyPlaylistIterator._playlist_id].
    rewrite paged_next_boundary, Hpage. eexists. reflexivity.
Qed.

(** [list] over a fresh iterator is the run of the paging from position 0
    with no page held. *)
Lemma unspotify_list_fresh (sp : Spotify) (id : string) (w : World) (fuel : nat) :
  UnspotifyPlaylist_list fromisoformat fuel (UnspotifyPlaylist_init sp id, w)
  = option_map
      (fun out =>
         (fst out,
          (unspotify_with_cursor (UnspotifyPlaylist_init sp id) (fst (snd out)),
           snd (snd out))))
      (py_list (paged_next (UnspotifyTrackInfo_init fromisoformat) sp id)
         fuel [] (mk_Cursor 0 [], w)).
Proof. rewrite unspotify_list_paged. reflexivity. Qed.

Lemma fetch_tracks_fresh (sp : Spotify) (id : string) (w : World) (fuel : nat) :
  SpotifyPlaylist_fetch_tracks fromisoformat fuel (SpotifyPlaylist_init sp id) w
  = option_map
      (fun out =>
         (fst out,
          (spotify_with_cursor (SpotifyPlaylistIterator_init sp id) (fst (snd out)),
           snd (snd out))))
      (py_list (paged_next (_construct_track fromisoformat) sp id)
         fuel [] (mk_Cursor 0 [], w)).
Proof.
  unfold SpotifyPlaylist_fetch_tracks. rewrite spotify_list_paged. reflexivity.
Qed.

(** X5. [list] over an [UnspotifyPlaylist] whose tracks all normalise,
    with room for one call for each track and one more: the pages are
    requested in order, 100 tracks each, at the offsets 0, 100, ... up to
    the page that is not full, and the tracks come out page by page, each
    full page from its second track on and then its first track, the last
    page from its second track on. *)
Theorem X5_unspotify_list_order (g : Track.t -> UnspotifyTrackInfo.t)
  (name id : string) (c : list Track.t) (fuel : nat) :
  (forall t, In t c -> UnspotifyTrackInfo_init fromisoformat t = Ok (g t)) ->
  (length c + 1 <= fuel)%nat ->
  exists self',
    UnspotifyPlaylist_list fromisoformat fuel
      (UnspotifyPlaylist_init (catalogue_client name c) id, [])
    = Some (Ok (map g (produced c)),
            (self', page_requests id (page_offsets 0 (S (length c / 100))))).
Proof.
  intros Hg Hfuel. rewrite unspotify_list_fresh.
  destruct (run_playlist _ g name id c Hg fuel Hfuel) as [final Hrun].
  rewrite Hrun. eexists. reflexivity.
Qed.

(** X6. [SpotifyPlaylist.fetch_tracks] on a playlist whose tracks all
    normalise: the same requests and the same order as for
    [UnspotifyPlaylist], each full page from its second track on and then
    its first track, the last page from its second track on. *)
Theorem X6_fetch_tracks_order (g : Track.t -> SpotlessTrackInfo.t)
  (name id : string) (c : list Track.t) (fuel : nat) :
  (forall t, In t c -> _construct_track fromisoformat t = Ok (g t)) ->
  (length c + 1 <= fuel)%nat ->
  exists self',
    SpotifyPlaylist_fetch_tracks fromisoformat fuel
      (SpotifyPlaylist_init (catalogue_client name c) id) []
    = Some (Ok (map g (produced c)),
            (self', page_requests id (page_offsets 0 (S (length c / 100))))).
Proof.
  intros Hg Hfuel. rewrite fetch_tracks_fresh.
  destruct (run_playlist _ g name id c Hg fuel Hfuel) as [final Hrun].
  rewrite Hrun. eexists. reflexivity.
Qed.

(** X7. The number of tracks [list] produces and of requests it sends,
    for a playlist of [n] tracks that all normalise: [n] tracks when [n]
    is a multiple of 100 and [n - 1] otherwise, with [n / 100 + 1]
    requests (one more page than the playlist has full pages).  Both
    iterators. *)
Theorem X7_produced_count (g1 : Track.t -> UnspotifyTrackInfo.t)
  (g2 : Track.t -> SpotlessTrackInfo.t)
  (name id : string) (c : list Track.t) (fuel : nat) :
  (length c + 1 <= fuel)%nat ->
  ((forall t, In t c -> UnspotifyTrackInfo_init fromisoformat t = Ok (g1 t)) ->
   exists l self' w,
     UnspotifyPlaylist_list fromisoformat fuel
       (UnspotifyPlaylist_init (catalogue_client name c) id, [])
     = Some (Ok l, (self', w))
     /\ length l = (length c - (if (length c mod 100 =? 0)%nat then 0 else 1))%nat
     /\ length w = (length c / 100 + 1)%nat)
  /\ ((forall t, In t c -> _construct_track fromisoformat t = Ok (g2 t)) ->
      exists l self' w,
        SpotifyPlaylist_fetch_tracks fromisoformat fuel
          (SpotifyPlaylist_init (catalogue_client name c) id) []
        = Some (Ok l, (self', w))
        /\ length l = (length c - (if (length c mod 100 =? 0)%nat then 0 else 1))%nat
        /\ length w = (length c / 100 + 1)%nat).
Proof.
  intros Hfuel.
  assert (Hreq : length (page_requests id (page_offsets 0 (S (length c / 100))))
                 = (length c / 100 + 1)%nat).
  { unfold page_requests, page_offsets. rewrite !length_map, length_seq. lia. }
  split; intros Hg.
  - destruct (run_playlist _ g1 name id c Hg fuel Hfuel) as [final Hrun].
    rewrite unspotify_list_fresh, Hrun. eexists _, _, _. split; [reflexivity|].
    rewrite length_map, produced_length. split; [reflexivity|exact Hreq].
  - destruct (run_playlist _ g2 name id c Hg fuel Hfuel) as [final Hrun].
    rewrite fetch_tracks_fresh, Hrun. eexists _, _, _. split; [reflexivity|].
    rewrite length_map, produced_length. split; [reflexivity|exact Hreq].
Qed.

(** X8. [list] produces every track of a playlist whose tracks all
    normalise exactly once, but for the first track of the last page (the
    page that is not full), which it does not produce: the tracks
    produced, together with that track, are a rearrangement of the
    playlist.  Both iterators. *)
Theorem X8_each_track_once (g1 : Track.t -> UnspotifyTrackInfo.t)
  (g2 : Track.t -> SpotlessTrackInfo.t)
  (name id : string) (c : list Track.t) (fuel : nat) :
  (length c + 1 <= fuel)%nat ->
  ((forall t, In t c -> UnspotifyTrackInfo_init fromisoformat t = Ok (g1 t)) ->
   exists tracks s',
     UnspotifyPlaylist_list fromisoformat fuel
       (UnspotifyPlaylist_init (catalogue_client name c) id, [])
     = Some (Ok (map g1 tracks), s')
     /\ Permutation (tracks ++ take 1 (drop (100 * (length c / 100)) c)) c)
  /\ ((forall t, In t c -> _construct_track fromisoformat t = Ok (g2 t)) ->
      exists tracks s',
        SpotifyPlaylist_fetch_tracks fromisoformat fuel
          (SpotifyPlaylist_init (catalogue_client name c) id) []
        = Some (Ok (map g2 tracks), s')
        /\ Permutation (tracks ++ take 1 (drop (100 * (length c / 100)) c)) c).
Proof.
  intros Hfuel. split; intros Hg.
  - destruct (run_playlist _ g1 name id c Hg fuel Hfuel) as [final Hrun].
    rewrite unspotify_list_fresh, Hrun. exists (produced c). eexists.
    split; [reflexivity|apply produced_perm].
  - destruct (run_playlist _ g2 name id c Hg fuel Hfuel) as [final Hrun].
    rewrite fetch_tracks_fresh, Hrun. exists (produced c). eexists.
    split; [reflexivity|apply produced_perm].
Qed.

End Whole.

Lemma numbered_unspotify_value (n : nat) (t : Track.t) :
  In t (numbered_catalogue n) ->
  UnspotifyTrackInfo_init fromisoformat_ymd t
  = Ok (unspotify_value fromisoformat_ymd t).
Proof.
  intros Hin. apply in_map_iff in Hin as (i & <- & _). reflexivity.
Defined.

Lemma numbered_spotless_value (n : nat) (t : Track.t) :
  In t (numbered_catalogue n) ->
  _construct_track fromisoformat_ymd t = Ok (spotless_value fromisoformat_ymd t).
Proof.
  intros Hin. apply in_map_iff in Hin as (i & <- & _). reflexivity.
Defined.

Lemma X4_at_most_one_track_witness :
  (exists self',
      UnspotifyPlaylist_list fromisoformat_ymd 1
        (UnspotifyPlaylist_init (catalogue_client "Mix" (numbered_catalogue 1))
           "abc123", [])
      = Some (Ok [], (self', page_requests "abc123" [0])))
  /\ (exists self',
         SpotifyPlaylist_fetch_tracks fromisoformat_ymd 1
           (SpotifyPlaylist_init (catalogue_client "Mix" (numbered_catalogue 1))
              "abc123") []
         = Some (Ok [], (self', page_requests "abc123" [0]))).
Proof.
  apply (X4_at_most_one_track fromisoformat_ymd "Mix" "abc123"
           (numbered_catalogue 1) 1); cbn; lia.
Defined.

Lemma X5_unspotify_list_order_witness :
  exists self',
    UnspotifyPlaylist_list fromisoformat_ymd 251
      (UnspotifyPlaylist_init (catalogue_client "Mix" (numbered_catalogue 250))
         "abc123", [])
    = Some (Ok (map (unspotify_value fromisoformat_ymd)
                  (produced (numbered_catalogue 250))),
            (self', page_requests "abc123"
                      (page_offsets 0 (S (length (numbered_catalogue 250) / 100))))).
Proof.
  apply (X5_unspotify_list_order fromisoformat_ymd
           (unspotify_value fromisoformat_ymd) "Mix" "abc123"
           (numbered_catalogue 250) 251 (numbered_unspotify_value 250)).
  vm_compute. lia.
Defined.

Lemma X6_fetch_tracks_order_witness :
  exists self',
    SpotifyPlaylist_fetch_tracks fromisoformat_ymd 251
      (SpotifyPlaylist_init (catalogue_client "Mix" (numbered_catalogue 250))
         "abc123") []
    = Some (Ok (map (spotless_value fromisoformat_ymd)
                  (produced (numbered_catalogue 250))),
            (self', page_requests "abc123"
                      (page_offsets 0 (S (length (numbered_catalogue 250) / 100))))).
Proof.
  apply (X6_fetch_tracks_order fromisoformat_ymd
           (spotless_value fromisoformat_ymd) "Mix" "abc123"
           (numbered_catalogue 250) 251 (numbered_spotless_value 250)).
  vm_compute. lia.
Defined.

Lemma X7_produced_count_witness :
  (exists l self' w,
      UnspotifyPlaylist_list fromisoformat_ymd 251
        (UnspotifyPlaylist_init (catalogue_client "Mix" (numbered_catalogue 250))
           "abc123", [])
      = Some (Ok l, (self', w))
      /\ length l = 249%nat /\ length w = 3%nat)
  /\ (exists l self' w,
         SpotifyPlaylist_fetch_tracks fromisoformat_ymd 251
           (SpotifyPlaylist_init (catalogue_client "Mix" (numbered_catalogue 250))
              "abc123") []
         = Some (Ok l, (self', w))
         /\ length l = 249%nat /\ length w = 3%nat).
Proof.
  assert (Hfuel : (length (numbered_catalogue 250) + 1 <= 251)%nat)
    by (vm_compute; lia).
  pose proof (X7_produced_count fromisoformat_ymd
                (unspotify_value fromisoformat_ymd)
                (spotless_value fromisoformat_ymd) "Mix" "abc123"
                (numbered_catalogue 250) 251 Hfuel) as [H1 H2].
  split.
  - exact (H1 (numbered_unspotify_value 250)).
  - exact (H2 (numbered_spotless_value 250)).
Defined.

Lemma X8_each_track_once_witness :
  (exists tracks s',
      UnspotifyPlaylist_list fromisoformat_ymd 251
        (UnspotifyPlaylist_init (catalogue_client "Mix" (numbered_catalogue 250))
           "abc123", [])
      = Some (Ok (map (unspotify_value fromisoformat_ymd) tracks), s')
      /\ Permutation (tracks ++ [numbered_track 200]) (numbered_catalogue 250))
  /\ (exists tracks s',
         SpotifyPlaylist_fetch_tracks fromisoformat_ymd 251
           (SpotifyPlaylist_init (catalogue_client "Mix" (numbered_catalogue 250))
              "abc123") []
         = Some (Ok (map (spotless_value fromisoformat_ymd) tracks), s')
         /\ Permutation (tracks ++ [numbered_track 200]) (numbered_catalogue 250)).
Proof.
  assert (Hfuel : (length (numbered_catalogue 250) + 1 <= 251)%nat)
    by (vm_compute; lia).
  pose proof (X8_each_track_once fromisoformat_ymd
                (unspotify_value fromisoformat_ymd)
                (spotless_value fromisoformat_ymd) "Mix" "abc123"
                (numbered_catalogue 250) 251 Hfuel) as [H1 H2].
  split.
  - exact (H1 (numbered_unspotify_value 250)).
  - exact (H2 (numbered_spotless_value 250)).
Defined.

(** ** More on the normalisers *)

Lemma date_new_ok (y m d : Z) (x : datetime.date) :
  datetime.new y m d = Ok x ->
  x = datetime.mk_date y m d
  /\ 1 <= y <= 9999 /\ 1 <= m <= 12 /\ 1 <= d <= datetime.days_in_month y m.
Proof.
  unfold datetime.new, datetime.MINYEAR, datetime.MAXYEAR.
  destruct (negb (_ && _ && _)); [discriminate|].
  destruct ((1 <=? y) && (y <=? 9999)) eqn:Ey; [|discriminate].
  destruct ((1 <=? m) && (m <=? 12)) eqn:Em; [|discriminate].
  destruct ((1 <=? d) && (d <=? datetime.days_in_month y m)) eqn:Ed;
    [|discriminate].
  cbn [negb]. intros H. injection H as <-.
  apply andb_true_iff in Ey as [Ey1 Ey2], Em as [Em1 Em2], Ed as [Ed1 Ed2].
  apply Z.leb_le in Ey1, Ey2, Em1, Em2, Ed1, Ed2. repeat split; assumption.
Qed.

Section Normalisers.

Variable fromisoformat : string -> option datetime.date.

(** X9. The two normalisers agree.  On a record that
    [UnspotifyTrackInfo] accepts, [_construct_track] succeeds with the
    same name, track number, album name, cover URL and release date, and
    its artist list starts with the artist [UnspotifyTrackInfo] keeps;
    on a record with an artist that [_construct_track] accepts,
    [UnspotifyTrackInfo] succeeds.  [_construct_track] keeps the names of
    all the artists, in order. *)
Theorem X9_normalisers_agree (t : Track.t) :
  (forall info,
      UnspotifyTrackInfo_init fromisoformat t = Ok info ->
      exists info' rest,
        _construct_track fromisoformat t = Ok info'
        /\ SpotlessTrackInfo.name info' = UnspotifyTrackInfo.name info
        /\ SpotlessTrackInfo.artists info' = UnspotifyTrackInfo.artist info :: rest
        /\ SpotlessTrackInfo.track_number info' = UnspotifyTrackInfo.track_number info
        /\ SpotlessTrackInfo.album_name info' = UnspotifyTrackInfo.album_name info
        /\ SpotlessTrackInfo.album_image_url info'
           = UnspotifyTrackInfo.album_image_url info
        /\ SpotlessTrackInfo.release_date info' = UnspotifyTrackInfo.release_date info)
  /\ (forall info',
         _construct_track fromisoformat t = Ok info' ->
         SpotlessTrackInfo.artists info' = map Artist.name (Track.artists t)
         /\ (Track.artists t <> [] ->
             exists info, UnspotifyTrackInfo_init fromisoformat t = Ok info)).
Proof.
  split.
  - intros info H.
    destruct (Track.artists t) as [|a rest] eqn:Ea.
    + unfold UnspotifyTrackInfo_init in H. rewrite Ea in H. discriminate H.
    + rewrite (unspotify_init_date _ _ _ _ Ea) in H.
      rewrite construct_track_date, Ea.
      destruct (normalise_release_date _ _) as [d|e]; [|discriminate H].
      injection H as <-. eexists _, (map Artist.name rest).
      repeat split; reflexivity.
  - intros info' H. rewrite construct_track_date in H.
    destruct (normalise_release_date _ _) as [d|e] eqn:En; [|discriminate H].
    injection H as <-. split; [reflexivity|].
    intros Ha. destruct (artists_cons t Ha) as (a & rest & Ea).
    rewrite (unspotify_init_date _ _ _ _ Ea), En. eexists. reflexivity.
Qed.

(** X10. A release date normalised from a month or a year precision is a
    first of a month of a year from 1 to 9999, and a first of January
    when the precision is the year. *)
Theorem X10_release_date_first_of_month (album : Album.t) (d : datetime.date) :
  Album.release_date_precision album <> Some "day" ->
  normalise_release_date fromisoformat album = Ok (Some d) ->
  datetime.day d = 1
  /\ 1 <= datetime.month d <= 12
  /\ 1 <= datetime.year d <= 9999
  /\ (Album.release_date_precision album = Some "year" -> datetime.month d = 1).
Proof.
  intros Hday. unfold normalise_release_date, result_bind.
  destruct (decide (_ = Some "day")) as [E|_]; [congruence|].
  destruct (decide (_ = Some "month")) as [Em|_].
  - destruct (Py.item _ 0); [|discriminate].
    destruct (Py.int _); [|discriminate].
    destruct (Py.item _ 1); [|discriminate].
    destruct (Py.int _); [|discriminate].
    destruct (datetime.new _ _ _) as [x|] eqn:Ed; [|discriminate].
    intros H. injection H as <-.
    apply date_new_ok in Ed as (-> & Hy & Hm & _). cbn.
    repeat split; try lia. intros Ey. congruence.
  - destruct (decide (_ = Some "year")) as [Ey|_].
    + destruct (Py.int _); [|discriminate].
      destruct (datetime.new _ _ _) as [x|] eqn:Ed; [|discriminate].
      intros H. injection H as <-.
      apply date_new_ok in Ed as (-> & Hy & Hm & _). cbn.
      repeat split; try lia.
    + destruct (Album.release_date_precision album); discriminate.
Qed.

(** X11. Month precision on a release date without ["-"]: no date is
    produced, and the exception is the [IndexError] of the missing month
    component or the [ValueError] of [int].  For a release date written
    in ASCII, it is the [IndexError] exactly when the string is an integer
    literal (a bare year), and the [ValueError] of [int] otherwise. *)
Theorem X11_month_precision_without_month (album : Album.t) :
  Album.release_date_precision album = Some "month" ->
  Py.contains "-" (Album.release_date album) = false ->
  (exists e,
      normalise_release_date fromisoformat album = Raise e
      /\ (e = IndexError \/ exists msg, e = ValueError msg))
  /\ (Py.isascii (Album.release_date album) = true ->
      normalise_release_date fromisoformat album
      = match Py.int (Album.release_date album) with
        | Ok _ => Raise IndexError
        | Raise e => Raise e
        end).
Proof.
  intros Hp Hdash. rewrite (normalise_month _ _ Hp). cbv zeta.
  rewrite (split_absent _ _ Hdash), item_0. cbn [result_bind]. split.
  - destruct (Py.int _) as [y|e] eqn:Ei.
    + exists IndexError. split; [reflexivity|left; reflexivity].
    + exists e. split; [reflexivity|right; exact (int_raises _ _ Ei)].
  - intros _. destruct (Py.int _); reflexivity.
Qed.

(** X12. Year precision.  A release date that is an integer literal of a
    year from 1 to 9999 gives the first of January of that year; for a
    release date written in ASCII these are the only dates produced: the
    normaliser returns exactly when the string is such a literal. *)
Theorem X12_year_precision (album : Album.t) :
  Album.release_date_precision album = Some "year" ->
  (forall y, Py.int (Album.release_date album) = Ok y -> 1 <= y <= 9999 ->
             normalise_release_date fromisoformat album
             = Ok (Some (datetime.mk_date y 1 1)))
  /\ (Py.isascii (Album.release_date album) = true ->
      forall d,
        normalise_release_date fromisoformat album = Ok d
        <-> exists y, Py.int (Album.release_date album) = Ok y
                      /\ 1 <= y <= 9999
                      /\ d = Some (datetime.mk_date y 1 1)).
Proof.
  intros Hp. rewrite (normalise_year _ _ Hp). unfold result_bind.
  assert (Hok : forall y,
             Py.int (Album.release_date album) = Ok y -> 1 <= y <= 9999 ->
             match Py.int (Album.release_date album) with
             | Ok y0 =>
                 match datetime.new y0 1 1 with
                 | Ok x => Ok (Some x)
                 | Raise e => Raise e
                 end
             | Raise e => Raise e
             end = Ok (Some (datetime.mk_date y 1 1))).
  { intros y -> Hy. rewrite date_new_first_of_month by lia. reflexivity. }
  split; [exact Hok|]. intros _ d. split.
  - destruct (Py.int _) as [y|]; [|discriminate].
    destruct (datetime.new y 1 1) as [x|] eqn:Ed; [|discriminate].
    intros H. injection H as <-.
    apply date_new_ok in Ed as (-> & Hy & _). exists y. auto.
  - intros (y & Hi & Hy & ->). exact (Hok y Hi Hy).
Qed.

(** X13. A record without artists: [UnspotifyTrackInfo] raises
    [IndexError] whatever the album is, while [_construct_track] builds
    the track, with an empty artist list, whenever the release date
    normalises. *)
Theorem X13_no_artist (t : Track.t) :
  Track.artists t = [] ->
  UnspotifyTrackInfo_init fromisoformat t = Raise IndexError
  /\ (forall d,
         normalise_release_date fromisoformat (Track.album t) = Ok d ->
         exists info', _construct_track fromisoformat t = Ok info'
                       /\ SpotlessTrackInfo.artists info' = []).
Proof.
  intros Ha. split.
  - unfold UnspotifyTrackInfo_init. rewrite Ha. reflexivity.
  - intros d Hd. rewrite construct_track_date, Hd, Ha. eexists.
    split; reflexivity.
Qed.

End Normalisers.

Lemma X9_normalisers_agree_witness :
  exists info' rest,
    _construct_track fromisoformat_ymd (sample_track sample_images "2024" (Some "year"))
    = Ok info'
    /\ SpotlessTrackInfo.name info' = "Song"
    /\ SpotlessTrackInfo.artists info' = "Artist" :: rest
    /\ SpotlessTrackInfo.track_number info' = 3
    /\ SpotlessTrackInfo.album_name info' = "Album"
    /\ SpotlessTrackInfo.album_image_url info' = Some "https://img.example.com/300"
    /\ SpotlessTrackInfo.release_date info' = Some (datetime.mk_date 2024 1 1).
Proof.
  exact (proj1 (X9_normalisers_agree fromisoformat_ymd
                  (sample_track sample_images "2024" (Some "year"))) _ eq_refl).
Defined.

Lemma X10_release_date_first_of_month_witness :
  datetime.day (datetime.mk_date 2024 4 1) = 1
  /\ 1 <= datetime.month (datetime.mk_date 2024 4 1) <= 12
  /\ 1 <= datetime.year (datetime.mk_date 2024 4 1) <= 9999
  /\ (Some "month" = Some "year" -> datetime.month (datetime.mk_date 2024 4 1) = 1).
Proof.
  exact (X10_release_date_first_of_month fromisoformat_ymd
           (Album.mk "Album" [] "2024-03" (Some "month")) _
           ltac:(discriminate) eq_refl).
Defined.

Lemma X11_month_precision_without_month_witness :
  (exists e,
      normalise_release_date fromisoformat_ymd
        (Album.mk "Album" [] "2024" (Some "month")) = Raise e
      /\ (e = IndexError \/ exists msg, e = ValueError msg))
  /\ normalise_release_date fromisoformat_ymd
       (Album.mk "Album" [] "2024" (Some "month"))
     = Raise IndexError.
Proof.
  pose proof (X11_month_precision_without_month fromisoformat_ymd
                (Album.mk "Album" [] "2024" (Some "month")) eq_refl eq_refl)
    as [H1 H2].
  split; [exact H1|exact (H2 eq_refl)].
Defined.

Lemma X12_year_precision_witness :
  normalise_release_date fromisoformat_ymd (Album.mk "Album" [] "1999" (Some "year"))
  = Ok (Some (datetime.mk_date 1999 1 1))
  /\ (normalise_release_date fromisoformat_ymd
        (Album.mk "Album" [] "1999" (Some "year"))
      = Ok (Some (datetime.mk_date 1999 1 1))
      <-> exists y, Py.int "1999" = Ok y /\ 1 <= y <= 9999
                    /\ Some (datetime.mk_date 1999 1 1)
                       = Some (datetime.mk_date y 1 1)).
Proof.
  pose proof (X12_year_precision fromisoformat_ymd
                (Album.mk "Album" [] "1999" (Some "year")) eq_refl) as [H1 H2].
  split; [exact (H1 1999 eq_refl ltac:(lia))|exact (H2 eq_refl _)].
Defined.

Lemma X13_no_artist_witness :
  UnspotifyTrackInfo_init fromisoformat_ymd
    (Track.mk "Song" [] 1 1 (Album.mk "Album" [] "" None))
  = Raise IndexError
  /\ exists info',
      _construct_track fromisoformat_ymd
        (Track.mk "Song" [] 1 1 (Album.mk "Album" [] "" None)) = Ok info'
      /\ SpotlessTrackInfo.artists info' = [].
Proof.
  pose proof (X13_no_artist fromisoformat_ymd
                (Track.mk "Song" [] 1 1 (Album.mk "Album" [] "" None)) eq_refl)
    as [H1 H2].
  split; [exact H1|]. exact (H2 None eq_refl).
Defined.

(** ** What leaves [list] *)

Section Refused.

Context {T : Type}.
Variable normalise : Track.t -> result T.
Variable name id : string.
Variable c : list Track.t.

(** The calls inside the first page, from a position [k], over tracks
    the normaliser accepts up to a track it refuses. *)
Lemma run_until_refused (page : list Track.t) (w : World) (bad : Track.t)
  (e : exn) :
  e <> StopIteration -> normalise bad = Raise e ->
  forall (good : list Track.t) (k : nat) (acc : list T) (fuel : nat),
    (0 < k)%nat -> (k + length good + 1 < 100)%nat ->
    (forall t, In t good -> exists x, normalise t = Ok x) ->
    (forall i t, good !! i = Some t -> page !! (k + 1 + i)%nat = Some t) ->
    page !! (k + 1 + length good)%nat = Some bad ->
    py_list (paged_next normalise (catalogue_client name c) id)
      (S (length good + fuel)) acc (at_pos (100 * 0 + k) page, w)
    = Some (Raise e, (at_pos (100 * 0 + (k + length good + 1)) page, w)).
Proof.
  intros Hne Hbad good.
  induction good as [|t good IH]; intros k acc fuel Hk Hlt Hgood Hlook Hb;
    cbn [length] in *.
  - rewrite py_list_S, paged_next_inside by lia.
    replace (k + 1 + 0)%nat with (k + 1)%nat in Hb by lia.
    rewrite Hb, Hbad.
    replace (k + 0 + 1)%nat with (k + 1)%nat by lia.
    destruct e; try reflexivity. congruence.
  - rewrite py_list_S, paged_next_inside by lia.
    pose proof (Hlook 0%nat t eq_refl) as H0.
    replace (k + 1 + 0)%nat with (k + 1)%nat in H0 by lia. rewrite H0.
    destruct (Hgood t (or_introl eq_refl)) as [x Hx]. rewrite Hx.
    cbn [Nat.add].
    replace (k + S (length good) + 1)%nat with (k + 1 + length good + 1)%nat by lia.
    apply IH; [lia|lia| | |].
    + intros t' Ht'. apply Hgood. right. exact Ht'.
    + intros i t' Hi.
      replace (k + 1 + 1 + i)%nat with (k + 1 + S i)%nat by lia.
      apply Hlook. exact Hi.
    + replace (k + 1 + 1 + length good)%nat with (k + 1 + S (length good))%nat
        by lia.
      exact Hb.
Qed.

(** [list] from a fresh cursor over a playlist whose second track and the
    tracks [good] after it are accepted and the next one, [bad], refused
    with [e]: after one request, [e] leaves [list]. *)
Lemma list_until_refused (first bad : Track.t) (good more : list Track.t)
  (e : exn) (fuel : nat) :
  c = first :: good ++ bad :: more ->
  (length good < 99)%nat -> (length good < fuel)%nat ->
  e <> StopIteration -> normalise bad = Raise e ->
  (forall t, In t good -> exists x, normalise t = Ok x) ->
  exists cur,
    py_list (paged_next normalise (catalogue_client name c) id) fuel []
      (mk_Cursor 0 [], ([] : World))
    = Some (Raise e, (cur, page_requests id [0])).
Proof.
  intros Hc Hlen Hfuel Hne Hbad Hgood.
  destruct fuel as [|fuel]; [lia|].
  assert (Hpage : forall i, (i < 99)%nat ->
             page_of c 0 !! S i = (good ++ bad :: more)%list !! i).
  { intros i Hi. unfold page_of. change (100 * 0)%nat with 0%nat.
    rewrite drop_0, lookup_take_lt by lia. rewrite Hc. reflexivity. }
  rewrite py_list_S.
  change (mk_Cursor 0 []) with (mk_Cursor (Z.of_nat (100 * 0)) []).
  rewrite paged_next_boundary.
  destruct good as [|t good].
  - rewrite (Hpage 0%nat) by lia. cbn [app lookup list_lookup]. rewrite Hbad.
    destruct e; try (eexists; reflexivity). congruence.
  - rewrite (Hpage 0%nat) by lia. cbn [app lookup list_lookup].
    destruct (Hgood t (or_introl eq_refl)) as [x Hx]. rewrite Hx.
    cbn [length] in Hlen, Hfuel.
    replace fuel with (S (length good + (fuel - S (length good))))%nat by lia.
    rewrite (run_until_refused (page_of c 0) _ bad e Hne Hbad good 1);
      [eexists; reflexivity|lia|lia| | |].
    + intros t' Ht'. apply Hgood. right. exact Ht'.
    + intros i t' Hi. pose proof (lookup_lt_Some _ _ _ Hi) as Hlt.
      change (1 + 1 + i)%nat with (S (S i)).
      rewrite (Hpage (S i)) by lia.
      change (((t :: good) ++ bad :: more)%list !! S i)
        with ((good ++ bad :: more)%list !! i).
      rewrite lookup_app_l by exact Hlt. exact Hi.
    + change (1 + 1 + length good)%nat with (S (S (length good))).
      rewrite (Hpage (S (length good))) by lia.
      change (((t :: good) ++ bad :: more)%list !! S (length good))
        with ((good ++ bad :: more)%list !! length good).
      apply list_lookup_middle. reflexivity.
Qed.

End Refused.

(** X14. A track the normaliser refuses is not skipped: it ends [list]
    with the normaliser's exception, and the tracks normalised before it
    are lost with the list.  For a playlist whose second track and the
    tracks [good] after it are accepted and whose next track [bad], still
    in the first page, is refused with [e]: [list] and [fetch_tracks] raise
    [e], after the one request of the first page.  (The first track of
    the playlist is not normalised before the page is over.) *)
Theorem X14_refused_track_aborts_list
  (fromisoformat : string -> option datetime.date) (name id : string)
  (first bad : Track.t) (good more : list Track.t) (e : exn) (fuel : nat) :
  (length good < 99)%nat -> (length good < fuel)%nat ->
  (UnspotifyTrackInfo_init fromisoformat bad = Raise e ->
   (forall t, In t good ->
              exists info, UnspotifyTrackInfo_init fromisoformat t = Ok info) ->
   exists self',
     UnspotifyPlaylist_list fromisoformat fuel
       (UnspotifyPlaylist_init
          (catalogue_client name (first :: good ++ bad :: more)) id, [])
     = Some (Raise e, (self', page_requests id [0])))
  /\ (_construct_track fromisoformat bad = Raise e ->
      (forall t, In t good ->
                 exists info, _construct_track fromisoformat t = Ok info) ->
      exists it',
        SpotifyPlaylist_fetch_tracks fromisoformat fuel
          (SpotifyPlaylist_init
             (catalogue_client name (first :: good ++ bad :: more)) id) []
        = Some (Raise e, (it', page_requests id [0]))).
Proof.
  intros Hlen Hfuel. split; intros Hbad Hgood.
  - assert (Hne : e <> StopIteration).
    { intros ->. apply unspotify_init_raises in Hbad.
      exact (normaliser_exn_not_stop Hbad). }
    destruct (list_until_refused (UnspotifyTrackInfo_init fromisoformat) name id
                _ first bad good more e fuel eq_refl Hlen Hfuel Hne Hbad Hgood)
      as [cur Hrun].
    rewrite unspotify_list_fresh, Hrun. eexists. reflexivity.
  - assert (Hne : e <> StopIteration).
    { intros ->. apply construct_track_raises in Hbad.
      exact (normaliser_exn_not_stop Hbad). }
    destruct (list_until_refused (_construct_track fromisoformat) name id
                _ first bad good more e fuel eq_refl Hlen Hfuel Hne Hbad Hgood)
      as [cur Hrun].
    rewrite fetch_tracks_fresh, Hrun. eexists. reflexivity.
Qed.

Lemma X14_refused_track_aborts_list_witness :
  (exists self',
      UnspotifyPlaylist_list fromisoformat_ymd 5
        (UnspotifyPlaylist_init
           (catalogue_client "Mix"
              [sample_track [] "2023" (Some "year");
               sample_track [] "2024" (Some "year");
               sample_track [] "2024" (Some "hour");
               sample_track [] "2025" (Some "year")]) "abc123", [])
      = Some (Raise (ValueError "Unsupported precision «hour»"),
              (self', page_requests "abc123" [0])))
  /\ (exists it',
         SpotifyPlaylist_fetch_tracks fromisoformat_ymd 5
           (SpotifyPlaylist_init
              (catalogue_client "Mix"
                 [sample_track [] "2023" (Some "year");
                  sample_track [] "2024" (Some "year");
                  sample_track [] "2024" (Some "hour");
                  sample_track [] "2025" (Some "year")]) "abc123") []
         = Some (Raise (ValueError "Unsupported precision «hour»"),
                 (it', page_requests "abc123" [0]))).
Proof.
  pose proof (X14_refused_track_aborts_list fromisoformat_ymd "Mix" "abc123"
                (sample_track [] "2023" (Some "year"))
                (sample_track [] "2024" (Some "hour"))
                [sample_track [] "2024" (Some "year")]
                [sample_track [] "2025" (Some "year")]
                (ValueError "Unsupported precision «hour»") 5
                ltac:(cbn; lia) ltac:(cbn; lia)) as [H1 H2].
  split.
  - apply H1; [reflexivity|].
    intros t [<-|[]]. eexists. reflexivity.
  - apply H2; [reflexivity|].
    intros t [<-|[]]. eexists. reflexivity.
Defined.

(** ** Identifiers from URLs *)

Lemma last_item_Forall {A} (P : A -> Prop) (l : list A) :
  l <> [] -> Forall P l -> exists x, Py.last_item l = Ok x /\ P x.
Proof.
  induction l as [|a l IH]; [congruence|]. intros _ H.
  inversion H as [|? ? Ha Hl]; subst.
  destruct l as [|b l]; [exists a; split; [reflexivity|exact Ha]|].
  destruct (IH ltac:(discriminate) Hl) as (x & Hx & Px).
  exists x. split; [exact Hx|exact Px].
Qed.

Lemma first_item_split (c : ascii) (s : string) :
  exists x, Py.item (Py.split c s) 0 = Ok x /\ Py.contains c x = false.
Proof.
  pose proof (split_nonempty c s) as Hne.
  pose proof (split_separator_free c s) as Hf.
  destruct (Py.split c s) as [|w ws]; [congruence|].
  inversion Hf; subst. exists w. split; [apply item_0|assumption].
Qed.

(** A part of a string free of a character is free of it. *)
Lemma split_keeps_free (c d : ascii) (s : string) :
  Py.contains d s = false ->
  Forall (fun w => Py.contains d w = false) (Py.split c s).
Proof.
  induction s as [|a s IH]; cbn [Py.split Py.contains]; intros H.
  - constructor; [reflexivity|constructor].
  - apply orb_false_iff in H as [Ha Hs]. specialize (IH Hs).
    destruct (Ascii.eqb a c).
    + constructor; [reflexivity|exact IH].
    + pose proof (split_nonempty c s) as Hne.
      destruct (Py.split c s) as [|w ws]; [congruence|].
      inversion IH as [|? ? Hw Hws]; subst.
      constructor; [|exact Hws]. cbn [Py.contains]. rewrite Ha, Hw. reflexivity.
Qed.

(** X15. [from_url] never fails on its indexing, whatever the string is:
    an identifier always comes out, it holds no ["/"], and it holds no
    ["?"] for [SpotifyPlaylist] and no ["&"] for [UnspotifyPlaylist]. *)
Theorem X15_from_url_total (url : string) :
  (exists id, SpotifyPlaylist_url_id url = Ok id
              /\ Py.contains "/" id = false /\ Py.contains "?" id = false)
  /\ (exists id, UnspotifyPlaylist_url_id url = Ok id
                 /\ Py.contains "/" id = false /\ Py.contains "&" id = false).
Proof.
  destruct (last_item_Forall _ _ (split_nonempty "/" url)
              (split_separator_free "/" url)) as (seg & Hseg & Hfree).
  split.
  - unfold SpotifyPlaylist_url_id. rewrite Hseg. cbn [result_bind].
    destruct (first_item_split "?" seg) as (id & Hid & Hq).
    exists id. split; [exact Hid|]. split; [|exact Hq].
    pose proof (split_keeps_free "?" "/" seg Hfree) as Hf.
    destruct (Py.split "?" seg) as [|w ws]; [discriminate Hid|].
    rewrite item_0 in Hid. injection Hid as <-. inversion Hf; assumption.
  - unfold UnspotifyPlaylist_url_id. rewrite Hseg. cbn [result_bind].
    destruct (first_item_split "&" seg) as (id & Hid & Hq).
    exists id. split; [exact Hid|]. split; [|exact Hq].
    pose proof (split_keeps_free "&" "/" seg Hfree) as Hf.
    destruct (Py.split "&" seg) as [|w ws]; [discriminate Hid|].
    rewrite item_0 in Hid. injection Hid as <-. inversion Hf; assumption.
Qed.

(** X16. A URL that ends with ["/"] gives the empty identifier, from
    both constructors: the trailing segment is taken after the last
    ["/"], not the last segment that is not empty. *)
Theorem X16_from_url_trailing_slash (base : string) :
  SpotifyPlaylist_url_id (base ++ "/") = Ok ""
  /\ UnspotifyPlaylist_url_id (base ++ "/") = Ok "".
Proof.
  unfold SpotifyPlaylist_url_id, UnspotifyPlaylist_url_id.
  rewrite (last_segment base "" eq_refl). split; reflexivity.
Qed.

(** X17. [SpotifyPlaylist.from_url] on [base/ident?query], where [ident]
    holds neither ["/"] nor ["?"] and [query] no ["/"]: the playlist is
    built for [ident], and its name is the one the catalogue gives for
    [ident]. *)
Theorem X17_spotify_from_url_query (sp : Spotify) (base ident query : string) :
  Py.contains "/" ident = false -> Py.contains "/" query = false ->
  Py.contains "?" ident = false ->
  SpotifyPlaylist_from_url sp (base ++ String "/" (ident ++ String "?" query))
  = Ok (SpotifyPlaylist.mk (playlist sp ident) sp ident).
Proof.
  intros Hi Hq Hd. unfold SpotifyPlaylist_from_url.
  rewrite (SpotifyPlaylist_url_id_query base ident query Hi Hq Hd).
  reflexivity.
Qed.

(** X18. [UnspotifyPlaylist.from_url] on [base/ident&rest], where
    [ident] holds neither ["/"] nor ["&"] and [rest] no ["/"]: the
    playlist is built for [ident], cut at the first ["&"]; a ["?"] in
    [ident] stays in the identifier. *)
Theorem X18_unspotify_from_url_ampersand (sp : Spotify) (base ident rest : string) :
  Py.contains "/" ident = false -> Py.contains "/" rest = false ->
  Py.contains "&" ident = false ->
  UnspotifyPlaylist_from_url sp (base ++ String "/" (ident ++ String "&" rest))
  = Ok (UnspotifyPlaylist.mk (playlist sp ident) sp ident 0 []).
Proof.
  intros Hi Hr Ha. unfold UnspotifyPlaylist_from_url, UnspotifyPlaylist_url_id.
  rewrite last_segment.
  - cbn [result_bind]. rewrite (first_field _ _ _ Ha). reflexivity.
  - rewrite contains_app. cbn [Py.contains]. rewrite Hi, Hr. reflexivity.
Qed.

Lemma X17_spotify_from_url_query_witness :
  SpotifyPlaylist_from_url (catalogue_client "Mix" [])
    "https://open.example.com/playlist/abc123?si=xyz&nd=1"
  = Ok (SpotifyPlaylist.mk "Mix" (catalogue_client "Mix" []) "abc123").
Proof.
  exact (X17_spotify_from_url_query (catalogue_client "Mix" [])
           "https://open.example.com/playlist" "abc123" "si=xyz&nd=1"
           eq_refl eq_refl eq_refl).
Defined.

Lemma X18_unspotify_from_url_ampersand_witness :
  UnspotifyPlaylist_from_url (catalogue_client "Mix" [])
    "https://open.example.com/playlist/abc123?si=xyz&nd=1"
  = Ok (UnspotifyPlaylist.mk "Mix" (catalogue_client "Mix" []) "abc123?si=xyz" 0 []).
Proof.
  exact (X18_unspotify_from_url_ampersand (catalogue_client "Mix" [])
           "https://open.example.com/playlist" "abc123?si=xyz" "nd=1"
           eq_refl eq_refl eq_refl).
Defined.

(** ** Runs of the tag writer that fail *)

Ltac tag_run :=
  unfold _set_track_metadata, file_add, emit,
    UnspotifyTrackInfo.get_album_image_url;
  run_step.

(** The steps of the tag writer that may raise, in the order of the run. *)
Ltac tag_step env path info :=
  cbn [fst snd file events tag_start];
  first
    [ match goal with
      | |- context [ID3 env path] => destruct (ID3 env path) eqn:?
      end
    | match goal with
      | |- context [Py.str (UnspotifyTrackInfo.track_number info)] =>
          destruct (Py.str (UnspotifyTrackInfo.track_number info)) eqn:?
      end
    | match goal with
      | |- context [UnspotifyTrackInfo.release_date info] =>
          destruct (UnspotifyTrackInfo.release_date info) eqn:?; run_step
      end
    | match goal with
      | |- context [Py.str (datetime.year ?d)] =>
          destruct (Py.str (datetime.year d)) eqn:?
      end
    | match goal with
      | |- context [UnspotifyTrackInfo.album_image_url info] =>
          destruct (UnspotifyTrackInfo.album_image_url info) eqn:?
      end
    | match goal with
      | |- context [urlopen_read env ?u] => destruct (urlopen_read env u) eqn:?
      end
    | match goal with
      | |- context [save env path ?f] => destruct (save env path f) as [[]|] eqn:?
      end
    | match goal with
      | |- context [pathlib.with_stem ?v ?p ?s] =>
          destruct (pathlib.with_stem v p s) eqn:?
      end
    | match goal with
      | |- context [rename env path ?d] =>
          destruct (rename env path d) as [[]|] eqn:?
      end ].

Ltac tag_cases env path info :=
  repeat tag_step env path info; cbn [fst snd file events tag_start app].


(** A string that holds a space has a component. *)
Lemma split_keeps_char (c d : ascii) (s : string) :
  Ascii.eqb d c = false -> Py.contains d s = true ->
  Exists (fun w => Py.contains d w = true) (Py.split c s).
Proof.
  intros Hdc. induction s as [|a s IH]; cbn [Py.contains Py.split];
    [discriminate|].
  intros H. destruct (Ascii.eqb a c) eqn:Eac.
  - apply Ascii.eqb_eq in Eac. subst a. rewrite Ascii.eqb_sym, Hdc in H.
    apply Exists_cons_tl, IH. exact H.
  - pose proof (split_nonempty c s) as Hne.
    destruct (Py.split c s) as [|w ws]; [congruence|].
    destruct (Ascii.eqb a d) eqn:Ead.
    + apply Exists_cons_hd. cbn [Py.contains]. rewrite Ead. reflexivity.
    + specialize (IH H). inversion IH as [? ? Hw|? ? Hws]; subst.
      * apply Exists_cons_hd. cbn [Py.contains]. rewrite Hw, orb_true_r.
        reflexivity.
      * apply Exists_cons_tl. exact Hws.
Qed.

Lemma components_space (s : string) :
  Py.contains " " s = true -> pathlib.components s <> [].
Proof.
  intros H. apply (split_keeps_char "/" " " s eq_refl) in H.
  apply Exists_exists in H as (w & Hin & Hw).
  assert (Hel : w ∈ pathlib.components s).
  { unfold pathlib.components. apply list_elem_of_filter. split.
    - split; intros ->; discriminate Hw.
    - exact Hin. }
  intros E. rewrite E in Hel. inversion Hel.
Qed.

(** A new stem that starts with a component and a separator is refused
    by both rules of [with_name]. *)
Lemma with_stem_refused (v : pathlib.version) (p : pathlib.Path)
  (a b rest : string) :
  component a ->
  exists msg,
    pathlib.with_stem v p ((a ++ String "/" b) ++ " - " ++ rest)
    = Raise (ValueError msg).
Proof.
  intros Ha. unfold pathlib.with_stem, pathlib.with_name.
  destruct (bool_decide _); [eauto|].
  rewrite !str_append_assoc, append_cons_l.
  set (tl := (b ++ " - " ++ rest ++ pathlib.suffix p)%string).
  assert (Hv : pathlib.valid_name v (a ++ String "/" tl) = false).
  { destruct v; unfold pathlib.valid_name.
    - assert (Hparts : (2 <= length (pathlib.parts
                                       (pathlib.parse (a ++ String "/" tl))))%nat).
      { unfold pathlib.parse. rewrite (lstrip_sep_component _ _ Ha).
        cbn [pathlib.parts].
        rewrite components_app, (components_component _ Ha).
        assert (Htl : pathlib.components tl <> []).
        { apply components_space. unfold tl. rewrite !contains_app.
          cbn [Py.contains Ascii.eqb Bool.eqb orb].
          rewrite orb_true_r. reflexivity. }
        destruct (pathlib.components tl); [congruence|cbn; lia]. }
      destruct (Nat.eqb_spec
                  (length (pathlib.parts (pathlib.parse (a ++ String "/" tl)))) 1)
        as [E|_]; [lia|].
      rewrite andb_false_r. reflexivity.
    - rewrite contains_app. cbn [Py.contains]. rewrite Ascii.eqb_refl.
      cbn [orb]. rewrite !orb_true_r. reflexivity. }
  rewrite Hv. eauto.
Qed.

(** X20. A track whose artist is written with a ["/"] after a first part
    that is a path component, as in [AC/DC]: the tag writer never renames
    the file and never returns, on either version of [pathlib].  When all
    that comes before succeeds (the tag loads, the numbers are formatted,
    the cover is fetched, the tag is saved) the run ends with the
    [ValueError] of [with_stem], the tag saved under the old name. *)
Theorem X20_slash_in_name (env : Env) (path : string)
  (info : UnspotifyTrackInfo.t) (a b : string) :
  UnspotifyTrackInfo.artist info = (a ++ String "/" b)%string ->
  component a ->
  (exists e, fst (_set_track_metadata env path info tag_start) = Raise e)
  /\ (forall src dst,
         ~ In (EvRename src dst)
             (events (snd (_set_track_metadata env path info tag_start))))
  /\ (forall loaded tn url data,
         ID3 env path = Ok loaded ->
         Py.str (UnspotifyTrackInfo.track_number info) = Ok tn ->
         (forall d, UnspotifyTrackInfo.release_date info = Some d ->
                    exists y, Py.str (datetime.year d) = Ok y) ->
         UnspotifyTrackInfo.album_image_url info = Some url ->
         urlopen_read env url = Ok data ->
         (forall frames, save env path frames = Ok tt) ->
         exists msg frames,
           fst (_set_track_metadata env path info tag_start) = Raise (ValueError msg)
           /\ events (snd (_set_track_metadata env path info tag_start))
              = [EvSave path frames]).
Proof.
  intros Hartist Ha.
  destruct (with_stem_refused (python env) (pathlib.parse path) a b
              (UnspotifyTrackInfo.name info) Ha) as [msg Hstem].
  rewrite <- Hartist in Hstem.
  split; [|split].
  - tag_run. tag_cases env path info; try congruence; eauto.
  - intros src dst. tag_run. tag_cases env path info; try congruence;
      intros Hin; repeat (destruct Hin as [Hin|Hin]; [discriminate Hin|]);
      exact Hin.
  - intros loaded tn url data Hload Htn Hyear Hurl Hdata Hsave.
    tag_run. cbn [tag_start file events].
    rewrite Hload. cbn [file events]. rewrite Htn. cbn [file events].
    destruct (UnspotifyTrackInfo.release_date info) as [d|] eqn:Ed; run_step.
    + destruct (Hyear d eq_refl) as [y Hy]. rewrite Hy. cbn [file events].
      rewrite Hurl, Hdata. cbn [file events]. rewrite Hsave.
      cbn [file events]. rewrite Hstem. cbn [fst snd events app].
      eexists _, _. split; reflexivity.
    + rewrite Hurl, Hdata. cbn [file events]. rewrite Hsave.
      cbn [file events]. rewrite Hstem. cbn [fst snd events app].
      eexists _, _. split; reflexivity.
Qed.

(** Where the two rules of [with_name] part: an artist written [./AC]
    gives a new name of one component after a ["./"], which Python 3.11
    accepts (the file is renamed, the new name written as it is after the
    directory) and Python 3.12 refuses. *)
Lemma dot_slash_artist_by_version :
  events (snd (_set_track_metadata sample_env_311 "Mix/a.mp3"
                 dot_slash_info tag_start))
  = [EvSave "Mix/a.mp3"
       [TOFN 3 "a"; TIT2 3 "DC"; TPE2 3 "./AC"; TRCK 3 "1"; TALB 3 "Album";
        APIC "image/jpeg" 3 "Cover" "JPEG"];
     EvRename "Mix/a.mp3" "Mix/./AC - DC.mp3";
     EvPrint "	Finished saving «DC»."]
  /\ _set_track_metadata sample_env "Mix/a.mp3" dot_slash_info tag_start
     = (Raise (ValueError "Invalid name './AC - DC.mp3'"),
        mk_TagState
          [TOFN 3 "a"; TIT2 3 "DC"; TPE2 3 "./AC"; TRCK 3 "1"; TALB 3 "Album";
           APIC "image/jpeg" 3 "Cover" "JPEG"]
          [EvSave "Mix/a.mp3"
             [TOFN 3 "a"; TIT2 3 "DC"; TPE2 3 "./AC"; TRCK 3 "1"; TALB 3 "Album";
              APIC "image/jpeg" 3 "Cover" "JPEG"]]).
Proof. split; vm_compute; reflexivity. Qed.

(** X21. A track normalised from a record without an image of positive
    height cannot be tagged: whatever the file and the environment are,
    the tag writer raises before it saves, so the file is left as it was,
    tags and name.  The exception is the [AttributeError] of the missing
    [album_image_url] unless the tag did not load or a number could not
    be formatted. *)
Theorem X21_no_cover_no_tag (fromisoformat : string -> option datetime.date)
  (env : Env) (path : string) (t : Track.t) (info : UnspotifyTrackInfo.t) :
  UnspotifyTrackInfo_init fromisoformat t = Ok info ->
  (forall image, In image (Album.images (Track.album t)) ->
                 Image.height image <= 0) ->
  events (snd (_set_track_metadata env path info tag_start)) = []
  /\ exists e,
      fst (_set_track_metadata env path info tag_start) = Raise e
      /\ (e = AttributeError "album_image_url"
          \/ ID3 env path = Raise e
          \/ exists msg, e = ValueError msg).
Proof.
  intros Hinit Hnone.
  pose proof (unspotify_init_cover _ _ _ Hinit) as Hu.
  rewrite (cover_scan_nothing _ Hnone) in Hu. cbn [snd] in Hu.
  tag_run. rewrite Hu. cbn [tag_start file events].
  destruct (ID3 env path) as [loaded|e] eqn:Eload; cbn [fst snd file events];
    [|split; [reflexivity|eauto]].
  destruct (Py.str (UnspotifyTrackInfo.track_number info)) as [tn|e] eqn:Etn;
    cbn [fst snd file events].
  - destruct (UnspotifyTrackInfo.release_date info) as [d|]; run_step.
    + destruct (Py.str (datetime.year d)) as [y|e] eqn:Ey;
        cbn [fst snd file events].
      * split; [reflexivity|eauto].
      * split; [reflexivity|]. exists e. split; [reflexivity|].
        right. right. unfold Py.str in Ey.
        destruct (_ <? _)%nat; inversion Ey. eauto.
    + split; [reflexivity|eauto].
  - split; [reflexivity|]. exists e. split; [reflexivity|].
    right. right. unfold Py.str in Etn.
    destruct (_ <? _)%nat; inversion Etn. eauto.
Qed.

Lemma X20_slash_in_name_witness :
  (exists e, fst (_set_track_metadata sample_env_311 sample_path slash_info tag_start)
             = Raise e)
  /\ (forall src dst,
         ~ In (EvRename src dst)
             (events (snd (_set_track_metadata sample_env_311 sample_path slash_info
                             tag_start))))
  /\ exists msg frames,
      fst (_set_track_metadata sample_env_311 sample_path slash_info tag_start)
      = Raise (ValueError msg)
      /\ events (snd (_set_track_metadata sample_env_311 sample_path slash_info
                        tag_start))
         = [EvSave sample_path frames].
Proof.
  assert (Ha : component "AC") by (repeat split; discriminate).
  pose proof (X20_slash_in_name sample_env_311 sample_path slash_info "AC" "DC"
                eq_refl Ha)
    as (H1 & H2 & H3).
  split; [exact H1|]. split; [exact H2|].
  apply (H3 [TOFN 3 "Lavf"; TIT2 3 "untitled"] "1" "https://img.example.com/640"
           "JPEG");
    try reflexivity.
  intros d Hd. injection Hd as <-. exists "1979". reflexivity.
Defined.

Lemma X21_no_cover_no_tag_witness :
  events (snd (_set_track_metadata sample_env sample_path
                 (unspotify_value fromisoformat_ymd
                    (sample_track [] "2024" (Some "year"))) tag_start)) = []
  /\ exists e,
      fst (_set_track_metadata sample_env sample_path
             (unspotify_value fromisoformat_ymd
                (sample_track [] "2024" (Some "year"))) tag_start) = Raise e
      /\ (e = AttributeError "album_image_url"
          \/ ID3 sample_env sample_path = Raise e
          \/ exists msg, e = ValueError msg).
Proof.
  apply (X21_no_cover_no_tag fromisoformat_ymd sample_env sample_path
           (sample_track [] "2024" (Some "year"))).
  - reflexivity.
  - intros image [].
Defined.

(** ** The logger *)

(** X22. Whatever the backend logs, only the messages passed to [error]
    are printed, each once and in the order of the calls: [debug] prints
    nothing, with or without the ["[debug] "] prefix, since [info]
    discards what [debug] hands it; [info] and [warning] print nothing. *)
Theorem X22_logger_prints_errors_only (calls : list LogCall) (out : Stdout) :
  run_all logger_call calls out = (Ok tt, (out ++ error_messages calls)%list).
Proof.
  revert out. induction calls as [|c calls IH]; intros out.
  - cbn. rewrite app_nil_r. reflexivity.
  - cbn [run_all error_messages]. unfold bind.
    destruct c as [msg|msg|msg|msg]; cbn [logger_call].
    + unfold Logger_debug, Logger_info. destruct (startswith msg "[debug] ");
        cbn [ret]; apply IH.
    + cbn [Logger_info ret]. apply IH.
    + cbn [Logger_warning ret]. apply IH.
    + unfold Logger_error, print_line, modify. rewrite IH, <- app_assoc.
      reflexivity.
Qed.

(** ** The download driver *)

Lemma track_downloaded_ok (path : string) (pos : Z)
  (tracks : list UnspotifyTrackInfo.t) (w : DriverWorld) (t : UnspotifyTrackInfo.t) :
  formats (pos + 1) -> formats (Py.len tracks) ->
  Py.item tracks pos = Ok t ->
  _track_downloaded path (UnspotifyYTDownloader.mk pos tracks, w)
  = (Ok tt,
     (UnspotifyYTDownloader.mk (pos + 1) tracks,
      mk_DriverWorld (stdout w ++ [progress_line (pos + 1) (Py.len tracks) t])%list
        (threads w ++ [(path, t)])%list)).
Proof.
  intros Hi Hn Ht. unfold _track_downloaded. run_step.
  cbn [UnspotifyYTDownloader._current_pos UnspotifyYTDownloader._current_tracks].
  rewrite Hi, Hn, Ht. reflexivity.
Qed.


Lemma item_at {A} (l : list A) (pos : Z) (x : A) (rest : list A) :
  0 <= pos -> drop (Z.to_nat pos) l = x :: rest -> Py.item l pos = Ok x.
Proof.
  intros Hpos Hdrop. rewrite <- (Z2Nat.id pos) at 1 by exact Hpos.
  rewrite item_of_nat.
  rewrite <- (Nat.add_0_r (Z.to_nat pos)), <- lookup_drop, Hdrop. reflexivity.
Qed.

(** X23. The hook pairs files with tracks by position.  From a cursor at
    [pos], for files that finish with the paths [paths] while the track
    list still has a track for each, the hook starts one thread per file,
    the file number [i] with the track at position [pos + i] of the
    list, whichever search the file came from; it prints one numbered
    progress line per file and leaves the cursor at [pos + len(paths)]. *)
Theorem X23_files_paired_by_position (tracks : list UnspotifyTrackInfo.t) :
  formats (Py.len tracks) ->
  forall (paths : list string) (pos : Z) (w : DriverWorld),
    0 <= pos -> pos + Py.len paths <= Py.len tracks ->
    (forall k, pos < k <= pos + Py.len paths -> formats k) ->
    run_all _track_downloaded paths (UnspotifyYTDownloader.mk pos tracks, w)
    = (Ok tt,
       (UnspotifyYTDownloader.mk (pos + Py.len paths) tracks,
        mk_DriverWorld
          (stdout w
           ++ progress_lines pos (Py.len tracks)
                (take (length paths) (drop (Z.to_nat pos) tracks)))%list
          (threads w ++ combine paths (drop (Z.to_nat pos) tracks))%list)).
Proof.
  intros Hn paths. induction paths as [|p paths IH]; intros pos w Hpos Hlen Hfmt.
  - cbn [run_all ret Py.len length take progress_lines combine].
    rewrite Z.add_0_r, !app_nil_r. destruct w; reflexivity.
  - unfold Py.len in *. cbn [length] in Hlen, Hfmt.
    destruct (drop (Z.to_nat pos) tracks) as [|t rest] eqn:Hdrop.
    { apply (f_equal length) in Hdrop. rewrite length_drop in Hdrop.
      cbn [length] in Hdrop. lia. }
    cbn [run_all]. unfold bind.
    rewrite (track_downloaded_ok p pos tracks w t);
      [|apply Hfmt; lia|exact Hn|exact (item_at _ _ _ _ Hpos Hdrop)].
    assert (Hrest : drop (Z.to_nat (pos + 1)) tracks = rest).
    { replace (Z.to_nat (pos + 1)) with (Z.to_nat pos + 1)%nat by lia.
      rewrite <- drop_drop, Hdrop. reflexivity. }
    rewrite IH by (try lia; intros k Hk; apply Hfmt; lia).
    rewrite Hrest. cbn [stdout threads length take progress_lines combine].
    rewrite <- !app_assoc. cbn [app].
    replace (pos + 1 + Z.of_nat (length paths))
      with (pos + Z.of_nat (S (length paths))) by lia.
    reflexivity.
Qed.

Lemma track_downloaded_past (path : string) (pos : Z)
  (tracks : list UnspotifyTrackInfo.t) (w : DriverWorld) :
  Py.len tracks <= pos ->
  formats (pos + 1) -> formats (Py.len tracks) ->
  _track_downloaded path (UnspotifyYTDownloader.mk pos tracks, w)
  = (Raise IndexError, (UnspotifyYTDownloader.mk pos tracks, w)).
Proof.
  intros Hpast Hi Hn. unfold _track_downloaded. run_step.
  cbn [UnspotifyYTDownloader._current_pos UnspotifyYTDownloader._current_tracks].
  rewrite Hi, Hn. unfold Py.len in Hpast.
  assert (Hitem : Py.item tracks pos = Raise IndexError).
  { rewrite <- (Z2Nat.id pos) by lia. rewrite item_of_nat.
    rewrite (proj2 (lookup_ge_None tracks (Z.to_nat pos))) by lia.
    reflexivity. }
  rewrite Hitem. reflexivity.
Qed.


Section DriverRuns.

Variable fromisoformat : string -> option datetime.date.

(** X25. [download_playlist] replaces the track list of the driver by
    what [list(playlist)] produced and asks the backend for one search
    per track, in that order; it does not move the cursor.  A driver used
    again therefore starts from the count of the files of its earlier
    downloads: when the new list has no track at that position, the hook
    raises [IndexError] on the first file that finishes.  When
    [list(playlist)] raises, the exception leaves [download_playlist] and
    the driver is unchanged. *)
Theorem X25_download_keeps_cursor (fuel : nat) (self : UnspotifyYTDownloader.t)
  (playlist : UnspotifyPlaylist.t * World) :
  (forall d self' playlist',
      download_playlist fromisoformat fuel self playlist
      = Some (Ok d, (self', playlist')) ->
      UnspotifyPlaylist_list fromisoformat fuel playlist
      = Some (Ok (UnspotifyYTDownloader._current_tracks self'), playlist')
      /\ UnspotifyYTDownloader._current_pos self'
         = UnspotifyYTDownloader._current_pos self
      /\ queries d = map search_query (UnspotifyYTDownloader._current_tracks self')
      /\ (forall path w,
             Py.len (UnspotifyYTDownloader._current_tracks self')
             <= UnspotifyYTDownloader._current_pos self ->
             formats (UnspotifyYTDownloader._current_pos self + 1) ->
             formats (Py.len (UnspotifyYTDownloader._current_tracks self')) ->
             _track_downloaded path (self', w) = (Raise IndexError, (self', w))))
  /\ (forall e self' playlist',
         download_playlist fromisoformat fuel self playlist
         = Some (Raise e, (self', playlist')) ->
         self' = self
         /\ UnspotifyPlaylist_list fromisoformat fuel playlist
            = Some (Raise e, playlist')).
Proof.
  unfold download_playlist.
  destruct (UnspotifyPlaylist_list fromisoformat fuel playlist)
    as [[[tracks|e0] pl]|]; split; try discriminate.
  - intros d self' playlist' H. injection H as <- <- <-.
    cbn [UnspotifyYTDownloader._current_tracks UnspotifyYTDownloader._current_pos
           queries].
    repeat split. intros path w Hpast Hi Hn.
    apply track_downloaded_past; assumption.
  - intros e self' playlist' H. injection H as <- <- <-. split; reflexivity.
Qed.

(** X26. [download_playlist] on a fresh playlist whose tracks all
    normalise: the files go to the directory named after the playlist,
    and the backend is asked for the searches
    ["ytsearch:<artist> <name>"] of the tracks in the order in which the
    iterator produces them, so that no search is made for the first
    track of the last page. *)
Theorem X26_download_queries (g : Track.t -> UnspotifyTrackInfo.t)
  (name id : string) (c : list Track.t) (fuel : nat)
  (self : UnspotifyYTDownloader.t) :
  (forall t, In t c -> UnspotifyTrackInfo_init fromisoformat t = Ok (g t)) ->
  (length c + 1 <= fuel)%nat ->
  exists playlist',
    download_playlist fromisoformat fuel self
      (UnspotifyPlaylist_init (catalogue_client name c) id, [])
    = Some (Ok (mk_Download
                  (mk_YdlOpts "mp3/bestaudio/best"
                     ("./" ++ name ++ "/%(title)s.%(ext)s")%string
                     [[("key", "FFmpegExtractAudio"); ("preferredcodec", "mp3")]])
                  (map (fun t => search_query (g t)) (produced c))),
            (UnspotifyYTDownloader.mk (UnspotifyYTDownloader._current_pos self)
               (map g (produced c)),
             playlist'))
    /\ length (map (fun t => search_query (g t)) (produced c))
       = (length c - (if (length c mod 100 =? 0)%nat then 0 else 1))%nat.
Proof.
  intros Hg Hfuel. unfold download_playlist.
  destruct (run_playlist _ g name id c Hg fuel Hfuel) as [final Hrun].
  rewrite unspotify_list_fresh, Hrun. cbn [option_map fst snd].
  eexists. split.
  - cbn [unspotify_with_cursor UnspotifyPlaylist.name UnspotifyPlaylist_init
           catalogue_client playlist UnspotifyYTDownloader._current_tracks].
    rewrite map_map. reflexivity.
  - rewrite length_map. apply produced_length.
Qed.

End DriverRuns.

Lemma formats_small (k : Z) : 0 <= k <= 3 -> formats k.
Proof.
  intros Hk.
  assert (H : k = 0 \/ k = 1 \/ k = 2 \/ k = 3) by lia.
  destruct H as [-> | [-> | [-> | ->]]]; reflexivity.
Defined.

Lemma X23_files_paired_by_position_witness :
  run_all _track_downloaded ["./Mix/a.mp3"; "./Mix/b.mp3"]
    (UnspotifyYTDownloader.mk 0 [sample_info; slash_info],
     mk_DriverWorld [] [])
  = (Ok tt,
     (UnspotifyYTDownloader.mk 2 [sample_info; slash_info],
      mk_DriverWorld
        ["(1/2) 	Downloaded «Mr. Brightside»...";
         "(2/2) 	Downloaded «Highway to Hell»..."]
        [("./Mix/a.mp3", sample_info); ("./Mix/b.mp3", slash_info)])).
Proof.
  exact (X23_files_paired_by_position [sample_info; slash_info] eq_refl
           ["./Mix/a.mp3"; "./Mix/b.mp3"] 0 (mk_DriverWorld [] [])
           ltac:(lia) ltac:(unfold Py.len; cbn; lia)
           (fun k Hk => formats_small k ltac:(unfold Py.len in Hk; cbn in Hk; lia))).
Defined.


Lemma X25_download_keeps_cursor_witness :
  _track_downloaded "./Mix/a.mp3"
    (UnspotifyYTDownloader.mk 3
       (map (unspotify_value fromisoformat_ymd) (produced (numbered_catalogue 3))),
     mk_DriverWorld [] [])
  = (Raise IndexError,
     (UnspotifyYTDownloader.mk 3
        (map (unspotify_value fromisoformat_ymd) (produced (numbered_catalogue 3))),
      mk_DriverWorld [] [])).
Proof.
  pose proof (proj1 (X25_download_keeps_cursor fromisoformat_ymd 4
                       (UnspotifyYTDownloader.mk 3 [])
                       (UnspotifyPlaylist_init
                          (catalogue_client "Mix" (numbered_catalogue 3)) "abc123",
                        []))
                _ _ _ eq_refl) as (_ & _ & _ & H).
  exact (H "./Mix/a.mp3" (mk_DriverWorld [] [])
           ltac:(vm_compute; discriminate) eq_refl eq_refl).
Defined.

Lemma X26_download_queries_witness :
  exists playlist',
    download_playlist fromisoformat_ymd 4 UnspotifyYTDownloader_init
      (UnspotifyPlaylist_init (catalogue_client "Mix" (numbered_catalogue 3))
         "abc123", [])
    = Some (Ok (mk_Download
                  (mk_YdlOpts "mp3/bestaudio/best" "./Mix/%(title)s.%(ext)s"
                     [[("key", "FFmpegExtractAudio"); ("preferredcodec", "mp3")]])
                  (map (fun t => search_query (unspotify_value fromisoformat_ymd t))
                     (produced (numbered_catalogue 3)))),
            (UnspotifyYTDownloader.mk 0
               (map (unspotify_value fromisoformat_ymd)
                  (produced (numbered_catalogue 3))),
             playlist'))
    /\ length (map (fun t => search_query (unspotify_value fromisoformat_ymd t))
                 (produced (numbered_catalogue 3))) = 2%nat.
Proof.
  exact (X26_download_queries fromisoformat_ymd (unspotify_value fromisoformat_ymd)
           "Mix" "abc123" (numbered_catalogue 3) 4 UnspotifyYTDownloader_init
           (numbered_unspotify_value 3) ltac:(cbn; lia)).
Defined.
